(** * Visitor quota and session authentication of the address-lookup backend

    A shallow embedding of [auth.js], [database.js] and the handlers of
    [server.js] that decide whether a lookup is allowed and who makes it.

    Conventions of the model.
    - A JavaScript string is a [string] whose characters are code units
      below 256; [toLowerCase] and [trim] are written out for that range.
    - The SQLite tables are lists of rows in rowid order.  A statement that
      SQLite refuses (UNIQUE or FOREIGN KEY) throws; what the statements
      before it wrote stays written, since the code opens no transaction.
    - The clock is a number of milliseconds since the epoch.  JavaScript
      renders it with [toISOString], SQLite with [datetime('now')]; both
      texts are built character by character, because the store compares
      them as texts.
    - A field of a JSON body is a [Js.value], since the handlers take what
      the request carries: absent, null, a boolean, a number, a string, or
      an array or object.  A statement of better-sqlite3 binds its
      parameters before it runs and refuses a boolean, an array and an
      object with a TypeError; the functions of [Database] are written on
      the parameters as bound, and the handlers bind the body fields in
      front of them, at the place of the [.run] or [.get].
    - The values the process draws from outside (clock, UUID, bcrypt, the
      text SQLite makes of a number) are the fields of an [Env] handed to
      each handler. *)

From Stdlib Require Import ZArith List String Ascii Bool Lia.
Import ListNotations.

Local Open Scope string_scope.
Local Open Scope Z_scope.

(** ** JavaScript and SQLite primitives *)

Module Js.

Definition code (c : ascii) : Z := Z.of_N (N_of_ascii c).

Definition chars (s : string) : list ascii := list_ascii_of_string s.

(** [s.length] *)
Definition length (s : string) : Z := Z.of_nat (String.length s).

(** A value as [typeof] and truthiness see it. *)
Inductive value : Type :=
| Undefined
| Null
| Bool (b : bool)
| Number (n : Z)
| Str (s : string)
| Object.

(** [!v] is [negb (truthy v)]. *)
Definition truthy (v : value) : bool :=
  match v with
  | Undefined | Null => false
  | Bool b => b
  | Number n => negb (n =? 0)
  | Str s => negb (String.eqb s "")
  | Object => true
  end.

Definition of_field (f : option string) : value :=
  match f with
  | None => Undefined
  | Some s => Str s
  end.

(** Truthiness of a field that is absent or a string. *)
Definition present (f : option string) : bool := truthy (of_field f).

(** The string of a truthy field; [None] when [!f]. *)
Definition nonempty (f : option string) : option string :=
  match f with
  | Some s => if String.eqb s "" then None else Some s
  | None => None
  end.


(** [a || b] on fields. *)
Definition or_else (a b : option string) : option string :=
  match nonempty a with
  | Some s => Some s
  | None => b
  end.

Definition lower_char (c : ascii) : ascii :=
  let n := code c in
  if ((65 <=? n) && (n <=? 90))
     || ((192 <=? n) && (n <=? 222) && negb (n =? 215))
  then ascii_of_N (Z.to_N (n + 32))
  else c.

Fixpoint toLowerCase (s : string) : string :=
  match s with
  | EmptyString => EmptyString
  | String c r => String (lower_char c) (toLowerCase r)
  end.

Definition is_space (c : ascii) : bool :=
  let n := code c in
  ((9 <=? n) && (n <=? 13)) || (n =? 32) || (n =? 160).

Fixpoint trimStart (s : string) : string :=
  match s with
  | EmptyString => EmptyString
  | String c r => if is_space c then trimStart r else s
  end.

Fixpoint trimEnd (s : string) : string :=
  match s with
  | EmptyString => EmptyString
  | String c r =>
      match trimEnd r with
      | EmptyString => if is_space c then EmptyString else String c EmptyString
      | r' => String c r'
      end
  end.

Definition trim (s : string) : string := trimEnd (trimStart s).

(** [s.split(sep)] for a separator of one character. *)
Fixpoint split (sep : ascii) (s : string) : list string :=
  match s with
  | EmptyString => [EmptyString]
  | String c r =>
      if Ascii.eqb c sep then EmptyString :: split sep r
      else match split sep r with
           | [] => [String c EmptyString]
           | p :: ps => String c p :: ps
           end
  end.

Definition is_digit (c : ascii) : bool := (48 <=? code c) && (code c <=? 57).

Definition is_letter (c : ascii) : bool :=
  ((97 <=? code c) && (code c <=? 122)) || ((65 <=? code c) && (code c <=? 90)).

Definition hex_value (c : ascii) : option Z :=
  let n := code c in
  if is_digit c then Some (n - 48)
  else if (97 <=? n) && (n <=? 102) then Some (n - 87)
  else if (65 <=? n) && (n <=? 70) then Some (n - 55)
  else None.

Definition dec_value (c : ascii) : option Z :=
  if is_digit c then Some (code c - 48) else None.

(** The longest prefix of digits, read in [radix]; [None] when there is no
    digit at all (JavaScript's NaN). *)
Fixpoint digits_prefix (val : ascii -> option Z) (radix : Z)
         (acc : option Z) (s : string) : option Z :=
  match s with
  | EmptyString => acc
  | String c r =>
      match val c with
      | None => acc
      | Some d =>
          digits_prefix val radix
            (Some (match acc with None => d | Some a => a * radix + d end)) r
      end
  end.

Definition parse_magnitude (s : string) : option Z :=
  match s with
  | String "0" (String x r) =>
      if (Ascii.eqb x "x") || (Ascii.eqb x "X")
      then digits_prefix hex_value 16 None r
      else digits_prefix dec_value 10 None s
  | _ => digits_prefix dec_value 10 None s
  end.

(** [parseInt(s)]: leading white space, a sign, then hexadecimal after [0x]
    and decimal otherwise.  [None] is NaN.  The result is exact, which a
    JavaScript number is below 2^53. *)
Definition parseInt (s : string) : option Z :=
  match trimStart s with
  | String "-" r => option_map Z.opp (parse_magnitude r)
  | String "+" r => parse_magnitude r
  | r => parse_magnitude r
  end.

(** [Array.prototype.includes] on strings. *)
Definition includes (l : list string) (s : string) : bool :=
  existsb (String.eqb s) l.

(** [re.test(s)] for a regular expression that is one character class. *)
Definition test_class (cls : ascii -> bool) (s : string) : bool :=
  existsb cls (chars s).

End Js.

(** ** Regular expressions *)

Module Regex.

(** The expressions the sources use: character classes, sequence, choice
    and repetition. *)
Inductive t : Type :=
| Void
| Eps
| Class (p : ascii -> bool)
| Seq (r s : t)
| Alt (r s : t)
| Star (r : t).

(** [r+] *)
Definition Plus (r : t) : t := Seq r (Star r).

Definition Chr (c : ascii) : t := Class (Ascii.eqb c).

Fixpoint nullable (r : t) : bool :=
  match r with
  | Void => false
  | Eps => true
  | Class _ => false
  | Seq r1 r2 => nullable r1 && nullable r2
  | Alt r1 r2 => nullable r1 || nullable r2
  | Star _ => true
  end.

(** What is left of [r] after it has read [c]. *)
Fixpoint deriv (c : ascii) (r : t) : t :=
  match r with
  | Void => Void
  | Eps => Void
  | Class p => if p c then Eps else Void
  | Seq r1 r2 =>
      if nullable r1 then Alt (Seq (deriv c r1) r2) (deriv c r2)
      else Seq (deriv c r1) r2
  | Alt r1 r2 => Alt (deriv c r1) (deriv c r2)
  | Star r1 => Seq (deriv c r1) (Star r1)
  end.

Fixpoint matches (r : t) (s : list ascii) : bool :=
  match s with
  | [] => nullable r
  | c :: s' => matches (deriv c r) s'
  end.

(** [/^r$/.test(s)] *)
Definition test (r : t) (s : string) : bool := matches r (Js.chars s).

End Regex.

(** ** Calendar texts *)

Module Clock.

Definition digit (n : Z) : ascii := ascii_of_N (Z.to_N (48 + n mod 10)).

Definition pad2 (n : Z) (k : string) : string :=
  String (digit (n / 10)) (String (digit n) k).

Definition pad3 (n : Z) (k : string) : string :=
  String (digit (n / 100)) (pad2 n k).

Definition pad4 (n : Z) (k : string) : string :=
  String (digit (n / 1000)) (pad3 n k).

(** Year, month and day of the proleptic Gregorian calendar from the number
    of days since 1970-01-01. *)
Definition civil_from_days (days : Z) : Z * Z * Z :=
  let z := days + 719468 in
  let era := z / 146097 in
  let doe := z - era * 146097 in
  let yoe := (doe - doe / 1460 + doe / 36524 - doe / 146096) / 365 in
  let doy := doe - (365 * yoe + yoe / 4 - yoe / 100) in
  let mp := (5 * doy + 2) / 153 in
  let d := doy - (153 * mp + 2) / 5 + 1 in
  let m := if mp <? 10 then mp + 3 else mp - 9 in
  let y := yoe + era * 400 + (if m <=? 2 then 1 else 0) in
  (y, m, d).

Definition ms_per_day : Z := 86400000.

(** [YYYY-MM-DD] followed by [k]; years 0000 to 9999. *)
Definition date_then (ms : Z) (k : string) : string :=
  let '(y, m, d) := civil_from_days (ms / ms_per_day) in
  pad4 y (String "-" (pad2 m (String "-" (pad2 d k)))).

(** [HH:MM:SS] followed by [k]. *)
Definition time_then (ms : Z) (k : string) : string :=
  let t := ms mod ms_per_day in
  pad2 (t / 3600000) (String ":" (pad2 (t / 60000 mod 60)
    (String ":" (pad2 (t / 1000 mod 60) k)))).

(** [new Date(ms).toISOString()]: [YYYY-MM-DDTHH:mm:ss.sssZ]. *)
Definition toISOString (ms : Z) : string :=
  date_then ms (String "T" (time_then ms (String "." (pad3 (ms mod 1000) "Z")))).

(** SQLite's [datetime('now')] and [CURRENT_TIMESTAMP] when the clock shows
    [ms]: [YYYY-MM-DD HH:MM:SS]. *)
Definition sqlite_datetime (ms : Z) : string :=
  date_then ms (String " " (time_then ms "")).

(** SQLite's [date('now')]. *)
Definition sqlite_date (ms : Z) : string := date_then ms "".

End Clock.

(** ** Comparison of SQLite values *)

Module Sql.

(** Two TEXT values under the BINARY collation: byte by byte, the shorter
    text first when one is a prefix of the other. *)
Fixpoint text_compare (a b : string) : comparison :=
  match a with
  | EmptyString => match b with EmptyString => Eq | String _ _ => Lt end
  | String x a' =>
      match b with
      | EmptyString => Gt
      | String y b' =>
          match Js.code x ?= Js.code y with
          | Eq => text_compare a' b'
          | c => c
          end
      end
  end.

Definition text_gtb (a b : string) : bool :=
  match text_compare a b with Gt => true | _ => false end.

Definition text_leb (a b : string) : bool := negb (text_gtb a b).

(** White space as SQLite reads it around a number. *)
Definition is_blank (c : ascii) : bool :=
  ((9 <=? Js.code c) && (Js.code c <=? 13)) || (Js.code c =? 32).

Definition is_sign (c : ascii) : bool :=
  Ascii.eqb c "+" || Ascii.eqb c "-".

Definition is_exponent (c : ascii) : bool :=
  Ascii.eqb c "e" || Ascii.eqb c "E".

(** The text without its longest prefix of characters of the class. *)
Fixpoint skip (p : ascii -> bool) (s : string) : string :=
  match s with
  | EmptyString => EmptyString
  | String c r => if p c then skip p r else s
  end.

(** The first character is of the class. *)
Definition starts (p : ascii -> bool) (s : string) : bool :=
  match s with
  | EmptyString => false
  | String c _ => p c
  end.

Definition rest (s : string) : string :=
  match s with
  | EmptyString => EmptyString
  | String _ r => r
  end.

(** A column declared [DATETIME] has NUMERIC affinity: a text bound to it
    that is a well-formed integer or real literal is kept as that number,
    any other text as the text it is.  The literal: blanks, a sign, digits
    with a point in them, before them or after them, an exponent of [e], a
    sign and digits, blanks; at least one digit before the exponent. *)
Definition numeric_text (s : string) : bool :=
  let s := skip is_blank s in
  let s := if starts is_sign s then rest s else s in
  let whole := starts Js.is_digit s in
  let s := skip Js.is_digit s in
  let point := starts (Ascii.eqb ".") s in
  let s := if point then rest s else s in
  let fraction := point && starts Js.is_digit s in
  let s := if point then skip Js.is_digit s else s in
  let exponent := starts is_exponent s in
  let s := if exponent then rest s else s in
  let s := if exponent && starts is_sign s then rest s else s in
  let power := starts Js.is_digit s in
  let s := if exponent then skip Js.is_digit s else s in
  (whole || fraction) && (negb exponent || power)
  && String.eqb (skip is_blank s) "".

(** [cell > datetime('now')] on a [DATETIME] column.  A number is below
    every text; two texts compare as texts. *)
Definition datetime_gtb (cell now : string) : bool :=
  if numeric_text cell then false else text_gtb cell now.

(** [cell <= datetime('now')] *)
Definition datetime_leb (cell now : string) : bool :=
  negb (datetime_gtb cell now).

(** The NOCASE collation folds the 26 upper-case ASCII letters. *)
Definition nocase_char (c : ascii) : ascii :=
  if (65 <=? Js.code c) && (Js.code c <=? 90)
  then ascii_of_N (Z.to_N (Js.code c + 32)) else c.

Fixpoint nocase (s : string) : string :=
  match s with
  | EmptyString => EmptyString
  | String c r => String (nocase_char c) (nocase r)
  end.

Definition nocase_eqb (a b : string) : bool := String.eqb (nocase a) (nocase b).

(** Three-valued logic: [None] is NULL (unknown). *)
Definition eq_int (a b : option Z) : option bool :=
  match a, b with
  | Some x, Some y => Some (x =? y)
  | _, _ => None
  end.

Definition or3 (a b : option bool) : option bool :=
  match a, b with
  | Some true, _ | _, Some true => Some true
  | Some false, Some false => Some false
  | _, _ => None
  end.

Definition and3 (a b : option bool) : option bool :=
  match a, b with
  | Some false, _ | _, Some false => Some false
  | Some true, Some true => Some true
  | _, _ => None
  end.

(** A WHERE clause keeps a row only when the condition is true. *)
Definition holds (c : option bool) : bool :=
  match c with Some true => true | _ => false end.

(** [COALESCE(x, y)] with a second argument that is a column. *)
Definition coalesce {A} (x y : option A) : option A :=
  match x with Some _ => x | None => y end.

End Sql.

(** ** The store: [database.js] *)

Module Database.

(** *** Rows *)

Record Visitor : Type := mkVisitor {
  v_id : Z;
  v_fingerprint : string;
  v_ip_address : option string;
  v_user_agent : option string;
  v_language : option string;
  v_timezone : option string;
  v_screen_resolution : option string;
  v_platform : option string;
  v_referrer : option string;
  v_query_count : Z;
  v_first_seen : string;
  v_last_seen : string
}.

Record User : Type := mkUser {
  u_id : Z;
  u_email : string;
  u_password_hash : string;
  u_email_verified : Z;
  u_verification_token : option string;
  u_verification_expires : option string;
  u_tier : string;
  u_query_limit : option Z;
  u_visitor_id : option Z;
  u_is_superuser : Z;
  u_created_at : string;
  u_last_login : option string
}.

Record Session : Type := mkSession {
  s_id : Z;
  s_user_id : Z;
  s_token : string;
  s_ip_address : option string;
  s_user_agent : option string;
  s_expires_at : string;
  s_created_at : string
}.

Record QueryLog : Type := mkQueryLog {
  q_id : Z;
  q_visitor_id : option Z;
  q_user_id : option Z;
  q_address : string;
  q_blockchain : option string;
  q_query_type : option string;
  q_ip_address : option string;
  q_user_agent : option string;
  q_response_status : option string;
  q_created_at : string
}.

Record PasswordReset : Type := mkPasswordReset {
  pr_id : Z;
  pr_user_id : Z;
  pr_token : string;
  pr_expires_at : string;
  pr_used : Z;
  pr_created_at : string
}.

(** The five tables, and for each the largest rowid it ever held
    (AUTOINCREMENT's [sqlite_sequence]). *)
Record Tables : Type := mkTables {
  visitors : list Visitor;
  users : list User;
  sessions : list Session;
  query_log : list QueryLog;
  password_resets : list PasswordReset;
  seq_visitors : Z;
  seq_users : Z;
  seq_sessions : Z;
  seq_query_log : Z;
  seq_password_resets : Z
}.

Definition empty : Tables := mkTables [] [] [] [] [] 0 0 0 0 0.

Definition set_visitors (l : list Visitor) (n : Z) (t : Tables) : Tables :=
  mkTables l (users t) (sessions t) (query_log t) (password_resets t)
           n (seq_users t) (seq_sessions t) (seq_query_log t)
           (seq_password_resets t).

Definition set_users (l : list User) (n : Z) (t : Tables) : Tables :=
  mkTables (visitors t) l (sessions t) (query_log t) (password_resets t)
           (seq_visitors t) n (seq_sessions t) (seq_query_log t)
           (seq_password_resets t).

Definition set_sessions (l : list Session) (n : Z) (t : Tables) : Tables :=
  mkTables (visitors t) (users t) l (query_log t) (password_resets t)
           (seq_visitors t) (seq_users t) n (seq_query_log t)
           (seq_password_resets t).

Definition set_query_log (l : list QueryLog) (n : Z) (t : Tables) : Tables :=
  mkTables (visitors t) (users t) (sessions t) l (password_resets t)
           (seq_visitors t) (seq_users t) (seq_sessions t) n
           (seq_password_resets t).

Definition set_password_resets (l : list PasswordReset) (n : Z) (t : Tables)
  : Tables :=
  mkTables (visitors t) (users t) (sessions t) (query_log t) l
           (seq_visitors t) (seq_users t) (seq_sessions t) (seq_query_log t)
           n.

(** *** Statements that can throw

    The constraints SQLite enforces, and the TypeError of a parameter that
    cannot be bound. *)

Inductive SqliteError : Type :=
| SQLITE_CONSTRAINT_UNIQUE
| SQLITE_CONSTRAINT_FOREIGNKEY
| SQLITE_CONSTRAINT_NOTNULL
| TypeError.

Inductive Outcome (A : Type) : Type :=
| Returned (a : A)
| Thrown (e : SqliteError).
Arguments Returned {A} a.
Arguments Thrown {A} e.

Definition Db (A : Type) : Type := Tables -> Outcome A * Tables.

Definition ret {A} (a : A) : Db A := fun t => (Returned a, t).

Definition throw {A} (e : SqliteError) : Db A := fun t => (Thrown e, t).

Definition bind {A B} (m : Db A) (k : A -> Db B) : Db B :=
  fun t =>
    match m t with
    | (Returned a, t') => k a t'
    | (Thrown e, t') => (Thrown e, t')
    end.

Definition read {A} (f : Tables -> A) : Db A := fun t => (Returned (f t), t).

Definition write (f : Tables -> Tables) : Db unit :=
  fun t => (Returned tt, f t).

Declare Scope db_scope.
Delimit Scope db_scope with db.
Notation "x <- m ;; k" := (bind m (fun x => k))
  (at level 61, m at next level, right associativity) : db_scope.
Notation "m ;; k" := (bind m (fun _ => k))
  (at level 61, right associativity) : db_scope.
Local Open Scope db_scope.

(** The tables a computation leaves behind, thrown or not. *)
Definition exec {A} (m : Db A) (t : Tables) : Tables := snd (m t).

(** [x || null] on a number that may be NaN ([None]): 0 and NaN are falsy. *)
Definition or_null (x : option Z) : option Z :=
  match x with
  | Some 0 => None
  | _ => x
  end.

(** A foreign key that is NULL refers to nothing and is accepted. *)
Definition refers {A} (id_of : A -> Z) (rows : list A) (k : option Z) : bool :=
  match k with
  | None => true
  | Some i => existsb (fun r => id_of r =? i) rows
  end.

(** *** Visitor operations *)

Record VisitorData : Type := mkVisitorData {
  vd_fingerprint : string;
  vd_ip_address : option string;
  vd_user_agent : option string;
  vd_language : option string;
  vd_timezone : option string;
  vd_screen_resolution : option string;
  vd_platform : option string;
  vd_referrer : option string
}.

Record VisitorInfo : Type := mkVisitorInfo {
  vi_id : Z;
  vi_fingerprint : string;
  vi_query_count : Z;
  vi_queries_remaining : Z;
  vi_is_new : bool
}.

(** [SELECT * FROM visitors WHERE fingerprint = ?] *)
Definition getVisitorByFingerprint (fingerprint : string) (t : Tables)
  : option Visitor :=
  find (fun v => String.eqb (v_fingerprint v) fingerprint) (visitors t).

(** [SELECT * FROM visitors WHERE id = ?]; a NaN binds as NULL. *)
Definition getVisitorById (id : option Z) (t : Tables) : option Visitor :=
  match id with
  | None => None
  | Some i => find (fun v => v_id v =? i) (visitors t)
  end.

Definition refresh_visitor (now : Z) (ip ua : option string) (v : Visitor)
  : Visitor :=
  mkVisitor (v_id v) (v_fingerprint v)
            (Sql.coalesce ip (v_ip_address v))
            (Sql.coalesce ua (v_user_agent v))
            (v_language v) (v_timezone v) (v_screen_resolution v)
            (v_platform v) (v_referrer v) (v_query_count v)
            (v_first_seen v) (Clock.sqlite_datetime now).

Definition insert_visitor (now : Z) (d : VisitorData) : Db Z :=
  fun t =>
    if existsb (fun v => String.eqb (v_fingerprint v) (vd_fingerprint d))
               (visitors t)
    then (Thrown SQLITE_CONSTRAINT_UNIQUE, t)
    else
      let id := seq_visitors t + 1 in
      let row :=
        mkVisitor id (vd_fingerprint d) (vd_ip_address d) (vd_user_agent d)
                  (vd_language d) (vd_timezone d) (vd_screen_resolution d)
                  (vd_platform d) (vd_referrer d) 0
                  (Clock.sqlite_datetime now) (Clock.sqlite_datetime now) in
      (Returned id, set_visitors (visitors t ++ [row]) id t).

Definition upsertVisitor (now : Z) (d : VisitorData) : Db VisitorInfo :=
  existing <- read (getVisitorByFingerprint (vd_fingerprint d)) ;;
  match existing with
  | Some e =>
      write (fun t =>
        set_visitors
          (map (fun v =>
                  if String.eqb (v_fingerprint v) (vd_fingerprint d)
                  then refresh_visitor now (vd_ip_address d) (vd_user_agent d) v
                  else v)
               (visitors t))
          (seq_visitors t) t) ;;
      ret (mkVisitorInfo (v_id e) (v_fingerprint e) (v_query_count e)
                         (Z.max 0 (3 - v_query_count e)) false)
  | None =>
      id <- insert_visitor now d ;;
      ret (mkVisitorInfo id (vd_fingerprint d) 0 3 true)
  end.

Definition bump (v : Visitor) : Visitor :=
  mkVisitor (v_id v) (v_fingerprint v) (v_ip_address v) (v_user_agent v)
            (v_language v) (v_timezone v) (v_screen_resolution v)
            (v_platform v) (v_referrer v) (v_query_count v + 1)
            (v_first_seen v) (v_last_seen v).

(** [UPDATE visitors SET query_count = query_count + 1 WHERE id = ?], then
    the count read back, 0 when the row is gone. *)
Definition incrementVisitorQueryCount (visitorId : Z) : Db Z :=
  write (fun t =>
    set_visitors
      (map (fun v => if v_id v =? visitorId then bump v else v) (visitors t))
      (seq_visitors t) t) ;;
  visitor <- read (getVisitorById (Some visitorId)) ;;
  ret (match visitor with Some v => v_query_count v | None => 0 end).

(** *** User operations *)

(** Superuser emails (hardcoded for security). *)
Definition SUPERUSER_EMAILS : list string :=
  ["castiglionemaldonado@gmail.com"].

Record UserData : Type := mkUserData {
  ud_email : string;
  ud_password_hash : string;
  ud_visitor_id : option Z;
  ud_verification_token : string;
  ud_verification_expires : string
}.

(** What [createUser] hands back: not the row, a literal of five fields. *)
Record CreatedUser : Type := mkCreatedUser {
  cu_id : Z;
  cu_email : string;
  cu_email_verified : bool;
  cu_tier : string;
  cu_created_at : string
}.

Definition createUser (now : Z) (d : UserData) : Db CreatedUser :=
  fun t =>
    if existsb (fun u => Sql.nocase_eqb (u_email u) (ud_email d)) (users t)
    then (Thrown SQLITE_CONSTRAINT_UNIQUE, t)
    else if negb (refers v_id (visitors t) (ud_visitor_id d))
    then (Thrown SQLITE_CONSTRAINT_FOREIGNKEY, t)
    else
      let id := seq_users t + 1 in
      let row :=
        mkUser id (ud_email d) (ud_password_hash d) 0
               (Some (ud_verification_token d))
               (Some (ud_verification_expires d))
               "free" None (ud_visitor_id d) 0
               (Clock.sqlite_datetime now) None in
      (Returned (mkCreatedUser id (ud_email d) false "free"
                               (Clock.toISOString now)),
       set_users (users t ++ [row]) id t).

(** [SELECT * FROM users WHERE email = ?]; the column is COLLATE NOCASE. *)
Definition getUserByEmail (email : string) (t : Tables) : option User :=
  find (fun u => Sql.nocase_eqb (u_email u) email) (users t).

Definition getUserById (id : Z) (t : Tables) : option User :=
  find (fun u => u_id u =? id) (users t).

(** [isSuperuser(email)]: false on a falsy email, else membership of the
    lower-cased email in the list. *)
Definition isSuperuser (email : option string) : bool :=
  match email with
  | None => false
  | Some e =>
      if String.eqb e "" then false
      else Js.includes SUPERUSER_EMAILS (Js.toLowerCase e)
  end.

Definition set_is_superuser (f : Z) (u : User) : User :=
  mkUser (u_id u) (u_email u) (u_password_hash u) (u_email_verified u)
         (u_verification_token u) (u_verification_expires u) (u_tier u)
         (u_query_limit u) (u_visitor_id u) f (u_created_at u)
         (u_last_login u).

(** [{...user, is_superuser: isSuperuser(user.email) ? 1 : (user.is_superuser || 0)}] *)
Definition withSuperuserStatus (user : option User) : option User :=
  match user with
  | None => None
  | Some u =>
      Some (set_is_superuser
              (if isSuperuser (Some (u_email u)) then 1
               else if u_is_superuser u =? 0 then 0 else u_is_superuser u)
              u)
  end.

Definition opt_text_eqb (a : option string) (b : string) : bool :=
  match a with
  | Some x => String.eqb x b
  | None => false
  end.

Definition opt_text_gtb (a : option string) (b : string) : bool :=
  match a with
  | Some x => Sql.datetime_gtb x b
  | None => false
  end.

Definition mark_verified (u : User) : User :=
  mkUser (u_id u) (u_email u) (u_password_hash u) 1 None None (u_tier u)
         (u_query_limit u) (u_visitor_id u) (u_is_superuser u)
         (u_created_at u) (u_last_login u).

Definition verifyUserEmail (now : Z) (token : string) : Db bool :=
  user <- read (fun t =>
    find (fun u =>
            opt_text_eqb (u_verification_token u) token
            && opt_text_gtb (u_verification_expires u)
                            (Clock.sqlite_datetime now)
            && (u_email_verified u =? 0))
         (users t)) ;;
  match user with
  | None => ret false
  | Some found =>
      write (fun t =>
        set_users
          (map (fun u => if u_id u =? u_id found then mark_verified u else u)
               (users t))
          (seq_users t) t) ;;
      ret true
  end.

Definition set_last_login (l : option string) (u : User) : User :=
  mkUser (u_id u) (u_email u) (u_password_hash u) (u_email_verified u)
         (u_verification_token u) (u_verification_expires u) (u_tier u)
         (u_query_limit u) (u_visitor_id u) (u_is_superuser u)
         (u_created_at u) l.

Definition updateUserLastLogin (now : Z) (userId : Z) : Db unit :=
  write (fun t =>
    set_users
      (map (fun u =>
              if u_id u =? userId
              then set_last_login (Some (Clock.sqlite_datetime now)) u
              else u)
           (users t))
      (seq_users t) t).

Definition set_password_hash (h : string) (u : User) : User :=
  mkUser (u_id u) (u_email u) h (u_email_verified u)
         (u_verification_token u) (u_verification_expires u) (u_tier u)
         (u_query_limit u) (u_visitor_id u) (u_is_superuser u)
         (u_created_at u) (u_last_login u).

Definition updateUserPassword (userId : Z) (passwordHash : string) : Db unit :=
  write (fun t =>
    set_users
      (map (fun u => if u_id u =? userId then set_password_hash passwordHash u
                     else u)
           (users t))
      (seq_users t) t).

(** *** Session operations *)

Record SessionData : Type := mkSessionData {
  sd_user_id : Z;
  sd_token : string;
  sd_ip_address : option string;
  sd_user_agent : option string;
  sd_expires_at : string
}.

Record CreatedSession : Type := mkCreatedSession {
  cs_id : Z;
  cs_token : string;
  cs_expires_at : string
}.

Definition createSession (now : Z) (d : SessionData) : Db CreatedSession :=
  fun t =>
    if existsb (fun s => String.eqb (s_token s) (sd_token d)) (sessions t)
    then (Thrown SQLITE_CONSTRAINT_UNIQUE, t)
    else if negb (refers u_id (users t) (Some (sd_user_id d)))
    then (Thrown SQLITE_CONSTRAINT_FOREIGNKEY, t)
    else
      let id := seq_sessions t + 1 in
      let row :=
        mkSession id (sd_user_id d) (sd_token d) (sd_ip_address d)
                  (sd_user_agent d) (sd_expires_at d)
                  (Clock.sqlite_datetime now) in
      (Returned (mkCreatedSession id (sd_token d) (sd_expires_at d)),
       set_sessions (sessions t ++ [row]) id t).

(** A row of [SELECT s.*, u.id as user_id, u.email, u.email_verified, u.tier]. *)
Record SessionRow : Type := mkSessionRow {
  sr_id : Z;
  sr_user_id : Z;
  sr_token : string;
  sr_ip_address : option string;
  sr_user_agent : option string;
  sr_expires_at : string;
  sr_created_at : string;
  sr_email : string;
  sr_email_verified : Z;
  sr_tier : string
}.

Definition session_row (s : Session) (u : User) : SessionRow :=
  mkSessionRow (s_id s) (u_id u) (s_token s) (s_ip_address s)
               (s_user_agent s) (s_expires_at s) (s_created_at s)
               (u_email u) (u_email_verified u) (u_tier u).

(** [sessions s JOIN users u ON s.user_id = u.id
     WHERE s.token = ? AND s.expires_at > datetime('now')], first row.
    [expires_at] is a [DATETIME] column: the ISO text that
    [generateSessionExpiry] makes is kept as a text, and the [>] is then
    between two texts. *)
Definition getSessionByToken (now : Z) (token : string) (t : Tables)
  : option SessionRow :=
  hd_error
    (flat_map
       (fun s =>
          if String.eqb (s_token s) token
             && Sql.datetime_gtb (s_expires_at s) (Clock.sqlite_datetime now)
          then map (session_row s)
                   (filter (fun u => s_user_id s =? u_id u) (users t))
          else [])
       (sessions t)).

Definition deleteSession (token : string) : Db unit :=
  write (fun t =>
    set_sessions
      (filter (fun s => negb (String.eqb (s_token s) token)) (sessions t))
      (seq_sessions t) t).

Definition deleteUserSessions (userId : Z) : Db unit :=
  write (fun t =>
    set_sessions
      (filter (fun s => negb (s_user_id s =? userId)) (sessions t))
      (seq_sessions t) t).

(** [DELETE FROM sessions WHERE expires_at <= datetime('now')] *)
Definition cleanExpiredSessions (now : Z) : Db unit :=
  write (fun t =>
    set_sessions
      (filter (fun s =>
                 negb (Sql.datetime_leb (s_expires_at s)
                                    (Clock.sqlite_datetime now)))
              (sessions t))
      (seq_sessions t) t).

(** *** Query log operations *)

Record QueryData : Type := mkQueryData {
  qd_visitor_id : option Z;
  qd_user_id : option Z;
  qd_address : string;
  qd_blockchain : option string;
  qd_query_type : option string;
  qd_ip_address : option string;
  qd_user_agent : option string;
  qd_response_status : string
}.

(** The INSERT binds [visitor_id || null] and [user_id || null]. *)
Definition logQuery (now : Z) (d : QueryData) : Db Z :=
  fun t =>
    if negb (refers v_id (visitors t) (or_null (qd_visitor_id d))
             && refers u_id (users t) (or_null (qd_user_id d)))
    then (Thrown SQLITE_CONSTRAINT_FOREIGNKEY, t)
    else
      let id := seq_query_log t + 1 in
      let row :=
        mkQueryLog id (or_null (qd_visitor_id d)) (or_null (qd_user_id d))
                   (qd_address d) (qd_blockchain d) (qd_query_type d)
                   (qd_ip_address d) (qd_user_agent d)
                   (Some (qd_response_status d))
                   (Clock.sqlite_datetime now) in
      (Returned id, set_query_log (query_log t ++ [row]) id t).

(** [address = ? AND (user_id = ? OR visitor_id = ?)] in SQL's logic. *)
Definition result_matches (address : string) (user_id visitor_id : option Z)
           (q : QueryLog) : bool :=
  Sql.holds
    (Sql.and3 (Some (String.eqb (q_address q) address))
              (Sql.or3 (Sql.eq_int (q_user_id q) user_id)
                       (Sql.eq_int (q_visitor_id q) visitor_id))).

(** [ORDER BY created_at DESC LIMIT 1]; among rows of one second, the one
    of lowest rowid. *)
Fixpoint newest (l : list QueryLog) : option QueryLog :=
  match l with
  | [] => None
  | q :: r =>
      match newest r with
      | Some q' =>
          if Sql.text_gtb (q_created_at q') (q_created_at q)
          then Some q' else Some q
      | None => Some q
      end
  end.

Definition set_response_status (st : option string) (q : QueryLog) : QueryLog :=
  mkQueryLog (q_id q) (q_visitor_id q) (q_user_id q) (q_address q)
             (q_blockchain q) (q_query_type q) (q_ip_address q)
             (q_user_agent q) st (q_created_at q).

(** The rows [UPDATE query_log SET response_status = ? WHERE id = (...)]
    touches: those whose id is the sub-query's, none when it is empty. *)
Definition result_target (user_id visitor_id : option Z) (address : string)
           (t : Tables) : option Z :=
  option_map q_id
    (newest (filter (result_matches address (or_null user_id)
                                    (or_null visitor_id))
                    (query_log t))).

Definition updateQueryResult (user_id visitor_id : option Z)
           (address response_status : string) : Db bool :=
  target <- read (result_target user_id visitor_id address) ;;
  match target with
  | None => ret false
  | Some id =>
      changes <- read (fun t =>
        Z.of_nat (List.length (filter (fun q => q_id q =? id) (query_log t)))) ;;
      write (fun t =>
        set_query_log
          (map (fun q => if q_id q =? id
                         then set_response_status (Some response_status) q
                         else q)
               (query_log t))
          (seq_query_log t) t) ;;
      ret (0 <? changes)
  end.

(** [COUNT( * )] of the user's rows with [date(created_at) = date('now')]. *)
Definition getUserQueryCountToday (now : Z) (userId : Z) (t : Tables) : Z :=
  Z.of_nat
    (List.length
       (filter (fun q =>
                  Sql.holds (Sql.eq_int (q_user_id q) (Some userId))
                  && String.eqb (String.substring 0 10 (q_created_at q))
                                (Clock.sqlite_date now))
               (query_log t))).

(** *** Password reset operations *)

Definition mark_used (r : PasswordReset) : PasswordReset :=
  mkPasswordReset (pr_id r) (pr_user_id r) (pr_token r) (pr_expires_at r) 1
                  (pr_created_at r).

Record CreatedReset : Type := mkCreatedReset {
  cr_id : Z;
  cr_token : string
}.

(** [UPDATE password_resets SET used = 1 WHERE user_id = ? AND used = 0] *)
Definition invalidate_resets (userId : Z) : Db unit :=
  write (fun t =>
    set_password_resets
      (map (fun r => if (pr_user_id r =? userId) && (pr_used r =? 0)
                     then mark_used r else r)
           (password_resets t))
      (seq_password_resets t) t).

Definition insert_reset (now : Z) (userId : Z) (token expiresAt : string)
  : Db Z :=
  fun t =>
    if existsb (fun r => String.eqb (pr_token r) token) (password_resets t)
    then (Thrown SQLITE_CONSTRAINT_UNIQUE, t)
    else if negb (refers u_id (users t) (Some userId))
    then (Thrown SQLITE_CONSTRAINT_FOREIGNKEY, t)
    else
      let id := seq_password_resets t + 1 in
      let row := mkPasswordReset id userId token expiresAt 0
                                 (Clock.sqlite_datetime now) in
      (Returned id, set_password_resets (password_resets t ++ [row]) id t).

Definition createPasswordReset (now : Z) (userId : Z)
           (token expiresAt : string) : Db CreatedReset :=
  invalidate_resets userId ;;
  id <- insert_reset now userId token expiresAt ;;
  ret (mkCreatedReset id token).

(** A row of [SELECT pr.*, u.email]. *)
Record ResetRow : Type := mkResetRow {
  rr_id : Z;
  rr_user_id : Z;
  rr_token : string;
  rr_expires_at : string;
  rr_used : Z;
  rr_created_at : string;
  rr_email : string
}.

Definition reset_row (r : PasswordReset) (u : User) : ResetRow :=
  mkResetRow (pr_id r) (pr_user_id r) (pr_token r) (pr_expires_at r)
             (pr_used r) (pr_created_at r) (u_email u).

(** [password_resets pr JOIN users u ON pr.user_id = u.id
     WHERE pr.token = ? AND pr.expires_at > datetime('now') AND pr.used = 0],
    first row.  [expires_at] is a [DATETIME] column; the ISO text of
    [generatePasswordResetExpiry] is kept and compared as a text. *)
Definition getPasswordResetByToken (now : Z) (token : string) (t : Tables)
  : option ResetRow :=
  hd_error
    (flat_map
       (fun r =>
          if String.eqb (pr_token r) token
             && Sql.datetime_gtb (pr_expires_at r) (Clock.sqlite_datetime now)
             && (pr_used r =? 0)
          then map (reset_row r)
                   (filter (fun u => pr_user_id r =? u_id u) (users t))
          else [])
       (password_resets t)).

Definition markPasswordResetUsed (token : string) : Db unit :=
  write (fun t =>
    set_password_resets
      (map (fun r => if String.eqb (pr_token r) token then mark_used r else r)
           (password_resets t))
      (seq_password_resets t) t).

(** *** Every statement-running function the module exports that writes *)

Inductive Operation : Type :=
| UpsertVisitor (d : VisitorData)
| IncrementVisitorQueryCount (visitorId : Z)
| CreateUser (d : UserData)
| VerifyUserEmail (token : string)
| UpdateUserLastLogin (userId : Z)
| UpdateUserPassword (userId : Z) (passwordHash : string)
| CreateSession (d : SessionData)
| DeleteSession (token : string)
| DeleteUserSessions (userId : Z)
| CleanExpiredSessions
| LogQuery (d : QueryData)
| UpdateQueryResult (user_id visitor_id : option Z)
                    (address response_status : string)
| CreatePasswordReset (userId : Z) (token expiresAt : string)
| MarkPasswordResetUsed (token : string).

(** The tables after [op] ran at clock [now], whether it returned or threw. *)
Definition apply (now : Z) (op : Operation) (t : Tables) : Tables :=
  match op with
  | UpsertVisitor d => exec (upsertVisitor now d) t
  | IncrementVisitorQueryCount i => exec (incrementVisitorQueryCount i) t
  | CreateUser d => exec (createUser now d) t
  | VerifyUserEmail k => exec (verifyUserEmail now k) t
  | UpdateUserLastLogin i => exec (updateUserLastLogin now i) t
  | UpdateUserPassword i h => exec (updateUserPassword i h) t
  | CreateSession d => exec (createSession now d) t
  | DeleteSession k => exec (deleteSession k) t
  | DeleteUserSessions i => exec (deleteUserSessions i) t
  | CleanExpiredSessions => exec (cleanExpiredSessions now) t
  | LogQuery d => exec (logQuery now d) t
  | UpdateQueryResult u v a st => exec (updateQueryResult u v a st) t
  | CreatePasswordReset i k e => exec (createPasswordReset now i k e) t
  | MarkPasswordResetUsed k => exec (markPasswordResetUsed k) t
  end.

End Database.

(** ** Credentials and tokens: [auth.js] *)

Module Auth.

Import Database.

Definition PASSWORD_MIN_LENGTH : Z := 12.

(** 7 days in milliseconds *)
Definition SESSION_DURATION_MS : Z := 7 * 24 * 60 * 60 * 1000.

(** 24 hours *)
Definition VERIFICATION_EXPIRY_MS : Z := 24 * 60 * 60 * 1000.

(** 1 hour *)
Definition PASSWORD_RESET_EXPIRY_MS : Z := 60 * 60 * 1000.

(** What a handler draws from outside the process state: [Date.now()] (the
    same instant SQLite's ['now'] reads), the UUID [generateToken] returns,
    bcrypt on strings, and the text SQLite makes of a number that is bound
    where a text is kept or compared. *)
Record Env : Type := mkEnv {
  clock : Z;
  uuid : string;
  bcrypt_hash : string -> string;
  bcrypt_compare : string -> string -> bool;
  number_text : Z -> string
}.

Definition double_quote : ascii := "034"%char.

(** The characters of the symbol class of [validatePassword]: the thirty-one
    below and the double quote. *)
Definition SYMBOLS : string :=
  String.append "!@#$%^&*()_+-=[]{}|;:',.<>/?\`~" (String double_quote "").

Definition is_symbol (c : ascii) : bool :=
  existsb (Ascii.eqb c) (Js.chars SYMBOLS).

Definition msg_required : string := "Password is required".
Definition msg_length : string :=
  "Password must be at least 12 characters long".
Definition msg_letter : string := "Password must contain at least one letter".
Definition msg_digit : string := "Password must contain at least one number".
Definition msg_symbol : string :=
  String.append
    "Password must contain at least one symbol (!@#$%^&*()_+-=[]{}|;:',.<>/?\`~"
    (String double_quote ")").

(** [[^\s@]] *)
Definition is_atom (c : ascii) : bool :=
  negb (Js.is_space c) && negb (Ascii.eqb c "@").

(** [/^[^\s@]+@[^\s@]+\.[^\s@]+$/] *)
Definition EMAIL_REGEX : Regex.t :=
  Regex.Seq (Regex.Plus (Regex.Class is_atom))
    (Regex.Seq (Regex.Chr "@")
       (Regex.Seq (Regex.Plus (Regex.Class is_atom))
          (Regex.Seq (Regex.Chr ".")
             (Regex.Plus (Regex.Class is_atom))))).

Definition validateEmail (email : Js.value) : bool :=
  match email with
  | Js.Str e =>
      if negb (Js.truthy email) then false
      else Regex.test EMAIL_REGEX (Js.trim e)
  | _ => false
  end.

Record Validation : Type := mkValidation {
  valid : bool;
  errors : list string
}.

(** [errors.push(m)] when [c] holds. *)
Definition push_if (c : bool) (m : string) (errors : list string)
  : list string :=
  if c then errors ++ [m] else errors.

Definition validatePassword (password : Js.value) : Validation :=
  match password with
  | Js.Str p =>
      if negb (Js.truthy password) then mkValidation false [msg_required]
      else
        let errors := [] in
        let errors := push_if (Js.length p <? PASSWORD_MIN_LENGTH)
                              msg_length errors in
        let errors := push_if (negb (Js.test_class Js.is_letter p))
                              msg_letter errors in
        let errors := push_if (negb (Js.test_class Js.is_digit p))
                              msg_digit errors in
        let errors := push_if (negb (Js.test_class is_symbol p))
                              msg_symbol errors in
        mkValidation (Nat.eqb (List.length errors) 0) errors
  | _ => mkValidation false [msg_required]
  end.

Definition generateToken (env : Env) : string := uuid env.

Definition generateSessionExpiry (env : Env) : string :=
  Clock.toISOString (clock env + SESSION_DURATION_MS).

Definition generateVerificationExpiry (env : Env) : string :=
  Clock.toISOString (clock env + VERIFICATION_EXPIRY_MS).

Definition generatePasswordResetExpiry (env : Env) : string :=
  Clock.toISOString (clock env + PASSWORD_RESET_EXPIRY_MS).

Definition extractBearerToken (authHeader : option string) : option string :=
  match Js.nonempty authHeader with
  | None => None
  | Some h =>
      match Js.split " " h with
      | [scheme; token] =>
          if String.eqb (Js.toLowerCase scheme) "bearer" then Some token
          else None
      | _ => None
      end
  end.

(** The parts of an Express request the handlers read. *)
Record Request : Type := mkRequest {
  authorization : option string;
  x_visitor_id : option string;
  user_agent : option string;
  x_forwarded_for : option string;
  x_real_ip : option string;
  remote_address : option string;
  req_ip : option string
}.

Definition getClientIP (req : Request) : string :=
  let forwarded :=
    match x_forwarded_for req with
    | Some h => option_map Js.trim (hd_error (Js.split "," h))
    | None => None
    end in
  match Js.or_else forwarded
          (Js.or_else (x_real_ip req)
             (Js.or_else (remote_address req) (req_ip req))) with
  | Some ip => if String.eqb ip "" then "unknown" else ip
  | None => "unknown"
  end.

Record PublicUser : Type := mkPublicUser {
  pu_id : Z;
  pu_email : string;
  pu_email_verified : bool;
  pu_tier : string;
  pu_is_superuser : bool;
  pu_created_at : string;
  pu_last_login : option string
}.

(** [sanitizeUser] on a row of [users] ([null] for a missing one). *)
Definition sanitizeUser (user : option User) : option PublicUser :=
  match user with
  | None => None
  | Some u =>
      Some (mkPublicUser (u_id u) (u_email u)
                         (negb (u_email_verified u =? 0))
                         (u_tier u)
                         (isSuperuser (Some (u_email u)))
                         (u_created_at u) (u_last_login u))
  end.

(** [sanitizeUser] on the literal [createUser] returns, which has no
    [last_login] and no stored flag. *)
Definition sanitizeCreated (user : CreatedUser) : PublicUser :=
  mkPublicUser (cu_id user) (cu_email user)
               (negb (negb (cu_email_verified user)))
               (cu_tier user)
               (isSuperuser (Some (cu_email user)))
               (cu_created_at user) None.

End Auth.

(** ** The handlers: [server.js] *)

Module Server.

Import Database Auth.
Local Open Scope db_scope.

#[warnings="-register-all"]
Inductive Json : Type :=
| JNull
| JBool (b : bool)
| JNumber (n : Z)
| JString (s : string)
| JArray (items : list Json)
| JObject (fields : list (string * Json)).

Record Response : Type := mkResponse {
  status : Z;
  body : Json
}.

(** [res.json(o)] *)
Definition json (o : list (string * Json)) : Response :=
  mkResponse 200 (JObject o).

(** [res.status(c).json(o)] *)
Definition status_json (c : Z) (o : list (string * Json)) : Response :=
  mkResponse c (JObject o).

(** [try { ... } catch (error) { res.status(500).json({ error: msg }) }] *)
Definition try_catch (msg : string) (m : Db Response) (t : Tables)
  : Response * Tables :=
  match m t with
  | (Returned r, t') => (r, t')
  | (Thrown _, t') => (status_json 500 [("error", JString msg)], t')
  end.

Definition json_text (f : option string) : Json :=
  match f with
  | Some s => JString s
  | None => JNull
  end.

Definition json_user (u : option PublicUser) : Json :=
  match u with
  | None => JNull
  | Some p =>
      JObject [("id", JNumber (pu_id p));
               ("email", JString (pu_email p));
               ("email_verified", JBool (pu_email_verified p));
               ("tier", JString (pu_tier p));
               ("is_superuser", JBool (pu_is_superuser p));
               ("created_at", JString (pu_created_at p));
               ("last_login", json_text (pu_last_login p))]
  end.

(** [token ? db.getSessionByToken(token) : undefined] *)
Definition session_of (env : Env) (token : option string) (t : Tables)
  : option SessionRow :=
  match Js.nonempty token with
  | Some k => getSessionByToken (clock env) k t
  | None => None
  end.

(** *** Body fields at the statements

    [.run(...)] and [.get(...)] bind every parameter before the statement
    runs: [undefined] and [null] as NULL, a string as a text, a number as a
    number, which becomes the text [number_text] wherever a text is kept or
    compared; a boolean, an array or an object is refused with a
    TypeError, and nothing is written. *)
Definition bound (env : Env) (v : Js.value) : Db (option string) :=
  match v with
  | Js.Undefined | Js.Null => ret None
  | Js.Str s => ret (Some s)
  | Js.Number n => ret (Some (number_text env n))
  | Js.Bool _ | Js.Object => throw TypeError
  end.

(** [db.upsertVisitor({ fingerprint, ..., referrer })] on body fields.  The
    SELECT binds the fingerprint; the UPDATE of a known fingerprint binds
    nothing else of the body; the INSERT of a new one binds all six, and
    [fingerprint] is NOT NULL. *)
Definition call_upsertVisitor (env : Env) (fingerprint : Js.value)
           (ip_address user_agent : option string)
           (language timezone screen_resolution platform referrer : Js.value)
  : Db VisitorInfo :=
  f <- bound env fingerprint ;;
  match f with
  | None =>
      bound env language ;; bound env timezone ;;
      bound env screen_resolution ;; bound env platform ;;
      bound env referrer ;;
      throw SQLITE_CONSTRAINT_NOTNULL
  | Some fp =>
      existing <- read (getVisitorByFingerprint fp) ;;
      match existing with
      | Some _ =>
          upsertVisitor (clock env)
            (mkVisitorData fp ip_address user_agent None None None None None)
      | None =>
          l <- bound env language ;;
          z <- bound env timezone ;;
          r <- bound env screen_resolution ;;
          p <- bound env platform ;;
          e <- bound env referrer ;;
          upsertVisitor (clock env)
            (mkVisitorData fp ip_address user_agent l z r p e)
      end
  end.



(** *** POST /api/visitor *)

Record VisitorBody : Type := mkVisitorBody {
  vb_fingerprint : Js.value;
  vb_language : Js.value;
  vb_timezone : Js.value;
  vb_screen_resolution : Js.value;
  vb_platform : Js.value;
  vb_referrer : Js.value
}.

Definition post_visitor (env : Env) (req : Request) (b : VisitorBody)
  : Tables -> Response * Tables :=
  try_catch "Failed to track visitor"
    (if negb (Js.truthy (vb_fingerprint b))
     then ret (status_json 400 [("error", JString "Fingerprint is required")])
     else
       let ip_address := getClientIP req in
       visitor <- call_upsertVisitor env (vb_fingerprint b) (Some ip_address)
                    (user_agent req) (vb_language b) (vb_timezone b)
                    (vb_screen_resolution b) (vb_platform b)
                    (vb_referrer b) ;;
       ret (json [("visitor_id", JNumber (vi_id visitor));
                  ("query_count", JNumber (vi_query_count visitor));
                  ("queries_remaining",
                   JNumber (vi_queries_remaining visitor))])).

(** *** POST /api/auth/login

    [email.trim()] throws on a truthy email that is no string, and
    bcryptjs rejects a password that is no string; both end in the 500 of
    the [catch]. *)

Record LoginBody : Type := mkLoginBody {
  lb_email : Js.value;
  lb_password : Js.value
}.

Definition post_login (env : Env) (req : Request) (b : LoginBody)
  : Tables -> Response * Tables :=
  try_catch "Failed to login"
    (if negb (Js.truthy (lb_email b)) || negb (Js.truthy (lb_password b))
     then ret (status_json 400
                 [("error", JString "Email and password are required")])
     else
       match lb_email b with
       | Js.Str email =>
           user <- read (getUserByEmail (Js.toLowerCase (Js.trim email))) ;;
           match user with
           | None =>
               ret (status_json 401
                      [("error", JString "Invalid email or password")])
           | Some u =>
               match lb_password b with
               | Js.Str password =>
                   if negb (bcrypt_compare env password (u_password_hash u))
                   then ret (status_json 401
                               [("error", JString "Invalid email or password")])
                   else
                     let token := generateToken env in
                     let expires_at := generateSessionExpiry env in
                     let ip_address := getClientIP req in
                     createSession (clock env)
                       (mkSessionData (u_id u) token (Some ip_address)
                                      (user_agent req) expires_at) ;;
                     updateUserLastLogin (clock env) (u_id u) ;;
                     ret (json [("success", JBool true);
                                ("token", JString token);
                                ("user", json_user (sanitizeUser (Some u)))])
               | _ => throw TypeError
               end
           end
       | _ => throw TypeError
       end).

(** *** POST /api/auth/logout *)

Definition post_logout (env : Env) (req : Request)
  : Tables -> Response * Tables :=
  try_catch "Failed to logout"
    (match Js.nonempty (extractBearerToken (authorization req)) with
     | Some token => deleteSession token
     | None => ret tt
     end ;;
     ret (json [("success", JBool true)])).

(** *** POST /api/auth/forgot-password *)

Definition reset_sent : Response :=
  json [("success", JBool true);
        ("message", JString "If an account exists, a reset email has been sent")].

Definition post_forgot_password (env : Env) (req : Request)
           (email : option string) : Tables -> Response * Tables :=
  try_catch "Failed to process request"
    match Js.nonempty email with
    | None => ret (status_json 400 [("error", JString "Email is required")])
    | Some e =>
        user <- read (getUserByEmail (Js.toLowerCase (Js.trim e))) ;;
        match user with
        | None => ret reset_sent
        | Some u =>
            let token := generateToken env in
            let expires_at := generatePasswordResetExpiry env in
            createPasswordReset (clock env) (u_id u) token expires_at ;;
            ret reset_sent
        end
    end.

(** *** POST /api/auth/reset-password

    The handler awaits bcrypt between the lookup of the reset row and the
    three writes; the model runs it in one piece. *)

Record ResetBody : Type := mkResetBody {
  rb_token : option string;
  rb_password : option string
}.

Definition password_updated : Response :=
  json [("success", JBool true);
        ("message", JString "Password updated successfully")].

Definition post_reset_password (env : Env) (req : Request) (b : ResetBody)
  : Tables -> Response * Tables :=
  try_catch "Failed to reset password"
    match Js.nonempty (rb_token b), Js.nonempty (rb_password b) with
    | Some token, Some password =>
        let passwordValidation := validatePassword (Js.Str password) in
        if negb (valid passwordValidation)
        then ret (status_json 400
                    [("error", JString "Password does not meet requirements");
                     ("details",
                      JArray (map JString (errors passwordValidation)))])
        else
          reset <- read (getPasswordResetByToken (clock env) token) ;;
          match reset with
          | None =>
              ret (status_json 400
                     [("error", JString "Invalid or expired reset token")])
          | Some r =>
              let password_hash := bcrypt_hash env password in
              updateUserPassword (rr_user_id r) password_hash ;;
              markPasswordResetUsed token ;;
              deleteUserSessions (rr_user_id r) ;;
              ret password_updated
          end
    | _, _ =>
        ret (status_json 400
               [("error", JString "Token and password are required")])
    end.

(** *** POST /api/query *)






(** *** POST /api/query/result *)







(** *** GET /api/queries/history/all, up to the read of the page *)

Inductive Access : Type :=
| Refused (r : Response)
| Granted (s : SessionRow).

Definition history_all_access (env : Env) (req : Request) (t : Tables) : Access :=
  match Js.nonempty (extractBearerToken (authorization req)) with
  | None => Refused (status_json 401
                       [("error", JString "Authentication required")])
  | Some token =>
      match getSessionByToken (clock env) token t with
      | None => Refused (status_json 401
                           [("error", JString "Invalid or expired session")])
      | Some session =>
          if negb (isSuperuser (Some (sr_email session)))
          then Refused (status_json 403
                          [("error", JString "Superuser access required")])
          else Granted session
      end
  end.

(** *** POST /api/auth/register

    The handler awaits bcrypt between the lookup of the email and the
    insert; the model runs it in one piece. *)

Record RegisterBody : Type := mkRegisterBody {
  gb_email : option string;
  gb_password : option string;
  gb_visitor_id : option Z
}.

Definition invalid_email : Response :=
  status_json 400 [("error", JString "Invalid email format")].

Definition weak_password (v : Validation) : Response :=
  status_json 400
    [("error", JString "Password does not meet requirements");
     ("details", JArray (map JString (errors v)))].

Definition email_taken : Response :=
  status_json 409 [("error", JString "Email already registered")].

(** The sanitized literal as JSON; [last_login] is undefined and left out. *)
Definition json_created (p : PublicUser) : Json :=
  JObject [("id", JNumber (pu_id p));
           ("email", JString (pu_email p));
           ("email_verified", JBool (pu_email_verified p));
           ("tier", JString (pu_tier p));
           ("is_superuser", JBool (pu_is_superuser p));
           ("created_at", JString (pu_created_at p))].

Definition account_created (user : CreatedUser) : Response :=
  status_json 201
    [("success", JBool true);
     ("message", JString "Account created successfully");
     ("user", json_created (sanitizeCreated user))].

Definition post_register (env : Env) (req : Request) (b : RegisterBody)
  : Tables -> Response * Tables :=
  try_catch "Failed to create account"
    match gb_email b with
    | None => ret invalid_email
    | Some email =>
        if negb (validateEmail (Js.Str email)) then ret invalid_email
        else
          let passwordValidation :=
            validatePassword (Js.of_field (gb_password b)) in
          match gb_password b with
          | None => ret (weak_password passwordValidation)
          | Some password =>
              if negb (valid passwordValidation)
              then ret (weak_password passwordValidation)
              else
                existingUser <- read (getUserByEmail email) ;;
                match existingUser with
                | Some _ => ret email_taken
                | None =>
                    let password_hash := bcrypt_hash env password in
                    let verification_token := generateToken env in
                    let verification_expires :=
                      generateVerificationExpiry env in
                    user <- createUser (clock env)
                              (mkUserData (Js.toLowerCase (Js.trim email))
                                          password_hash
                                          (or_null (gb_visitor_id b))
                                          verification_token
                                          verification_expires) ;;
                    verifyUserEmail (clock env) verification_token ;;
                    ret (account_created user)
                end
          end
    end.

(** *** GET /api/auth/verify/:token *)

Inductive Reply : Type :=
| Answer (r : Response)
| Redirect (location : string).

Definition get_verify (env : Env) (token : string) (t : Tables)
  : Reply * Tables :=
  match verifyUserEmail (clock env) token t with
  | (Returned true, t') => (Redirect "/investigate.html?verified=true", t')
  | (Returned false, t') =>
      (Answer (status_json 400
                 [("error", JString "Invalid or expired verification token")]),
       t')
  | (Thrown _, t') =>
      (Answer (status_json 500 [("error", JString "Failed to verify email")]),
       t')
  end.

(** *** GET /api/auth/me *)

Definition get_me (env : Env) (req : Request) : Tables -> Response * Tables :=
  try_catch "Failed to check authentication"
    match Js.nonempty (extractBearerToken (authorization req)) with
    | None => ret (status_json 401 [("error", JString "No token provided")])
    | Some token =>
        session <- read (getSessionByToken (clock env) token) ;;
        match session with
        | None =>
            ret (status_json 401
                   [("error", JString "Invalid or expired session")])
        | Some s =>
            user <- read (getUserById (sr_user_id s)) ;;
            queries_today <-
              read (getUserQueryCountToday (clock env) (sr_user_id s)) ;;
            ret (json [("user", json_user (sanitizeUser user));
                       ("queries_today", JNumber queries_today);
                       ("session_expires", JString (sr_expires_at s))])
        end
    end.

(** *** POST /api/investigate *)



End Server.

(** * Properties *)

Import Database Auth Server.
Local Open Scope db_scope.

Arguments Clock.sqlite_datetime : simpl never.
Arguments Clock.sqlite_date : simpl never.
Arguments Clock.toISOString : simpl never.
Arguments Sql.text_gtb : simpl never.
Arguments Sql.datetime_gtb : simpl never.
Arguments or_null : simpl never.

(** ** Vocabulary of the statements *)

(** [p] has a character of the class [cls]. *)
Definition has (cls : ascii -> bool) (p : string) : Prop :=
  exists c, In c (Js.chars p) /\ cls c = true.

(** The list of messages when every rule is looked at on its own. *)
Definition independent_errors (p : string) : list string :=
  (if Js.length p <? 12 then [msg_length] else [])
  ++ (if Js.test_class Js.is_letter p then [] else [msg_letter])
  ++ (if Js.test_class Js.is_digit p then [] else [msg_digit])
  ++ (if Js.test_class is_symbol p then [] else [msg_symbol]).




(** The operations that never write [visitors]. *)
Definition leaves_visitors (op : Operation) : bool :=
  match op with
  | UpsertVisitor _ | IncrementVisitorQueryCount _ => false
  | _ => true
  end.

(** What the UNIQUE constraints and AUTOINCREMENT keep true of the tables. *)
Record wf (t : Tables) : Prop := mkWf {
  wf_visitor_ids : Forall (fun v => 0 < v_id v <= seq_visitors t) (visitors t);
  wf_user_ids : Forall (fun u => 0 < u_id u <= seq_users t) (users t);
  wf_seq_visitors : 0 <= seq_visitors t;
  wf_seq_users : 0 <= seq_users t;
  wf_session_tokens : NoDup (map s_token (sessions t));
  wf_reset_tokens : NoDup (map pr_token (password_resets t))
}.

(** The tables the operations can build from the empty database. *)
Inductive reachable : Tables -> Prop :=
| reach_empty : reachable empty
| reach_apply (now : Z) (op : Operation) (t : Tables) :
    reachable t -> reachable (apply now op t).







(** Stored flag or membership of the list. *)
Definition flag_or_listed (u : User) : bool :=
  negb (u_is_superuser u =? 0)
  || Js.includes SUPERUSER_EMAILS (Js.toLowerCase (u_email u)).

(** What [sanitizeUser] reports for a row. *)
Definition reported_superuser (u : User) : option bool :=
  option_map pu_is_superuser (sanitizeUser (Some u)).



(** The UUID drawn for this request is not the token of a stored reset. *)
Definition fresh_reset_token (env : Env) (t : Tables) : Prop :=
  forall r, In r (password_resets t) -> pr_token r <> uuid env.

(** [a] is not before [b] in the order of texts. *)
Definition text_geb (a b : string) : bool :=
  match Sql.text_compare a b with
  | Lt => false
  | _ => true
  end.

(** The rows of [userId] that [getPasswordResetByToken] could still return. *)
Definition unused_resets (userId : Z) (t : Tables) : list PasswordReset :=
  filter (fun r => (pr_user_id r =? userId) && (pr_used r =? 0))
         (password_resets t).


(** ** A run of the server, for the examples *)

Module Scenario.

(** 2025-01-01T12:00:00.000Z *)
Definition noon : Z := 1735732800000.

Definition minute : Z := 60000.
Definition hour : Z := 60 * minute.
Definition day : Z := 24 * hour.

Definition env_at (now : Z) (id : string) : Env :=
  mkEnv now id (fun p => String.append "bcrypt:" p)
        (fun p h => String.eqb (String.append "bcrypt:" p) h)
        (fun _ => "0.0").

Definition browser : Request :=
  mkRequest None None (Some "Mozilla/5.0") None None (Some "203.0.113.7") None.



(** One visitor, no query yet. *)
Definition visited : Tables :=
  snd (post_visitor (env_at noon "") browser
         (mkVisitorBody (Js.Str "abc123") Js.Undefined Js.Undefined
                        Js.Undefined Js.Undefined Js.Undefined)
         empty).


(** An account next to the visitor. *)
Definition registered : Tables :=
  exec (createUser noon
          (mkUserData "user@test.com" "bcrypt:Passw0rd!2345" (Some 1)
                      "verify-1"
                      (generateVerificationExpiry (env_at noon ""))))
       visited.

(** The account logged in at noon. *)
Definition logged_in : Tables :=
  snd (post_login (env_at noon "session-1") browser
         (mkLoginBody (Js.Str "user@test.com") (Js.Str "Passw0rd!2345"))
         registered).

(** A password reset asked for at noon, by the logged-in account. *)
Definition reset_asked : Tables :=
  snd (post_forgot_password (env_at noon "reset-1") browser
         (Some "user@test.com") logged_in).

(** A row of [users] whose stored flag was set by hand. *)
Definition promoted : User :=
  mkUser 2 "operator@test.com" "bcrypt:0perator!Pass" 1 None None "free" None
         None 1 "2025-01-01 12:00:00" None.

(** That row with a session of its own. *)
Definition operator_logged_in : Tables :=
  mkTables [] [promoted]
           [mkSession 1 2 "session-op" None None "2025-01-08T12:00:00.000Z"
                      "2025-01-01 12:00:00"]
           [] [] 0 2 1 0 0.

Definition with_bearer (token : string) : Request :=
  mkRequest (Some (String.append "Bearer " token)) None (Some "Mozilla/5.0")
            None None (Some "203.0.113.7") None.

(** A row of [users] with the listed address, typed with capitals. *)
Definition owner : User :=
  mkUser 3 "CastiglioneMaldonado@gmail.com" "bcrypt:0wner!Passw0rd" 1 None
         None "free" None None 0 "2025-01-01 12:00:00" None.

End Scenario.

(** ** Vocabulary of the further properties *)

(** The clock is between 1970-01-01 and the end of the year 9999, the years
    both date texts write with four digits. *)
Definition in_calendar (ms : Z) : Prop := 0 <= ms < 253402300800000.

(** The day number of a clock value. *)
Definition utc_day (ms : Z) : Z := ms / Clock.ms_per_day.

(** Days before year [y] of a 400-year era that starts on a 1 March. *)
Definition days_before_year (y : Z) : Z := 365 * y + y / 4 - y / 100.

(** Year, month and day as one number [YYYYMMDD]. *)
Definition date_key (days : Z) : Z :=
  let '(y, m, d) := Clock.civil_from_days days in y * 10000 + m * 100 + d.

(** The words an expression stands for. *)
Inductive lang : Regex.t -> list ascii -> Prop :=
| lang_eps : lang Regex.Eps []
| lang_class (p : ascii -> bool) (c : ascii) :
    p c = true -> lang (Regex.Class p) [c]
| lang_seq (r s : Regex.t) (u v : list ascii) :
    lang r u -> lang s v -> lang (Regex.Seq r s) (u ++ v)
| lang_alt_l (r s : Regex.t) (u : list ascii) :
    lang r u -> lang (Regex.Alt r s) u
| lang_alt_r (r s : Regex.t) (u : list ascii) :
    lang s u -> lang (Regex.Alt r s) u
| lang_star_nil (r : Regex.t) : lang (Regex.Star r) []
| lang_star_cons (r : Regex.t) (u v : list ascii) :
    lang r u -> lang (Regex.Star r) v -> lang (Regex.Star r) (u ++ v).

(** One or more characters, none of them white space or an [@]. *)
Definition atoms (s : list ascii) : Prop :=
  s <> [] /\ Forall (fun c => is_atom c = true) s.

(** [local@domain.tld]: three runs of atoms around an [@] and a dot. *)
Definition email_shape (s : list ascii) : Prop :=
  exists a b c,
    s = (a ++ "@"%char :: b ++ "."%char :: c)%list
    /\ atoms a /\ atoms b /\ atoms c.

(** A second session of the account of the examples, for seven days. *)
Definition second_session : SessionData :=
  mkSessionData 1 "session-2" None None
    (Clock.toISOString (Scenario.noon + 7 * Scenario.day)).

(** The character [c] does not occur in [s]. *)
Definition free_of (c : ascii) (s : string) : Prop := ~ In c (Js.chars s).


(** The UUID drawn for this request is not the verification token of a
    stored account. *)
Definition fresh_verification_token (env : Env) (t : Tables) : Prop :=
  forall u, In u (users t) -> u_verification_token u <> Some (uuid env).

(** The row of the account that a registration leaves in [users]. *)
Definition registered_row (env : Env) (b : RegisterBody)
           (email password : string) (t : Tables) : User :=
  mkUser (seq_users t + 1) (Js.toLowerCase (Js.trim email))
         (bcrypt_hash env password) 1 None None "free" None
         (or_null (gb_visitor_id b)) 0
         (Clock.sqlite_datetime (clock env)) None.

(** Every foreign key that is not NULL names a row of the table it
    references. *)
Record linked (t : Tables) : Prop := mkLinked {
  l_users :
    Forall (fun u => refers v_id (visitors t) (u_visitor_id u) = true)
           (users t);
  l_sessions :
    Forall (fun s => refers u_id (users t) (Some (s_user_id s)) = true)
           (sessions t);
  l_query_visitor :
    Forall (fun q => refers v_id (visitors t) (q_visitor_id q) = true)
           (query_log t);
  l_query_user :
    Forall (fun q => refers u_id (users t) (q_user_id q) = true)
           (query_log t);
  l_resets :
    Forall (fun r => refers u_id (users t) (Some (pr_user_id r)) = true)
           (password_resets t)
}.

(** The primary keys and the UNIQUE columns hold no value twice. *)
Record keyed (t : Tables) : Prop := mkKeyed {
  k_visitors : NoDup (map v_id (visitors t));
  k_fingerprints : NoDup (map v_fingerprint (visitors t));
  k_users : NoDup (map u_id (users t));
  k_emails : NoDup (map (fun u => Sql.nocase (u_email u)) (users t));
  k_sessions : NoDup (map s_id (sessions t));
  k_query_log : NoDup (map q_id (query_log t));
  k_resets : NoDup (map pr_id (password_resets t));
  k_session_ids : Forall (fun s => s_id s <= seq_sessions t) (sessions t);
  k_query_ids : Forall (fun q => q_id q <= seq_query_log t) (query_log t);
  k_reset_ids :
    Forall (fun r => pr_id r <= seq_password_resets t) (password_resets t)
}.

(** The columns no statement of the module ever sets to anything else. *)
Record plain (t : Tables) : Prop := mkPlain {
  p_users :
    Forall (fun u => u_is_superuser u = 0 /\ u_tier u = "free"
                     /\ u_query_limit u = None
                     /\ (u_email_verified u = 0 \/ u_email_verified u = 1))
           (users t);
  p_visitors : Forall (fun v => 0 <= v_query_count v) (visitors t);
  p_resets : Forall (fun r => pr_used r = 0 \/ pr_used r = 1)
                    (password_resets t)
}.

(** The row of the account of the examples, as [createUser] stored it. *)
Definition stored_account : User :=
  mkUser 1 "user@test.com" "bcrypt:Passw0rd!2345" 0 (Some "verify-1")
         (Some (generateVerificationExpiry (Scenario.env_at Scenario.noon "")))
         "free" None (Some 1) 0 (Clock.sqlite_datetime Scenario.noon) None.




(** The text of a header or property that may be absent. *)
Definition text_or_empty (f : option string) : string :=
  match f with
  | Some s => s
  | None => ""
  end.

(** The four sources of the client address, in the order [getClientIP]
    asks them: the first entry of [X-Forwarded-For], trimmed; [X-Real-IP];
    the address of the socket; [req.ip]. *)
Definition ip_sources (req : Request) : list string :=
  [ match x_forwarded_for req with
    | Some h => Js.trim (hd "" (Js.split "," h))
    | None => ""
    end;
    text_or_empty (x_real_ip req);
    text_or_empty (remote_address req);
    text_or_empty (req_ip req) ].

(** * Proofs *)

(** ** The primitives on examples *)

Example iso_2025 :
  Clock.toISOString 1735732800123 = "2025-01-01T12:00:00.123Z".
Proof. reflexivity. Qed.

Example sqlite_2025 :
  Clock.sqlite_datetime 1735732800123 = "2025-01-01 12:00:00".
Proof. reflexivity. Qed.

Example iso_leap :
  Clock.toISOString 1709251199999 = "2024-02-29T23:59:59.999Z".
Proof. reflexivity. Qed.

Example parseInt_examples :
  Js.parseInt " 42abc" = Some 42 /\ Js.parseInt "abc" = None
  /\ Js.parseInt "0x1f" = Some 31 /\ Js.parseInt "-7" = Some (-7)
  /\ Js.parseInt "" = None.
Proof. repeat split. Qed.

Example split_examples :
  Js.split " " "Bearer abc" = ["Bearer"; "abc"]
  /\ Js.split " " "Bearer " = ["Bearer"; ""]
  /\ Js.split " " "" = [""].
Proof. repeat split. Qed.

Example trim_examples :
  Js.trim "  a b  " = "a b" /\ Js.trim "   " = "".
Proof. repeat split. Qed.

(** ** Password rules *)

Lemma test_class_has (cls : ascii -> bool) (p : string) :
  Js.test_class cls p = true <-> has cls p.
Proof.
  unfold Js.test_class, has. rewrite existsb_exists. reflexivity.
Qed.

Lemma nonempty_truthy (p : string) :
  p <> "" -> Js.truthy (Js.Str p) = true.
Proof.
  intros Hp. simpl. destruct (String.eqb_spec p ""); [contradiction | reflexivity].
Qed.

Lemma validatePassword_errors (p : string) :
  p <> "" -> errors (validatePassword (Js.Str p)) = independent_errors p.
Proof.
  intros Hp. unfold validatePassword, independent_errors.
  rewrite (nonempty_truthy p Hp). cbn [negb].
  unfold PASSWORD_MIN_LENGTH, push_if.
  destruct (Js.length p <? 12), (Js.test_class Js.is_letter p),
    (Js.test_class Js.is_digit p), (Js.test_class is_symbol p); reflexivity.
Qed.

Lemma validatePassword_valid (p : string) :
  p <> "" ->
  valid (validatePassword (Js.Str p))
  = negb (Js.length p <? 12) && Js.test_class Js.is_letter p
    && Js.test_class Js.is_digit p && Js.test_class is_symbol p.
Proof.
  intros Hp. unfold validatePassword.
  rewrite (nonempty_truthy p Hp). cbn [negb].
  unfold PASSWORD_MIN_LENGTH, push_if.
  destruct (Js.length p <? 12), (Js.test_class Js.is_letter p),
    (Js.test_class Js.is_digit p), (Js.test_class is_symbol p); reflexivity.
Qed.

Lemma validatePassword_required (v : Js.value) :
  (forall p, v <> Js.Str p) \/ v = Js.Str "" ->
  validatePassword v = mkValidation false [msg_required].
Proof.
  intros [H | ->]; [| reflexivity].
  destruct v; try reflexivity. exfalso. apply (H s). reflexivity.
Qed.

(** C7. [validatePassword] answers valid exactly on a string of at least 12
    characters that has a letter, a digit and a symbol of the fixed set; on
    a non-empty string each broken rule adds its own message, whatever the
    other rules say; an empty string or a value that is no string gets the
    single message that a password is required. *)
Theorem validatePassword_rules (v : Js.value) :
  (valid (validatePassword v) = true <->
   exists p, v = Js.Str p /\ 12 <= Js.length p /\ has Js.is_letter p
             /\ has Js.is_digit p /\ has is_symbol p)
  /\ (forall p, v = Js.Str p -> p <> "" ->
      errors (validatePassword v) = independent_errors p)
  /\ ((forall p, v <> Js.Str p) \/ v = Js.Str "" ->
      validatePassword v = mkValidation false [msg_required]).
Proof.
  split; [| split].
  - split.
    + intros Hv. destruct v; try discriminate Hv.
      destruct (String.eqb_spec s "") as [-> | Hs]; [discriminate Hv |].
      rewrite (validatePassword_valid s Hs) in Hv.
      apply andb_prop in Hv as [Hv Hsym]. apply andb_prop in Hv as [Hv Hdig].
      apply andb_prop in Hv as [Hlen Hlet].
      exists s. repeat split; try (apply test_class_has; assumption).
      apply negb_true_iff, Z.ltb_ge in Hlen. exact Hlen.
    + intros (p & -> & Hlen & Hlet & Hdig & Hsym).
      assert (Hp : p <> "").
      { intros ->. cbv in Hlen. apply Hlen. reflexivity. }
      rewrite (validatePassword_valid p Hp).
      apply test_class_has in Hlet, Hdig, Hsym.
      rewrite Hlet, Hdig, Hsym. apply Z.ltb_ge in Hlen. rewrite Hlen.
      reflexivity.
  - intros p -> Hp. apply validatePassword_errors. exact Hp.
  - apply validatePassword_required.
Qed.

Lemma validatePassword_rules_witness :
  valid (validatePassword (Js.Str "Passw0rd!2345")) = true
  /\ errors (validatePassword (Js.Str "password"))
     = [msg_length; msg_digit; msg_symbol]
  /\ validatePassword Js.Null = mkValidation false [msg_required].
Proof.
  destruct (validatePassword_rules (Js.Str "Passw0rd!2345")) as [Hv _].
  destruct (validatePassword_rules (Js.Str "password")) as [_ [He _]].
  destruct (validatePassword_rules Js.Null) as [_ [_ Hr]].
  split; [| split].
  - apply Hv. exists "Passw0rd!2345". split; [reflexivity |].
    split; [cbv; discriminate |].
    split; [exists "P"%char | split; [exists "0"%char | exists "!"%char]];
      (split; [simpl; tauto | reflexivity]).
  - rewrite (He "password" eq_refl); [reflexivity | discriminate].
  - apply Hr. left. intros p. discriminate.
Defined.

(** ** Lists as tables *)



Lemma find_in {A} (p : A -> bool) (l : list A) (a : A) :
  find p l = Some a -> In a l /\ p a = true.
Proof. apply find_some. Qed.

(** Unfolds one run of the store monad. *)
Ltac run :=
  unfold apply, exec, upsertVisitor, incrementVisitorQueryCount, createUser,
    verifyUserEmail, updateUserLastLogin, updateUserPassword, createSession,
    deleteSession, deleteUserSessions, cleanExpiredSessions, logQuery,
    updateQueryResult, createPasswordReset, markPasswordResetUsed,
    invalidate_resets, insert_reset, insert_visitor,
    bind, read, write, ret, throw in *.

(** ** The visitor counter *)

Lemma apply_leaves_visitors (now : Z) (op : Operation) (t : Tables) :
  leaves_visitors op = true -> visitors (apply now op t) = visitors t.
Proof.
  destruct op; try discriminate; intros _; run; cbn;
    repeat match goal with
           | |- context [if ?b then _ else _] => destruct b; cbn
           | |- context [match find ?p ?l with _ => _ end] =>
               destruct (find p l); cbn
           | |- context [match result_target ?u ?v ?a ?t with _ => _ end] =>
               destruct (result_target u v a t); cbn
           end; reflexivity.
Qed.

Lemma bump_id (v : Visitor) : v_id (bump v) = v_id v.
Proof. reflexivity. Qed.

Lemma increment_visitors (i : Z) (t : Tables) :
  visitors (exec (incrementVisitorQueryCount i) t)
  = map (fun v => if v_id v =? i then bump v else v) (visitors t).
Proof. reflexivity. Qed.

Lemma upsert_visitors (now : Z) (d : VisitorData) (t : Tables) :
  visitors (exec (upsertVisitor now d) t)
  = match getVisitorByFingerprint (vd_fingerprint d) t with
    | Some _ =>
        map (fun v =>
               if String.eqb (v_fingerprint v) (vd_fingerprint d)
               then refresh_visitor now (vd_ip_address d) (vd_user_agent d) v
               else v)
            (visitors t)
    | None =>
        (visitors t
         ++ [mkVisitor (seq_visitors t + 1) (vd_fingerprint d)
               (vd_ip_address d) (vd_user_agent d) (vd_language d)
               (vd_timezone d) (vd_screen_resolution d) (vd_platform d)
               (vd_referrer d) 0 (Clock.sqlite_datetime now)
               (Clock.sqlite_datetime now)])%list
    end.
Proof.
  run. cbn. unfold getVisitorByFingerprint.
  destruct (find _ (visitors t)) eqn:Hf; cbn; [reflexivity |].
  destruct (existsb _ (visitors t)) eqn:He; cbn; [| reflexivity].
  apply existsb_exists in He as (x & Hx & Hfp).
  apply (find_none _ _ Hf) in Hx. congruence.
Qed.


(** The same, for the row at a place of the table. *)
Lemma visitor_row_after (now : Z) (op : Operation) (t : Tables) (i : nat)
      (v : Visitor) :
  nth_error (visitors t) i = Some v ->
  nth_error (visitors (apply now op t)) i
  = Some match op with
         | IncrementVisitorQueryCount k => if v_id v =? k then bump v else v
         | UpsertVisitor d =>
             match getVisitorByFingerprint (vd_fingerprint d) t with
             | Some _ =>
                 if String.eqb (v_fingerprint v) (vd_fingerprint d)
                 then refresh_visitor now (vd_ip_address d)
                                      (vd_user_agent d) v
                 else v
             | None => v
             end
         | _ => v
         end.
Proof.
  intros Hv.
  destruct op;
    try (rewrite apply_leaves_visitors by reflexivity; exact Hv).
  - unfold apply. rewrite upsert_visitors.
    destruct (getVisitorByFingerprint (vd_fingerprint d) t).
    + rewrite nth_error_map, Hv. reflexivity.
    + rewrite nth_error_app1; [exact Hv |].
      apply nth_error_Some. congruence.
  - unfold apply. rewrite increment_visitors, nth_error_map, Hv. reflexivity.
Qed.

(** C8. Under every operation of the store the [query_count] of every row
    of [visitors] never goes down; it changes only under the increment of
    that very visitor, which adds exactly one; and an upsert on the
    fingerprint of the row leaves its [query_count] as it was, sets
    [last_seen] to the clock, and sets [ip_address] and [user_agent] to the
    address and the agent that came with the call, keeping the stored one
    only where the call brought none. *)
Theorem query_count_monotone (now : Z) (op : Operation) (t : Tables)
        (i : nat) (v : Visitor) :
  nth_error (visitors t) i = Some v ->
  exists v',
    nth_error (visitors (apply now op t)) i = Some v'
    /\ v_id v' = v_id v
    /\ v_query_count v <= v_query_count v'
    /\ (v_query_count v' <> v_query_count v ->
        op = IncrementVisitorQueryCount (v_id v))
    /\ (op = IncrementVisitorQueryCount (v_id v) ->
        v_query_count v' = v_query_count v + 1)
    /\ (forall d, op = UpsertVisitor d ->
        vd_fingerprint d = v_fingerprint v ->
        v_query_count v' = v_query_count v
        /\ v_last_seen v' = Clock.sqlite_datetime now
        /\ v_ip_address v'
           = match vd_ip_address d with
             | Some ip => Some ip
             | None => v_ip_address v
             end
        /\ v_user_agent v'
           = match vd_user_agent d with
             | Some agent => Some agent
             | None => v_user_agent v
             end
        /\ v_fingerprint v' = v_fingerprint v
        /\ v_first_seen v' = v_first_seen v).
Proof.
  intros Hv. rewrite (visitor_row_after now op t i v Hv).
  eexists. split; [reflexivity |].
  destruct op; try (repeat split; (lia || congruence || discriminate)).
  - (* upsert *)
    split; [| split; [| split; [| split]]].
    + destruct (getVisitorByFingerprint _ t); [| reflexivity].
      destruct (String.eqb _ _); reflexivity.
    + destruct (getVisitorByFingerprint _ t); [| lia].
      destruct (String.eqb _ _); simpl; lia.
    + destruct (getVisitorByFingerprint _ t); [| congruence].
      destruct (String.eqb _ _); simpl; congruence.
    + discriminate.
    + intros d' Hd Hfp. injection Hd as <-.
      assert (He : exists e,
                 getVisitorByFingerprint (vd_fingerprint d) t = Some e).
      { unfold getVisitorByFingerprint.
        destruct (find (fun x => String.eqb (v_fingerprint x) (vd_fingerprint d))
                       (visitors t)) eqn:Hf; [eauto |].
        apply nth_error_In in Hv. apply (find_none _ _ Hf) in Hv.
        rewrite Hfp, String.eqb_refl in Hv. discriminate. }
      destruct He as [e ->]. rewrite Hfp, String.eqb_refl.
      repeat split; cbn [refresh_visitor v_ip_address v_user_agent];
        unfold Sql.coalesce;
        [destruct (vd_ip_address d) | destruct (vd_user_agent d)];
        reflexivity.
  - (* increment *)
    destruct (Z.eqb_spec (v_id v) visitorId) as [<- | Hne]; simpl.
    + repeat split; try lia; try discriminate.
    + repeat split; try lia; try discriminate.
      intros H. injection H as H. congruence.
Qed.

Lemma query_count_monotone_witness :
  exists v',
    nth_error
      (visitors (apply Scenario.noon (IncrementVisitorQueryCount 1)
                       Scenario.visited)) 0
    = Some v'
    /\ v_query_count v' = 1.
Proof.
  destruct (query_count_monotone Scenario.noon (IncrementVisitorQueryCount 1)
              Scenario.visited 0 _ eq_refl)
    as (v' & H1 & _ & _ & _ & H4 & _).
  exists v'. split; [exact H1 | rewrite (H4 eq_refl); reflexivity].
Defined.

(** ** The constraints are kept *)

Lemma map_map_stable {A B} (f : A -> B) (g : A -> A) (l : list A) :
  (forall x, f (g x) = f x) -> map f (map g l) = map f l.
Proof.
  intros H. rewrite map_map. apply map_ext. exact H.
Qed.

Lemma NoDup_map_filter {R K} (keep : R -> bool) (key : R -> K)
      (rows : list R) (Hkeys : NoDup (map key rows)) :
  NoDup (map key (filter keep rows)).
Proof.
  induction rows as [| a l IH]; simpl; [constructor |].
  simpl in Hkeys. inversion Hkeys as [| ? ? Hn Hl]; subst.
  destruct (keep a); simpl; [| auto].
  constructor; [| auto].
  intros Hin. apply Hn. apply in_map_iff in Hin as (x & Hx & Hf).
  apply filter_In in Hf as [Hf _]. apply in_map_iff. eauto.
Qed.

Lemma NoDup_map_snoc {A} (f : A -> string) (l : list A) (a : A) :
  NoDup (map f l) ->
  existsb (fun x => String.eqb (f x) (f a)) l = false ->
  NoDup (map f (l ++ [a])).
Proof.
  intros Hl He. rewrite map_app. simpl.
  apply NoDup_app.
  - exact Hl.
  - constructor; [intros [] | constructor].
  - intros x Hx [<- | []].
    apply in_map_iff in Hx as (y & Hy & Hin).
    assert (Ht : existsb (fun x => String.eqb (f x) (f a)) l = true).
    { apply existsb_exists. exists y. split; [exact Hin |].
      rewrite Hy. apply String.eqb_refl. }
    congruence.
Qed.

Lemma Forall_ids_map {A} (id_of : A -> Z) (g : A -> A) (n : Z) (l : list A) :
  (forall x, id_of (g x) = id_of x) ->
  Forall (fun x => 0 < id_of x <= n) l ->
  Forall (fun x => 0 < id_of x <= n) (map g l).
Proof.
  intros Hg H. apply Forall_map. eapply Forall_impl; [| exact H].
  intros x Hx. cbn. rewrite Hg. exact Hx.
Qed.

Lemma Forall_ids_snoc {A} (id_of : A -> Z) (n : Z) (l : list A) (a : A) :
  0 <= n -> id_of a = n + 1 ->
  Forall (fun x => 0 < id_of x <= n) l ->
  Forall (fun x => 0 < id_of x <= n + 1) (l ++ [a]).
Proof.
  intros Hn Ha H. apply Forall_app. split.
  - eapply Forall_impl; [| exact H]. cbn. intros x Hx. lia.
  - constructor; [lia | constructor].
Qed.

Lemma wf_empty : wf empty.
Proof.
  constructor; cbn; try constructor; lia.
Qed.

Lemma upsert_wf (now : Z) (d : VisitorData) (t : Tables) :
  wf t -> wf (exec (upsertVisitor now d) t).
Proof.
  intros [Hv Hu Hsv Hsu Hs Hr].
  pose proof (upsert_visitors now d t) as Hvis.
  run. cbn in *. unfold getVisitorByFingerprint in *.
  destruct (find _ (visitors t)) eqn:Hf; cbn in *.
  - constructor; cbn; auto.
    apply Forall_ids_map; [| exact Hv].
    intros x. destruct (String.eqb _ _); reflexivity.
  - destruct (existsb _ (visitors t)); cbn in *.
    + constructor; auto.
    + constructor; cbn; auto; try lia.
      apply Forall_ids_snoc; auto.
Qed.

(** Every operation keeps the constraints. *)
Lemma apply_wf (now : Z) (op : Operation) (t : Tables) :
  wf t -> wf (apply now op t).
Proof.
  intros H. destruct op; try (apply upsert_wf; exact H);
    destruct H as [Hv Hu Hsv Hsu Hs Hr]; run; cbn;
    repeat match goal with
           | |- context [if ?b then _ else _] => destruct b eqn:?; cbn
           | |- context [match find ?p ?l with _ => _ end] =>
               destruct (find p l); cbn
           | |- context [match result_target ?u ?v ?a ?t with _ => _ end] =>
               destruct (result_target u v a t); cbn
           end;
    constructor; cbn; auto; try lia;
    try (apply Forall_ids_snoc; auto; fail);
    try (apply NoDup_map_filter; assumption);
    try (apply NoDup_map_snoc; assumption);
    try (apply Forall_ids_map; [| assumption];
         intros x; repeat match goal with
                          | |- context [if ?b then _ else _] => destruct b
                          end; reflexivity).
  all: try (rewrite map_map_stable;
            [assumption
            | intros x; repeat match goal with
                               | |- context [if ?b then _ else _] => destruct b
                               end; reflexivity]).
  (* createPasswordReset: the new token against the rewritten rows *)
  apply NoDup_map_snoc.
  - rewrite map_map_stable; [assumption |].
    intros x. destruct (_ && _); reflexivity.
  - assumption.
Qed.

Lemma reachable_wf (t : Tables) : reachable t -> wf t.
Proof.
  induction 1 as [| now op t _ IH]; [apply wf_empty | apply apply_wf; exact IH].
Qed.

(** ** Joins *)

Lemma hd_error_flat_map_some {A B} (f : A -> list B) (l : list A) (b : B) :
  hd_error (flat_map f l) = Some b -> exists a, In a l /\ In b (f a).
Proof.
  intros H. assert (Hin : In b (flat_map f l)).
  { destruct (flat_map f l); [discriminate | injection H as ->; left; reflexivity]. }
  apply in_flat_map in Hin. exact Hin.
Qed.

Lemma hd_error_flat_map_nil {A B} (f : A -> list B) (l : list A) :
  (forall a, In a l -> f a = []) -> hd_error (flat_map f l) = None.
Proof.
  intros H. induction l as [| a l IH]; [reflexivity |].
  simpl. rewrite (H a (or_introl eq_refl)). simpl.
  apply IH. intros x Hx. apply H. right. exact Hx.
Qed.

Lemma getSessionByToken_some (now : Z) (k : string) (t : Tables)
      (row : SessionRow) :
  getSessionByToken now k t = Some row ->
  exists s u,
    In s (sessions t) /\ In u (users t)
    /\ s_token s = k
    /\ Sql.datetime_gtb (s_expires_at s) (Clock.sqlite_datetime now) = true
    /\ s_user_id s = u_id u
    /\ row = session_row s u.
Proof.
  unfold getSessionByToken. intros H.
  apply hd_error_flat_map_some in H as (s & Hs & Hin).
  destruct (String.eqb_spec (s_token s) k) as [Hk | Hk]; cbn in Hin;
    [| contradiction].
  destruct (Sql.datetime_gtb _ _) eqn:Hgt; cbn in Hin; [| contradiction].
  apply in_map_iff in Hin as (u & Hrow & Hu).
  apply filter_In in Hu as [Hu Hid]. apply Z.eqb_eq in Hid.
  exists s, u. repeat split; auto.
Qed.

Lemma getPasswordResetByToken_some (now : Z) (k : string) (t : Tables)
      (row : ResetRow) :
  getPasswordResetByToken now k t = Some row ->
  exists r u,
    In r (password_resets t) /\ In u (users t)
    /\ pr_token r = k
    /\ Sql.datetime_gtb (pr_expires_at r) (Clock.sqlite_datetime now) = true
    /\ pr_used r = 0
    /\ pr_user_id r = u_id u
    /\ row = reset_row r u.
Proof.
  unfold getPasswordResetByToken. intros H.
  apply hd_error_flat_map_some in H as (r & Hr & Hin).
  destruct (String.eqb_spec (pr_token r) k) as [Hk | Hk]; cbn in Hin;
    [| contradiction].
  destruct (Sql.datetime_gtb _ _) eqn:Hgt; cbn in Hin; [| contradiction].
  destruct (Z.eqb_spec (pr_used r) 0) as [Hu0 | Hu0]; cbn in Hin;
    [| contradiction].
  apply in_map_iff in Hin as (u & Hrow & Hu).
  apply filter_In in Hu as [Hu Hid]. apply Z.eqb_eq in Hid.
  exists r, u. repeat split; auto.
Qed.


(** ** The query handler *)

















Lemma nonempty_some (f : option string) (s : string) :
  Js.nonempty f = Some s -> f = Some s.
Proof.
  destruct f as [x |]; simpl; [| discriminate].
  destruct (String.eqb x ""); [discriminate | trivial].
Qed.







Lemma wf_visited : wf Scenario.visited.
Proof.
  constructor; vm_compute; repeat constructor; discriminate.
Qed.


(** ** The result handler *)








(** ** Forgotten passwords *)

Lemma existsb_fresh (g : PasswordReset -> PasswordReset) (k : string)
      (l : list PasswordReset) :
  (forall r, pr_token (g r) = pr_token r) ->
  (forall r, In r l -> pr_token r <> k) ->
  existsb (fun r => String.eqb (pr_token r) k) (map g l) = false.
Proof.
  intros Hg Hf. apply not_true_is_false. intros He.
  apply existsb_exists in He as (x & Hx & Hk).
  apply in_map_iff in Hx as (r & <- & Hr).
  rewrite Hg in Hk. apply String.eqb_eq in Hk. exact (Hf r Hr Hk).
Qed.

Lemma createPasswordReset_returns (now : Z) (u : User) (k e : string)
      (t : Tables) :
  In u (users t) ->
  (forall r, In r (password_resets t) -> pr_token r <> k) ->
  exists t', createPasswordReset now (u_id u) k e t
             = (Returned (mkCreatedReset (seq_password_resets t + 1) k), t').
Proof.
  intros Hu Hf. unfold createPasswordReset, invalidate_resets, insert_reset,
    bind, write, ret. cbn.
  rewrite existsb_fresh; [| intros r; destruct (_ && _); reflexivity | exact Hf].
  assert (He : existsb (fun r => u_id r =? u_id u) (users t) = true).
  { apply existsb_exists. exists u. split; [exact Hu | apply Z.eqb_refl]. }
  rewrite He. cbn. eexists. reflexivity.
Qed.

Lemma forgot_password_answer (env : Env) (req : Request)
      (email : option string) (t : Tables) :
  Js.nonempty email <> None ->
  fresh_reset_token env t ->
  fst (post_forgot_password env req email t) = reset_sent.
Proof.
  intros He Hf. unfold post_forgot_password, try_catch.
  destruct (Js.nonempty email) as [e |]; [| contradiction].
  unfold bind at 1. unfold read at 1.
  destruct (getUserByEmail (Js.toLowerCase (Js.trim e)) t) as [u |] eqn:Hu;
    [| reflexivity].
  unfold getUserByEmail in Hu. apply find_in in Hu as [Hin _].
  destruct (createPasswordReset_returns (clock env) u (generateToken env)
              (generatePasswordResetExpiry env) t Hin Hf) as [t' Hrun].
  unfold bind. rewrite Hrun. reflexivity.
Qed.

(** C9. On a request with a non-empty email the forgot-password handler
    answers the same success payload, with status 200, whether the tables
    hold an account of that email or not; the UUID drawn for the request is
    taken to be new among the stored reset tokens. *)
Theorem forgot_password_uniform (env : Env) (req : Request)
        (email : option string) (t1 t2 : Tables) :
  Js.nonempty email <> None ->
  fresh_reset_token env t1 ->
  fresh_reset_token env t2 ->
  fst (post_forgot_password env req email t1)
  = fst (post_forgot_password env req email t2)
  /\ fst (post_forgot_password env req email t1) = reset_sent
  /\ status reset_sent = 200.
Proof.
  intros He H1 H2.
  rewrite (forgot_password_answer env req email t1 He H1).
  rewrite (forgot_password_answer env req email t2 He H2).
  repeat split.
Qed.

Lemma forgot_password_uniform_witness :
  getUserByEmail "user@test.com" Scenario.logged_in <> None
  /\ getUserByEmail "user@test.com" Scenario.visited = None
  /\ fst (post_forgot_password (Scenario.env_at Scenario.noon "reset-1")
            Scenario.browser (Some "user@test.com") Scenario.logged_in)
     = fst (post_forgot_password (Scenario.env_at Scenario.noon "reset-1")
              Scenario.browser (Some "user@test.com") Scenario.visited).
Proof.
  split; [vm_compute; discriminate | split; [reflexivity |]].
  apply (forgot_password_uniform (Scenario.env_at Scenario.noon "reset-1")
           Scenario.browser (Some "user@test.com") Scenario.logged_in
           Scenario.visited).
  - simpl. discriminate.
  - intros r Hr. vm_compute in Hr. contradiction.
  - intros r Hr. vm_compute in Hr. contradiction.
Defined.

(** ** Superusers *)

Lemma isSuperuser_listed (e : string) :
  isSuperuser (Some e) = Js.includes SUPERUSER_EMAILS (Js.toLowerCase e).
Proof.
  unfold isSuperuser. destruct (String.eqb_spec e "") as [-> | _]; reflexivity.
Qed.

Lemma withSuperuserStatus_or (u : User) :
  option_map (fun r => negb (u_is_superuser r =? 0))
             (withSuperuserStatus (Some u))
  = Some (flag_or_listed u).
Proof.
  unfold withSuperuserStatus, flag_or_listed. cbn [option_map].
  rewrite isSuperuser_listed.
  destruct (Js.includes _ _), (u_is_superuser u =? 0) eqn:H0;
    cbn [set_is_superuser u_is_superuser]; try rewrite H0; reflexivity.
Qed.

(** A row of [users] whose stored flag was set to 1 by hand, in a table no
    operation of the store builds, and whose email is not on the list: the
    sanitized view reports [false], and the all-users history answers 403
    to a session of that user, while [withSuperuserStatus] would report
    the flag. *)
Lemma stored_flag_not_reported :
  reported_superuser Scenario.promoted
  <> Some (flag_or_listed Scenario.promoted)
  /\ history_all_access (Scenario.env_at Scenario.noon "")
       (Scenario.with_bearer "session-op") Scenario.operator_logged_in
     = Refused (status_json 403 [("error", JString "Superuser access required")]).
Proof.
  split; [vm_compute; discriminate | reflexivity].
Qed.


(** ** Expiry texts *)

Lemma digit_code (n : Z) : 48 <= Js.code (Clock.digit n) <= 57.
Proof.
  unfold Js.code, Clock.digit.
  assert (H : 0 <= n mod 10 < 10) by (apply Z.mod_pos_bound; lia).
  rewrite N_ascii_embedding; [lia |].
  change 256%N with (Z.to_N 256). apply Z2N.inj_lt; lia.
Qed.

Lemma digit_class (n : Z) :
  Js.is_digit (Clock.digit n) = true
  /\ Sql.is_blank (Clock.digit n) = false
  /\ Sql.is_sign (Clock.digit n) = false.
Proof.
  pose proof (digit_code n) as H.
  unfold Js.is_digit, Sql.is_blank, Sql.is_sign. repeat split.
  - apply andb_true_intro. split; apply Z.leb_le; lia.
  - apply orb_false_intro; [apply andb_false_intro2 | ]; [apply Z.leb_gt | apply Z.eqb_neq]; lia.
  - assert (Hne : forall c, Js.code c < 48 ->
                    Ascii.eqb (Clock.digit n) c = false).
    { intros c Hc. destruct (Ascii.eqb_spec (Clock.digit n) c) as [E | _];
        [| reflexivity].
      rewrite E in H. lia. }
    rewrite (Hne "+"%char), (Hne "-"%char); [reflexivity | ..];
      vm_compute; reflexivity.
Qed.

(** A text that starts with the four digits of a year and a dash does not
    read as a number: a [DATETIME] column keeps it as the text it is. *)
Lemma dated_text_kept (y : Z) (k : string) :
  Sql.numeric_text (Clock.pad4 y (String "-" k)) = false.
Proof.
  unfold Clock.pad4, Clock.pad3, Clock.pad2, Sql.numeric_text.
  destruct (digit_class (y / 1000)) as (D1 & B1 & S1).
  destruct (digit_class (y / 100)) as (D2 & _ & _).
  destruct (digit_class (y / 10)) as (D3 & _ & _).
  destruct (digit_class y) as (D4 & _ & _).
  cbn [Sql.skip Sql.starts Sql.rest]. rewrite B1.
  cbn [Sql.skip Sql.starts Sql.rest]. rewrite S1.
  cbn [Sql.skip Sql.starts Sql.rest]. rewrite D1, D2, D3, D4.
  reflexivity.
Qed.

Lemma iso_text_kept (e : Z) : Sql.numeric_text (Clock.toISOString e) = false.
Proof.
  unfold Clock.toISOString, Clock.date_then.
  destruct (Clock.civil_from_days (e / Clock.ms_per_day)) as [[y m] d].
  apply dated_text_kept.
Qed.

(** On an ISO text the comparison of the [DATETIME] column is the one of
    two texts. *)
Lemma datetime_gtb_iso (e : Z) (now : string) :
  Sql.datetime_gtb (Clock.toISOString e) now
  = Sql.text_gtb (Clock.toISOString e) now.
Proof. unfold Sql.datetime_gtb. rewrite iso_text_kept. reflexivity. Qed.

(** An ISO text against a [datetime('now')] text: the ten characters of the
    date decide, and on the same date the [T] of the one is above the space
    of the other, so the hour never counts. *)
Lemma iso_gt_sqlite_by_day (e n : Z) :
  Sql.text_gtb (Clock.toISOString e) (Clock.sqlite_datetime n)
  = text_geb (Clock.sqlite_date e) (Clock.sqlite_date n).
Proof.
  unfold Sql.text_gtb, text_geb, Clock.toISOString, Clock.sqlite_datetime,
    Clock.sqlite_date, Clock.date_then.
  destruct (Clock.civil_from_days (e / Clock.ms_per_day)) as [[y m] d].
  destruct (Clock.civil_from_days (n / Clock.ms_per_day)) as [[y' m'] d'].
  unfold Clock.pad4, Clock.pad3, Clock.pad2.
  cbn [Sql.text_compare].
  change (Js.code "-" ?= Js.code "-") with Eq. cbv beta iota.
  destruct (Js.code (Clock.digit (y / 1000)) ?= Js.code (Clock.digit (y' / 1000)));
    try reflexivity.
  destruct (Js.code (Clock.digit (y / 100)) ?= Js.code (Clock.digit (y' / 100)));
    try reflexivity.
  destruct (Js.code (Clock.digit (y / 10)) ?= Js.code (Clock.digit (y' / 10)));
    try reflexivity.
  destruct (Js.code (Clock.digit y) ?= Js.code (Clock.digit y'));
    try reflexivity.
  destruct (Js.code (Clock.digit (m / 10)) ?= Js.code (Clock.digit (m' / 10)));
    try reflexivity.
  destruct (Js.code (Clock.digit m) ?= Js.code (Clock.digit m'));
    try reflexivity.
  destruct (Js.code (Clock.digit (d / 10)) ?= Js.code (Clock.digit (d' / 10)));
    try reflexivity.
  destruct (Js.code (Clock.digit d) ?= Js.code (Clock.digit d'));
    reflexivity.
Qed.

Lemma text_compare_refl (s : string) : Sql.text_compare s s = Eq.
Proof.
  induction s as [| c s IH]; simpl; [reflexivity |].
  rewrite Z.compare_refl. exact IH.
Qed.

(** An expiry is never over on the calendar day it falls on. *)
Lemma expiry_ignored_within_day (e n : Z) :
  e / Clock.ms_per_day = n / Clock.ms_per_day ->
  Sql.text_gtb (Clock.toISOString e) (Clock.sqlite_datetime n) = true.
Proof.
  intros Hday. rewrite iso_gt_sqlite_by_day.
  unfold text_geb, Clock.sqlite_date, Clock.date_then. rewrite Hday.
  rewrite text_compare_refl. reflexivity.
Qed.

(** ** Password resets *)

Lemma NoDup_map_inj {A B} (f : A -> B) (l : list A) (a b : A) :
  NoDup (map f l) -> In a l -> In b l -> f a = f b -> a = b.
Proof.
  induction l as [| x l IH]; simpl; intros Hn Ha Hb Hf; [contradiction |].
  inversion Hn as [| ? ? Hx Hl]; subst.
  destruct Ha as [-> | Ha], Hb as [-> | Hb]; auto.
  - exfalso. apply Hx. rewrite Hf. apply in_map. exact Hb.
  - exfalso. apply Hx. rewrite <- Hf. apply in_map. exact Ha.
Qed.

Lemma hd_error_flat_map_none {A B} (f : A -> list B) (l : list A) :
  (forall a b, In a l -> ~ In b (f a)) -> hd_error (flat_map f l) = None.
Proof.
  intros H. apply hd_error_flat_map_nil. intros a Ha.
  destruct (f a) as [| b r] eqn:Hf; [reflexivity |].
  exfalso. apply (H a b Ha). rewrite Hf. left. reflexivity.
Qed.

Lemma createPasswordReset_rows (now : Z) (userId : Z) (k e : string)
      (t t' : Tables) (res : CreatedReset) :
  createPasswordReset now userId k e t = (Returned res, t') ->
  password_resets t'
  = (map (fun r => if (pr_user_id r =? userId) && (pr_used r =? 0)
                   then mark_used r else r)
         (password_resets t)
     ++ [mkPasswordReset (seq_password_resets t + 1) userId k e 0
                         (Clock.sqlite_datetime now)])%list
  /\ users t' = users t
  /\ existsb (fun r => String.eqb (pr_token r) k) (password_resets t) = false.
Proof.
  unfold createPasswordReset, invalidate_resets, insert_reset, bind, write,
    ret. cbn.
  destruct (existsb _ (map _ _)) eqn:He; [discriminate |].
  destruct (negb _); [discriminate |].
  intros H. injection H as _ <-. cbn. repeat split.
  apply not_true_is_false. intros Ht. apply existsb_exists in Ht as (x & Hx & Hk).
  assert (Hm : existsb (fun r => String.eqb (pr_token r) k)
                 (map (fun r => if (pr_user_id r =? userId) && (pr_used r =? 0)
                                then mark_used r else r)
                      (password_resets t)) = true).
  { apply existsb_exists. eexists. split; [apply in_map; exact Hx |].
    destruct (_ && _); exact Hk. }
  congruence.
Qed.

(** After [createPasswordReset] returned, the user has one unused token,
    the new one. *)
Lemma create_leaves_one_unused (now : Z) (userId : Z) (k e : string)
      (t t' : Tables) (res : CreatedReset) :
  createPasswordReset now userId k e t = (Returned res, t') ->
  unused_resets userId t'
  = [mkPasswordReset (seq_password_resets t + 1) userId k e 0
                     (Clock.sqlite_datetime now)].
Proof.
  intros H. apply createPasswordReset_rows in H as (Hrows & _ & _).
  unfold unused_resets. rewrite Hrows, filter_app. cbn.
  rewrite Z.eqb_refl. cbn.
  replace (filter _ (map _ _)) with (@nil PasswordReset); [reflexivity |].
  symmetry. clear Hrows.
  induction (password_resets t) as [| r l IH]; [reflexivity |].
  cbn. destruct ((pr_user_id r =? userId) && (pr_used r =? 0)) eqn:Hc; cbn.
  - rewrite andb_false_r. exact IH.
  - rewrite Hc. exact IH.
Qed.

(** After [createPasswordReset] returned, no earlier token of the user is
    accepted, at any time. *)
Lemma create_invalidates_earlier (now : Z) (userId : Z) (k e : string)
      (t t' : Tables) (res : CreatedReset) (old : PasswordReset) :
  wf t ->
  createPasswordReset now userId k e t = (Returned res, t') ->
  In old (password_resets t) ->
  pr_user_id old = userId ->
  forall later, getPasswordResetByToken later (pr_token old) t' = None.
Proof.
  intros Hwf H Hold Huser later.
  apply createPasswordReset_rows in H as (Hrows & _ & Hfresh).
  unfold getPasswordResetByToken. apply hd_error_flat_map_none.
  intros r row Hr Hin. rewrite Hrows in Hr.
  destruct (String.eqb_spec (pr_token r) (pr_token old)) as [Hk | Hk];
    cbn in Hin; [| contradiction].
  destruct (Sql.datetime_gtb _ _); cbn in Hin; [| contradiction].
  destruct (Z.eqb_spec (pr_used r) 0) as [Hu | Hu]; cbn in Hin;
    [| contradiction].
  apply in_app_or in Hr as [Hr | [<- | []]].
  - apply in_map_iff in Hr as (r0 & Hr0 & Hin0).
    assert (r0 = old).
    { apply (NoDup_map_inj pr_token (password_resets t));
        [apply (wf_reset_tokens t Hwf) | exact Hin0 | exact Hold |].
      rewrite <- Hk, <- Hr0. destruct (_ && _); reflexivity. }
    subst r0. rewrite Huser, Z.eqb_refl in Hr0.
    destruct (Z.eqb_spec (pr_used old) 0) as [H0 | H0]; cbn in Hr0;
      subst r; [discriminate Hu | contradiction].
  - cbn in Hk. assert (Ht : existsb (fun r => String.eqb (pr_token r) k)
                              (password_resets t) = true).
    { apply existsb_exists. exists old. split; [exact Hold |].
      rewrite Hk. apply String.eqb_refl. }
    congruence.
Qed.

(** After [markPasswordResetUsed] the token is not accepted, at any time. *)
Lemma used_token_rejected (k : string) (t : Tables) (later : Z) :
  getPasswordResetByToken later k (exec (markPasswordResetUsed k) t) = None.
Proof.
  unfold getPasswordResetByToken. apply hd_error_flat_map_none.
  intros r row Hr Hin. cbn in Hr.
  apply in_map_iff in Hr as (r0 & Hr0 & _).
  destruct (String.eqb_spec (pr_token r) k) as [Hk | Hk]; cbn in Hin;
    [| contradiction].
  destruct (Sql.datetime_gtb _ _); cbn in Hin; [| contradiction].
  destruct (Z.eqb_spec (pr_used r) 0) as [Hu | Hu]; cbn in Hin;
    [| contradiction].
  destruct (String.eqb_spec (pr_token r0) k) as [Hk0 | Hk0]; subst r.
  - discriminate Hu.
  - contradiction.
Qed.

(** ** Consuming a reset token *)

(** The handler answers 200 only on the path that found the reset row, and
    then it ran the three writes. *)
Lemma post_reset_password_done (env : Env) (req : Request) (b : ResetBody)
      (t : Tables) :
  status (fst (post_reset_password env req b t)) = 200 ->
  exists token password r,
    Js.nonempty (rb_token b) = Some token
    /\ Js.nonempty (rb_password b) = Some password
    /\ getPasswordResetByToken (clock env) token t = Some r
    /\ post_reset_password env req b t
       = (password_updated,
          exec (deleteUserSessions (rr_user_id r))
            (exec (markPasswordResetUsed token)
               (exec (updateUserPassword (rr_user_id r)
                        (bcrypt_hash env password)) t))).
Proof.
  unfold post_reset_password, try_catch.
  destruct (Js.nonempty (rb_token b)) as [token |];
    destruct (Js.nonempty (rb_password b)) as [password |];
    try (cbn; discriminate).
  destruct (valid (validatePassword (Js.Str password))); cbn [negb];
    [| cbn; discriminate].
  unfold bind at 1. unfold read at 1.
  destruct (getPasswordResetByToken (clock env) token t) as [r |] eqn:Hr;
    [| cbn; discriminate].
  intros _. exists token, password, r.
  split; [reflexivity | split; [reflexivity | split; [exact Hr |]]].
  unfold bind at 1. unfold read at 1. rewrite Hr. reflexivity.
Qed.

(** C5. When the reset handler succeeds, every session of the user who owns
    the reset token is deleted: a session token of that user that
    [getSessionByToken] accepted just before is accepted at no time
    after. *)
Theorem reset_destroys_sessions (env : Env) (req : Request) (b : ResetBody)
        (t : Tables) :
  wf t ->
  status (fst (post_reset_password env req b t)) = 200 ->
  exists token r,
    Js.nonempty (rb_token b) = Some token
    /\ getPasswordResetByToken (clock env) token t = Some r
    /\ (forall s, In s (sessions (snd (post_reset_password env req b t))) ->
        s_user_id s <> rr_user_id r)
    /\ (forall k sess,
        getSessionByToken (clock env) k t = Some sess ->
        sr_user_id sess = rr_user_id r ->
        forall later,
          getSessionByToken later k (snd (post_reset_password env req b t))
          = None).
Proof.
  intros Hwf Hok.
  destruct (post_reset_password_done env req b t Hok)
    as (token & password & r & Htok & _ & Hr & Hrun).
  exists token, r. rewrite Hrun. cbn [snd].
  assert (Hgone : forall s,
             In s (sessions
                     (exec (deleteUserSessions (rr_user_id r))
                        (exec (markPasswordResetUsed token)
                           (exec (updateUserPassword (rr_user_id r)
                                    (bcrypt_hash env password)) t)))) ->
             In s (sessions t) /\ s_user_id s <> rr_user_id r).
  { intros s Hs. cbn in Hs. apply filter_In in Hs as [Hin Hne].
    split; [exact Hin |]. apply negb_true_iff, Z.eqb_neq in Hne. exact Hne. }
  split; [exact Htok | split; [exact Hr | split]].
  - intros s Hs. apply (Hgone s Hs).
  - intros k sess Hs Howner later.
    destruct (getSessionByToken later k _) as [row |] eqn:Hafter;
      [| reflexivity].
    exfalso.
    apply getSessionByToken_some in Hs as (s & u & Hin & _ & Hk & _ & Hid & ->).
    apply getSessionByToken_some in Hafter
      as (s' & u' & Hin' & _ & Hk' & _ & _ & _).
    apply Hgone in Hin' as [Hin' Hne].
    assert (s' = s).
    { apply (NoDup_map_inj s_token (sessions t));
        [apply (wf_session_tokens t Hwf) | exact Hin' | exact Hin |].
      congruence. }
    subst s'. cbn in Howner. congruence.
Qed.

Lemma wf_reset_asked : wf Scenario.reset_asked.
Proof.
  constructor; vm_compute; repeat constructor;
    try discriminate; intros [].
Qed.

Lemma reset_destroys_sessions_witness :
  getSessionByToken (Scenario.noon + Scenario.minute) "session-1"
                    Scenario.reset_asked <> None
  /\ getSessionByToken (Scenario.noon + Scenario.minute) "session-1"
       (snd (post_reset_password
               (Scenario.env_at (Scenario.noon + Scenario.minute) "")
               Scenario.browser
               (mkResetBody (Some "reset-1") (Some "N3w-Passw0rd!42"))
               Scenario.reset_asked))
     = None.
Proof.
  split; [vm_compute; discriminate |].
  destruct (reset_destroys_sessions
              (Scenario.env_at (Scenario.noon + Scenario.minute) "")
              Scenario.browser
              (mkResetBody (Some "reset-1") (Some "N3w-Passw0rd!42"))
              Scenario.reset_asked wf_reset_asked eq_refl)
    as (token & r & Htok & Hr & _ & H).
  vm_compute in Htok. injection Htok as <-.
  vm_compute in Hr. injection Hr as <-.
  eapply H; [vm_compute; reflexivity | reflexivity].
Defined.

(** ** Expiry in the run of the examples *)

(** C6. The session opened at 2025-01-01 12:00 UTC gets the expiry text of
    exactly seven days later and is returned six days and 23 hours after
    its creation; seven days and one minute after its creation, when it
    should be refused, [getSessionByToken] still returns it, because
    ["2025-01-08T12:00:00.000Z"] is above ["2025-01-08 12:01:00"] as a
    text.  It is refused from the next calendar day on. *)
Theorem session_outlives_expiry :
  map s_expires_at (sessions Scenario.logged_in)
  = [Clock.toISOString (Scenario.noon + SESSION_DURATION_MS)]
  /\ SESSION_DURATION_MS = 7 * Scenario.day
  /\ Clock.toISOString (Scenario.noon + 7 * Scenario.day)
     = "2025-01-08T12:00:00.000Z"
  /\ Clock.sqlite_datetime (Scenario.noon + 7 * Scenario.day + Scenario.minute)
     = "2025-01-08 12:01:00"
  /\ getSessionByToken (Scenario.noon + 6 * Scenario.day + 23 * Scenario.hour)
       "session-1" Scenario.logged_in <> None
  /\ getSessionByToken (Scenario.noon + 7 * Scenario.day + Scenario.minute)
       "session-1" Scenario.logged_in <> None
  /\ getSessionByToken (Scenario.noon + 7 * Scenario.day + 12 * Scenario.hour)
       "session-1" Scenario.logged_in = None.
Proof.
  repeat split; try reflexivity; vm_compute; discriminate.
Qed.

(** C4. The reset token issued at 2025-01-01 12:00 UTC expires at 13:00;
    at 14:00, when it should be refused, [getPasswordResetByToken] still
    returns it and the reset handler changes the password, because
    ["2025-01-01T13:00:00.000Z"] is above ["2025-01-01 14:00:00"] as a
    text. *)
Theorem reset_token_outlives_expiry :
  map pr_expires_at (password_resets Scenario.reset_asked)
  = ["2025-01-01T13:00:00.000Z"]
  /\ Clock.sqlite_datetime (Scenario.noon + 2 * Scenario.hour)
     = "2025-01-01 14:00:00"
  /\ getPasswordResetByToken (Scenario.noon + 2 * Scenario.hour) "reset-1"
       Scenario.reset_asked <> None
  /\ fst (post_reset_password
            (Scenario.env_at (Scenario.noon + 2 * Scenario.hour) "")
            Scenario.browser
            (mkResetBody (Some "reset-1") (Some "N3w-Passw0rd!42"))
            Scenario.reset_asked)
     = password_updated.
Proof.
  repeat split; try reflexivity; vm_compute; discriminate.
Qed.

(** * Further properties *)

(** ** The calendar is monotone *)

Section Calendar.

(** The pieces of [civil_from_days], named. *)
Let era (days : Z) : Z := (days + 719468) / 146097.
Let doe (days : Z) : Z := days + 719468 - era days * 146097.
Let yoe (e : Z) : Z := (e - e / 1460 + e / 36524 - e / 146096) / 365.
Let doy (e : Z) : Z := e - (365 * yoe e + yoe e / 4 - yoe e / 100).
Let mp (y : Z) : Z := (5 * y + 2) / 153.
Let dom (y : Z) : Z := y - (153 * mp y + 2) / 5 + 1.

Lemma era_monotone (a b : Z) :
  a < b ->
  0 <= doe a < 146097 /\ 0 <= doe b < 146097
  /\ (era a < era b \/ (era a = era b /\ doe a < doe b)).
Proof.
  intros H. unfold doe, era. Z.to_euclidean_division_equations; lia.
Qed.

Lemma yoe_bracket (e : Z) :
  0 <= e < 146097 ->
  0 <= yoe e <= 399
  /\ days_before_year (yoe e) <= e
  /\ (e < days_before_year (yoe e + 1) \/ (e = 146096 /\ yoe e = 399)).
Proof.
  intros H. unfold yoe, days_before_year.
  Z.to_euclidean_division_equations; lia.
Qed.

Lemma days_before_year_monotone (y y' : Z) :
  0 <= y -> y < y' -> days_before_year (y + 1) <= days_before_year y'.
Proof.
  intros H0 H. unfold days_before_year.
  Z.to_euclidean_division_equations; lia.
Qed.

Lemma doy_range (e : Z) : 0 <= e < 146097 -> 0 <= doy e <= 365.
Proof.
  intros He.
  destruct (yoe_bracket e He) as (Hy & Hlo & Hhi).
  assert (Hd : doy e = e - days_before_year (yoe e)) by reflexivity.
  assert (Hlen : days_before_year (yoe e + 1) - days_before_year (yoe e)
                 <= 366).
  { unfold days_before_year. Z.to_euclidean_division_equations; lia. }
  assert (Hlast : days_before_year 399 = 145731) by reflexivity.
  destruct Hhi as [Hhi | [He' Hq]]; [lia |]. rewrite Hd, Hq, Hlast. lia.
Qed.

Lemma yoe_monotone (e e' : Z) :
  0 <= e -> e < e' -> e' < 146097 ->
  0 <= doy e <= 365 /\ 0 <= doy e' <= 365
  /\ (yoe e < yoe e' \/ (yoe e = yoe e' /\ doy e < doy e')).
Proof.
  intros H0 H H1.
  destruct (yoe_bracket e) as (Hy & Hlo & Hhi); [lia |].
  destruct (yoe_bracket e') as (Hy' & Hlo' & Hhi'); [lia |].
  assert (Hd : doy e = e - days_before_year (yoe e)) by reflexivity.
  assert (Hd' : doy e' = e' - days_before_year (yoe e')) by reflexivity.
  assert (Hle : yoe e <= yoe e').
  { destruct (Z_lt_le_dec (yoe e') (yoe e)) as [Hlt | Hge]; [| exact Hge].
    pose proof (days_before_year_monotone (yoe e') (yoe e)
                  (proj1 Hy') Hlt). lia. }
  assert (Hlen : forall y, 0 <= y <= 399 ->
             days_before_year (y + 1) - days_before_year y <= 366).
  { intros y Hr. unfold days_before_year.
    Z.to_euclidean_division_equations; lia. }
  pose proof (Hlen (yoe e) Hy). pose proof (Hlen (yoe e') Hy').
  assert (Hlast : days_before_year 399 = 145731) by reflexivity.
  assert (Hr : doy e <= 365).
  { destruct Hhi as [Hhi | [He Hq]]; [lia |]. rewrite Hd, Hq, Hlast. lia. }
  assert (Hr' : doy e' <= 365).
  { destruct Hhi' as [Hhi' | [He Hq]]; [lia |]. rewrite Hd', Hq, Hlast. lia. }
  split; [lia | split; [lia |]].
  destruct (Z.eq_dec (yoe e) (yoe e')) as [Heq | Hne]; [right | left; lia].
  split; [exact Heq |]. rewrite Hd, Hd', Heq. lia.
Qed.

Lemma month_monotone (y y' : Z) :
  0 <= y -> y < y' -> y' <= 365 ->
  0 <= mp y <= 11 /\ 0 <= mp y' <= 11
  /\ 1 <= dom y <= 31 /\ 1 <= dom y' <= 31
  /\ (mp y < mp y' \/ (mp y = mp y' /\ dom y < dom y')).
Proof.
  intros H0 H H1. unfold dom, mp.
  Z.to_euclidean_division_equations; lia.
Qed.

Lemma month_range (y : Z) :
  0 <= y <= 365 -> 0 <= mp y <= 11 /\ 1 <= dom y <= 31.
Proof.
  intros H. unfold dom, mp. Z.to_euclidean_division_equations; lia.
Qed.

(** [date_key] through the named pieces. *)
Lemma date_key_pieces (n : Z) :
  date_key n
  = (yoe (doe n) + era n * 400
     + (if (if mp (doy (doe n)) <? 10 then mp (doy (doe n)) + 3
            else mp (doy (doe n)) - 9) <=? 2 then 1 else 0)) * 10000
    + (if mp (doy (doe n)) <? 10 then mp (doy (doe n)) + 3
       else mp (doy (doe n)) - 9) * 100
    + dom (doy (doe n)).
Proof. reflexivity. Qed.

Lemma date_key_lex (n : Z) :
  0 <= doy (doe n) <= 365 ->
  date_key n
  = (era n * 400 + yoe (doe n)) * 10000
    + (if mp (doy (doe n)) <? 10 then (mp (doy (doe n)) + 3) * 100
       else 10000 + (mp (doy (doe n)) - 9) * 100)
    + dom (doy (doe n)).
Proof.
  intros Hr. rewrite date_key_pieces.
  destruct (month_range _ Hr) as [Hm _].
  destruct (Z.ltb_spec (mp (doy (doe n))) 10) as [Hlt | Hge].
  - destruct (Z.leb_spec (mp (doy (doe n)) + 3) 2); lia.
  - destruct (Z.leb_spec (mp (doy (doe n)) - 9) 2); lia.
Qed.

(** A later day has a greater [YYYYMMDD]. *)
Lemma date_key_increasing (a b : Z) : a < b -> date_key a < date_key b.
Proof.
  intros H.
  destruct (era_monotone a b H) as (Ha & Hb & Hera).
  pose proof (doy_range (doe a) Ha) as Hda.
  pose proof (doy_range (doe b) Hb) as Hdb.
  destruct (yoe_bracket (doe a) Ha) as (Hyoa & _).
  destruct (yoe_bracket (doe b) Hb) as (Hyob & _).
  rewrite (date_key_lex a Hda), (date_key_lex b Hdb).
  destruct (month_range _ Hda) as [Hma Hdma].
  destruct (month_range _ Hdb) as [Hmb Hdmb].
  assert (Hlex :
    era a * 400 + yoe (doe a) < era b * 400 + yoe (doe b)
    \/ (era a * 400 + yoe (doe a) = era b * 400 + yoe (doe b)
        /\ (mp (doy (doe a)) < mp (doy (doe b))
            \/ (mp (doy (doe a)) = mp (doy (doe b))
                /\ dom (doy (doe a)) < dom (doy (doe b)))))).
  { destruct Hera as [Hlt | [Heq Hdoe]]; [left; lia |].
    destruct (yoe_monotone (doe a) (doe b)) as (_ & _ & Hy); try lia.
    destruct Hy as [Hlt | [Hyeq Hdoy]]; [left; lia |].
    right. split; [lia |].
    destruct (month_monotone (doy (doe a)) (doy (doe b)))
      as (_ & _ & _ & _ & Hm); lia. }
  destruct (Z.ltb_spec (mp (doy (doe a))) 10),
           (Z.ltb_spec (mp (doy (doe b))) 10); lia.
Qed.

End Calendar.

Lemma civil_ranges (n : Z) :
  0 <= n < 2932897 ->
  let '(y, m, d) := Clock.civil_from_days n in
  1970 <= y <= 9999 /\ 1 <= m <= 12 /\ 1 <= d <= 31.
Proof.
  intros Hn. unfold Clock.civil_from_days. cbv zeta.
  destruct (_ <? 10) eqn:H1; destruct (_ <=? 2) eqn:H2;
    rewrite ?Z.ltb_lt, ?Z.ltb_ge, ?Z.leb_le, ?Z.leb_gt in *;
    Z.to_euclidean_division_equations; lia.
Qed.

(** ** Digits compare as numbers *)

Lemma code_digit (n : Z) : Js.code (Clock.digit n) = 48 + n mod 10.
Proof.
  unfold Js.code, Clock.digit.
  assert (H : 0 <= n mod 10 < 10) by (apply Z.mod_pos_bound; lia).
  rewrite N_ascii_embedding; [lia |].
  change 256%N with (Z.to_N 256). apply Z2N.inj_lt; lia.
Qed.

Lemma digit_compare (p q : Z) (k1 k2 : string) :
  Sql.text_compare (String (Clock.digit p) k1) (String (Clock.digit q) k2)
  = match p mod 10 ?= q mod 10 with
    | Eq => Sql.text_compare k1 k2
    | c => c
    end.
Proof.
  cbn [Sql.text_compare]. rewrite !code_digit.
  rewrite Z.add_compare_mono_l. reflexivity.
Qed.

Lemma pad2_compare (x y : Z) (k1 k2 : string) :
  0 <= x < 100 -> 0 <= y < 100 ->
  Sql.text_compare (Clock.pad2 x k1) (Clock.pad2 y k2)
  = match x ?= y with
    | Eq => Sql.text_compare k1 k2
    | c => c
    end.
Proof.
  intros Hx Hy. unfold Clock.pad2. rewrite !digit_compare.
  destruct (Z.compare_spec ((x / 10) mod 10) ((y / 10) mod 10));
    destruct (Z.compare_spec (x mod 10) (y mod 10));
    destruct (Z.compare_spec x y);
    try reflexivity; exfalso; Z.to_euclidean_division_equations; lia.
Qed.

Lemma pad4_compare (x y : Z) (k1 k2 : string) :
  0 <= x < 10000 -> 0 <= y < 10000 ->
  Sql.text_compare (Clock.pad4 x k1) (Clock.pad4 y k2)
  = match x ?= y with
    | Eq => Sql.text_compare k1 k2
    | c => c
    end.
Proof.
  intros Hx Hy. unfold Clock.pad4, Clock.pad3, Clock.pad2.
  rewrite !digit_compare.
  destruct (Z.compare_spec ((x / 1000) mod 10) ((y / 1000) mod 10));
    destruct (Z.compare_spec ((x / 100) mod 10) ((y / 100) mod 10));
    destruct (Z.compare_spec ((x / 10) mod 10) ((y / 10) mod 10));
    destruct (Z.compare_spec (x mod 10) (y mod 10));
    destruct (Z.compare_spec x y);
    try reflexivity; exfalso; Z.to_euclidean_division_equations; lia.
Qed.

Lemma in_calendar_day (ms : Z) :
  in_calendar ms -> 0 <= utc_day ms < 2932897.
Proof.
  unfold in_calendar, utc_day, Clock.ms_per_day. intros H.
  Z.to_euclidean_division_equations; lia.
Qed.

Lemma dash_compare (k1 k2 : string) (c : ascii) :
  Sql.text_compare (String c k1) (String c k2) = Sql.text_compare k1 k2.
Proof. cbn [Sql.text_compare]. rewrite Z.compare_refl. reflexivity. Qed.

(** Two date texts compare as their days do. *)
Lemma date_then_compare (a b : Z) (k1 k2 : string) :
  in_calendar a -> in_calendar b ->
  Sql.text_compare (Clock.date_then a k1) (Clock.date_then b k2)
  = match utc_day a ?= utc_day b with
    | Eq => Sql.text_compare k1 k2
    | c => c
    end.
Proof.
  intros Ha Hb. apply in_calendar_day in Ha, Hb.
  pose proof (civil_ranges _ Ha) as Ra. pose proof (civil_ranges _ Hb) as Rb.
  assert (Hlt : utc_day a < utc_day b -> date_key (utc_day a) < date_key (utc_day b))
    by apply date_key_increasing.
  assert (Hgt : utc_day b < utc_day a -> date_key (utc_day b) < date_key (utc_day a))
    by apply date_key_increasing.
  assert (Heq : utc_day a = utc_day b ->
                Clock.civil_from_days (utc_day a) = Clock.civil_from_days (utc_day b))
    by (intros ->; reflexivity).
  unfold Clock.date_then, date_key in *. fold (utc_day a) (utc_day b).
  destruct (Clock.civil_from_days (utc_day a)) as [[y m] d].
  destruct (Clock.civil_from_days (utc_day b)) as [[y' m'] d'].
  rewrite pad4_compare by lia. rewrite dash_compare.
  rewrite pad2_compare by lia. rewrite dash_compare.
  rewrite pad2_compare by lia.
  destruct (Z.compare_spec (utc_day a) (utc_day b)) as [He | Hl | Hg].
  - specialize (Heq He). injection Heq as -> -> ->.
    rewrite !Z.compare_refl. reflexivity.
  - specialize (Hlt Hl).
    destruct (Z.compare_spec y y'); destruct (Z.compare_spec m m');
      destruct (Z.compare_spec d d'); try reflexivity; lia.
  - specialize (Hgt Hg).
    destruct (Z.compare_spec y y'); destruct (Z.compare_spec m m');
      destruct (Z.compare_spec d d'); try reflexivity; lia.
Qed.

(** The test [expires_at > datetime('now')] on an ISO expiry: it holds
    exactly while today is not after the day of the expiry. *)
Lemma iso_gt_sqlite_days (e n : Z) :
  in_calendar e -> in_calendar n ->
  Sql.text_gtb (Clock.toISOString e) (Clock.sqlite_datetime n)
  = (utc_day n <=? utc_day e).
Proof.
  intros He Hn. unfold Sql.text_gtb, Clock.toISOString, Clock.sqlite_datetime.
  rewrite (date_then_compare e n _ _ He Hn).
  destruct (Z.compare_spec (utc_day e) (utc_day n)) as [Heq | Hlt | Hgt].
  - rewrite Heq, Z.leb_refl. reflexivity.
  - symmetry. apply Z.leb_gt. exact Hlt.
  - symmetry. apply Z.leb_le. lia.
Qed.

(** ** Regular expressions match their words *)

Lemma nullable_lang (r : Regex.t) : Regex.nullable r = true <-> lang r [].
Proof.
  induction r as [| | p | r1 IH1 r2 IH2 | r1 IH1 r2 IH2 | r1 IH1]; simpl.
  - split; intros H; [discriminate | inversion H].
  - split; intros _; [constructor | reflexivity].
  - split; intros H; [discriminate | inversion H].
  - split; intros H.
    + apply andb_prop in H as [H1 H2].
      change (@nil ascii) with (@nil ascii ++ [])%list.
      constructor; [apply IH1 | apply IH2]; assumption.
    + inversion H as [| | r s u v Hu Hv | | | |]; subst.
      match goal with E : (u ++ v)%list = [] |- _ =>
        apply app_eq_nil in E as [-> ->] end.
      rewrite (proj2 IH1 Hu), (proj2 IH2 Hv). reflexivity.
  - split; intros H.
    + apply orb_prop in H as [H | H];
        [apply lang_alt_l, IH1 | apply lang_alt_r, IH2]; exact H.
    + inversion H; subst.
      * rewrite (proj2 IH1); auto.
      * rewrite (proj2 IH2), orb_true_r; auto.
  - split; intros _; [constructor | reflexivity].
Qed.

Lemma star_cons_split (r : Regex.t) (c : ascii) (s : list ascii) :
  lang (Regex.Star r) (c :: s) ->
  exists u v, s = (u ++ v)%list /\ lang r (c :: u) /\ lang (Regex.Star r) v.
Proof.
  intros H. remember (Regex.Star r) as sr eqn:Hr.
  remember (c :: s) as w eqn:Hw. revert s Hw.
  induction H as [| | | | | | r0 u v Hu _ Hv IHv]; intros s0 Hw;
    try discriminate.
  injection Hr as ->. destruct u as [| x u].
  - simpl in Hw. apply (IHv eq_refl s0 Hw).
  - simpl in Hw. injection Hw as -> <-. exists u, v. auto.
Qed.

Lemma lang_seq_inv (r s : Regex.t) (w : list ascii) :
  lang (Regex.Seq r s) w ->
  exists u v, w = (u ++ v)%list /\ lang r u /\ lang s v.
Proof. intros H. inversion H; subst. eauto. Qed.

Lemma lang_alt_inv (r s : Regex.t) (w : list ascii) :
  lang (Regex.Alt r s) w -> lang r w \/ lang s w.
Proof. intros H. inversion H; subst; auto. Qed.

Lemma deriv_lang (r : Regex.t) (c : ascii) (s : list ascii) :
  lang (Regex.deriv c r) s <-> lang r (c :: s).
Proof.
  revert s. induction r as [| | p | r1 IH1 r2 IH2 | r1 IH1 r2 IH2 | r1 IH1];
    intros s; simpl.
  - split; intros H; inversion H.
  - split; intros H; inversion H.
  - destruct (p c) eqn:Hp; split; intros H.
    + inversion H; subst. constructor. exact Hp.
    + inversion H; subst. constructor.
    + inversion H.
    + inversion H; subst. congruence.
  - assert (Hfwd : lang (Regex.Seq (Regex.deriv c r1) r2) s ->
                   lang (Regex.Seq r1 r2) (c :: s)).
    { intros H. apply lang_seq_inv in H as (u & v & -> & Hu & Hv).
      change (c :: u ++ v)%list with ((c :: u) ++ v)%list.
      constructor; [apply IH1; exact Hu | exact Hv]. }
    assert (Hbwd : lang (Regex.Seq r1 r2) (c :: s) ->
                   lang (Regex.Seq (Regex.deriv c r1) r2) s
                   \/ (lang r1 [] /\ lang (Regex.deriv c r2) s)).
    { intros H. apply lang_seq_inv in H as (u & v & Heq & Hu & Hv).
      destruct u as [| x u]; simpl in Heq.
      - right. subst v. split; [exact Hu | apply IH2; exact Hv].
      - injection Heq as <- ->. left.
        constructor; [apply IH1; exact Hu | exact Hv]. }
    destruct (Regex.nullable r1) eqn:Hn; split; intros H.
    + apply lang_alt_inv in H as [H | H]; [apply Hfwd; exact H |].
      change (c :: s) with ([] ++ c :: s)%list.
      constructor; [apply nullable_lang; exact Hn | apply IH2; exact H].
    + apply Hbwd in H as [H | [_ H]];
        [apply lang_alt_l | apply lang_alt_r]; exact H.
    + apply Hfwd. exact H.
    + apply Hbwd in H as [H | [H _]]; [exact H |].
      apply nullable_lang in H. congruence.
  - split; intros H.
    + apply lang_alt_inv in H as [H | H];
        [apply lang_alt_l, IH1 | apply lang_alt_r, IH2]; exact H.
    + apply lang_alt_inv in H as [H | H];
        [apply lang_alt_l, IH1 | apply lang_alt_r, IH2]; exact H.
  - split; intros H.
    + apply lang_seq_inv in H as (u & v & -> & Hu & Hv).
      change (c :: u ++ v)%list with ((c :: u) ++ v)%list.
      constructor; [apply IH1; exact Hu | exact Hv].
    + apply star_cons_split in H as (u & v & -> & Hu & Hv).
      constructor; [apply IH1; exact Hu | exact Hv].
Qed.

Lemma matches_lang (r : Regex.t) (s : list ascii) :
  Regex.matches r s = true <-> lang r s.
Proof.
  revert r. induction s as [| c s IH]; intros r; simpl.
  - apply nullable_lang.
  - rewrite IH. apply deriv_lang.
Qed.

(** ** Email addresses *)

Lemma class_lang (p : ascii -> bool) (w : list ascii) :
  lang (Regex.Class p) w <-> exists c, w = [c] /\ p c = true.
Proof.
  split.
  - intros H. inversion H; subst. eauto.
  - intros (c & -> & Hc). constructor. exact Hc.
Qed.

Lemma star_class_lang (p : ascii -> bool) (w : list ascii) :
  lang (Regex.Star (Regex.Class p)) w <-> Forall (fun c => p c = true) w.
Proof.
  split.
  - intros H. remember (Regex.Star (Regex.Class p)) as r eqn:Hr.
    induction H as [| | | | | | r0 u v Hu _ Hv IHv]; try discriminate.
    + constructor.
    + injection Hr as ->. apply class_lang in Hu as (c & -> & Hc).
      constructor; [exact Hc | apply IHv; reflexivity].
  - induction 1 as [| c w Hc _ IH]; [constructor |].
    change (c :: w) with ([c] ++ w)%list.
    constructor; [constructor; exact Hc | exact IH].
Qed.

Lemma plus_class_lang (p : ascii -> bool) (w : list ascii) :
  lang (Regex.Plus (Regex.Class p)) w
  <-> w <> [] /\ Forall (fun c => p c = true) w.
Proof.
  unfold Regex.Plus. split.
  - intros H. apply lang_seq_inv in H as (u & v & -> & Hu & Hv).
    apply class_lang in Hu as (c & -> & Hc). apply star_class_lang in Hv.
    split; [discriminate | constructor; assumption].
  - intros [Hne Hall]. destruct w as [| c w]; [contradiction |].
    inversion Hall; subst.
    change (c :: w) with ([c] ++ w)%list.
    constructor; [constructor; assumption | apply star_class_lang; assumption].
Qed.

Lemma chr_lang (c : ascii) (w : list ascii) :
  lang (Regex.Chr c) w <-> w = [c].
Proof.
  unfold Regex.Chr. rewrite class_lang. split.
  - intros (x & -> & Hx). apply Ascii.eqb_eq in Hx. subst x. reflexivity.
  - intros ->. exists c. split; [reflexivity | apply Ascii.eqb_refl].
Qed.

Lemma email_regex_shape (s : list ascii) :
  lang EMAIL_REGEX s <-> email_shape s.
Proof.
  unfold EMAIL_REGEX, email_shape, atoms. split.
  - intros H.
    apply lang_seq_inv in H as (a & w1 & -> & Ha & H).
    apply lang_seq_inv in H as (x & w2 & -> & Hx & H).
    apply lang_seq_inv in H as (b & w3 & -> & Hb & H).
    apply lang_seq_inv in H as (y & c & -> & Hy & Hc).
    apply chr_lang in Hx, Hy. subst x y.
    apply plus_class_lang in Ha, Hb, Hc.
    exists a, b, c. simpl. auto.
  - intros (a & b & c & -> & Ha & Hb & Hc).
    apply plus_class_lang in Ha, Hb, Hc.
    constructor; [exact Ha |].
    change ("@"%char :: b ++ "."%char :: c)%list
      with (["@"%char] ++ (b ++ ["."%char] ++ c))%list.
    constructor; [apply chr_lang; reflexivity |].
    constructor; [exact Hb |].
    constructor; [apply chr_lang; reflexivity | exact Hc].
Qed.

(** X1. [validateEmail] accepts exactly the strings that, once trimmed, read
    [local@domain.tld]: three non-empty runs free of white space and of
    [@], joined by one [@] and one dot.  Anything that is not a string, and
    the empty string, is refused. *)
Theorem validateEmail_shape (v : Js.value) :
  validateEmail v = true
  <-> exists e, v = Js.Str e /\ email_shape (Js.chars (Js.trim e)).
Proof.
  split.
  - intros H. destruct v as [| | b | n | e |]; try discriminate H.
    exists e. split; [reflexivity |]. simpl in H.
    destruct (String.eqb e ""); [discriminate H |].
    apply email_regex_shape, matches_lang. exact H.
  - intros (e & -> & Hs). simpl.
    destruct (String.eqb_spec e "") as [-> | _].
    + destruct Hs as (a & b & c & Heq & _). destruct a; discriminate Heq.
    + apply matches_lang, email_regex_shape. exact Hs.
Qed.

Lemma validateEmail_shape_witness :
  validateEmail (Js.Str "  user@test.com ") = true
  /\ validateEmail (Js.Str "user@test") = false
  /\ validateEmail (Js.Str "us er@test.com") = false
  /\ validateEmail Js.Null = false.
Proof.
  split; [| repeat split].
  apply (proj2 (validateEmail_shape (Js.Str "  user@test.com "))).
  exists "  user@test.com ". split; [reflexivity |].
  exists (Js.chars "user"), (Js.chars "test"), (Js.chars "com").
  split; [reflexivity |].
  repeat split; try discriminate; repeat constructor.
Defined.

(** ** Sessions and the day of their expiry *)

Lemma hd_error_map_filter {A B} (f : A -> B) (p : A -> bool) (l : list A) :
  hd_error (map f (filter p l)) = option_map f (find p l).
Proof.
  induction l as [| a l IH]; [reflexivity |].
  simpl. destruct (p a); [reflexivity | exact IH].
Qed.

Lemma flat_map_nil {A B} (f : A -> list B) (l : list A) :
  (forall a, In a l -> f a = []) -> flat_map f l = [].
Proof.
  intros H. induction l as [| a l IH]; [reflexivity |].
  simpl. rewrite (H a (or_introl eq_refl)). apply IH.
  intros x Hx. apply H. right. exact Hx.
Qed.

Lemma find_same {A} (p q : A -> bool) (l : list A) :
  (forall a, p a = q a) -> find p l = find q l.
Proof.
  intros H. induction l as [| a l IH]; [reflexivity |].
  simpl. rewrite H, IH. reflexivity.
Qed.

Lemma existsb_false_in {A} (p : A -> bool) (l : list A) (a : A) :
  existsb p l = false -> In a l -> p a = false.
Proof.
  intros He Hin. apply not_true_is_false. intros Hp.
  assert (existsb p l = true) by (apply existsb_exists; eauto). congruence.
Qed.

Lemma createSession_rows (now : Z) (d : SessionData) (t t' : Tables)
      (c : CreatedSession) :
  createSession now d t = (Returned c, t') ->
  sessions t'
  = (sessions t
     ++ [mkSession (seq_sessions t + 1) (sd_user_id d) (sd_token d)
                   (sd_ip_address d) (sd_user_agent d) (sd_expires_at d)
                   (Clock.sqlite_datetime now)])%list
  /\ users t' = users t
  /\ existsb (fun s => String.eqb (s_token s) (sd_token d)) (sessions t)
     = false
  /\ (exists u, getUserById (sd_user_id d) t = Some u).
Proof.
  unfold createSession.
  destruct (existsb _ (sessions t)) eqn:He; [discriminate |].
  destruct (refers u_id (users t) (Some (sd_user_id d))) eqn:Hr;
    [| discriminate].
  cbn [negb]. intros H. injection H as _ <-. cbn.
  repeat split. unfold getUserById. simpl in Hr.
  apply existsb_exists in Hr as (u & Hu & Hid).
  destruct (find (fun u0 => u_id u0 =? sd_user_id d) (users t)) eqn:Hf;
    [eauto |].
  apply (find_none _ _ Hf) in Hu. congruence.
Qed.

(** The lookup of a token that one row carries, the last of the table. *)
Lemma lookup_last_session (n : Z) (t : Tables) (rows : list Session)
      (s : Session) :
  sessions t = (rows ++ [s])%list ->
  existsb (fun r => String.eqb (s_token r) (s_token s)) rows = false ->
  getSessionByToken n (s_token s) t
  = if Sql.datetime_gtb (s_expires_at s) (Clock.sqlite_datetime n)
    then option_map (session_row s) (getUserById (s_user_id s) t)
    else None.
Proof.
  intros Hrows Hfresh. unfold getSessionByToken. rewrite Hrows, flat_map_app.
  rewrite flat_map_nil.
  2: { intros r Hr. rewrite (existsb_false_in _ _ r Hfresh Hr). reflexivity. }
  cbn [flat_map app]. rewrite String.eqb_refl. cbn [andb].
  destruct (Sql.datetime_gtb _ _); [| reflexivity].
  rewrite app_nil_r, hd_error_map_filter. unfold getUserById.
  f_equal. apply find_same. intros u. apply Z.eqb_sym.
Qed.

(** X4. A session that [createSession] stored with the ISO text
    of the instant [e] as its expiry is returned by [getSessionByToken],
    joined with its user, at every clock whose UTC day is not after the day
    of [e], and at no clock of a later day. *)
Theorem created_session_lookup (now : Z) (d : SessionData) (t t' : Tables)
        (c : CreatedSession) (e n : Z) :
  createSession now d t = (Returned c, t') ->
  sd_expires_at d = Clock.toISOString e ->
  in_calendar e -> in_calendar n ->
  exists u,
    getUserById (sd_user_id d) t = Some u
    /\ getSessionByToken n (sd_token d) t'
       = if utc_day n <=? utc_day e
         then Some (session_row
                      (mkSession (seq_sessions t + 1) (sd_user_id d)
                                 (sd_token d) (sd_ip_address d)
                                 (sd_user_agent d) (sd_expires_at d)
                                 (Clock.sqlite_datetime now)) u)
         else None.
Proof.
  intros Hc He Hce Hcn.
  apply createSession_rows in Hc as (Hrows & Husers & Hfresh & u & Hu).
  exists u. split; [exact Hu |].
  set (s := mkSession _ _ _ _ _ _ _) in *.
  change (sd_token d) with (s_token s).
  rewrite (lookup_last_session n t' (sessions t) s Hrows Hfresh).
  cbn [s_expires_at s].
  rewrite He, datetime_gtb_iso, (iso_gt_sqlite_days e n Hce Hcn).
  destruct (utc_day n <=? utc_day e); [| reflexivity].
  unfold getUserById in *. rewrite Husers. cbn [s_user_id s]. rewrite Hu.
  reflexivity.
Qed.

Lemma in_calendar_example (ms : Z) :
  (0 <=? ms) && (ms <? 253402300800000) = true -> in_calendar ms.
Proof.
  intros H. apply andb_prop in H as [H1 H2].
  apply Z.leb_le in H1. apply Z.ltb_lt in H2. split; assumption.
Qed.

Lemma created_session_lookup_witness :
  getSessionByToken (Scenario.noon + 7 * Scenario.day + Scenario.minute)
    (sd_token second_session)
    (snd (createSession Scenario.noon second_session Scenario.registered))
  <> None.
Proof.
  destruct (created_session_lookup Scenario.noon second_session
              Scenario.registered
              (snd (createSession Scenario.noon second_session
                      Scenario.registered))
              (mkCreatedSession 1 "session-2" (sd_expires_at second_session))
              (Scenario.noon + 7 * Scenario.day)
              (Scenario.noon + 7 * Scenario.day + Scenario.minute)
              eq_refl eq_refl
              (in_calendar_example (Scenario.noon + 7 * Scenario.day)
                                   eq_refl)
              (in_calendar_example
                 (Scenario.noon + 7 * Scenario.day + Scenario.minute)
                 eq_refl))
    as (u & _ & H).
  rewrite H. vm_compute. discriminate.
Defined.

(** ** Login *)

Lemma lookup_ignores_last_login (n now i : Z) (k : string) (t : Tables) :
  getSessionByToken n k (exec (updateUserLastLogin now i) t)
  = getSessionByToken n k t.
Proof.
  unfold getSessionByToken. cbn.
  f_equal. apply flat_map_ext. intros s.
  destruct (_ && _); [| reflexivity].
  induction (users t) as [| u l IH]; [reflexivity |].
  cbn [map filter].
  destruct (u_id u =? i); cbn [set_last_login u_id];
    destruct (s_user_id s =? u_id u); cbn [map]; rewrite IH; reflexivity.
Qed.

Lemma post_login_done (env : Env) (req : Request) (b : LoginBody)
      (t : Tables) :
  status (fst (post_login env req b t)) = 200 ->
  exists email password u c t1,
    lb_email b = Js.Str email
    /\ lb_password b = Js.Str password
    /\ getUserByEmail (Js.toLowerCase (Js.trim email)) t = Some u
    /\ bcrypt_compare env password (u_password_hash u) = true
    /\ createSession (clock env)
         (mkSessionData (u_id u) (generateToken env)
                        (Some (getClientIP req)) (user_agent req)
                        (generateSessionExpiry env)) t
       = (Returned c, t1)
    /\ snd (post_login env req b t)
       = exec (updateUserLastLogin (clock env) (u_id u)) t1.
Proof.
  unfold post_login, try_catch.
  destruct (negb (Js.truthy (lb_email b)) || negb (Js.truthy (lb_password b)));
    [cbn; discriminate |].
  destruct (lb_email b) as [| | f | n | email |] eqn:He;
    try (cbn; discriminate).
  unfold bind at 1. unfold read at 1.
  destruct (getUserByEmail (Js.toLowerCase (Js.trim email)) t)
    as [u |] eqn:Hu; [| cbn; discriminate].
  destruct (lb_password b) as [| | f | n | password |] eqn:Hpw;
    try (cbn; discriminate).
  destruct (bcrypt_compare env password (u_password_hash u)) eqn:Hp;
    cbn [negb]; [| cbn; discriminate].
  unfold bind at 1.
  destruct (createSession _ _ t) as [[c | e] t1] eqn:Hc; [| cbn; discriminate].
  intros _. exists email, password, u, c, t1.
  repeat split; try assumption.
  unfold bind, read. rewrite Hu, Hp. cbn [negb]. rewrite Hc. reflexivity.
Qed.

(** X5. After a login that answered 200 the token handed out
    resolves to a session of the account that logged in at every clock up
    to the end of the UTC day on which the seven days run out, and at no
    clock after that day; in particular at every instant of the seven
    days. *)
Theorem login_session_usable (env : Env) (req : Request) (b : LoginBody)
        (t : Tables) :
  status (fst (post_login env req b t)) = 200 ->
  in_calendar (clock env + SESSION_DURATION_MS) ->
  exists email u,
    lb_email b = Js.Str email
    /\ getUserByEmail (Js.toLowerCase (Js.trim email)) t = Some u
    /\ forall n, in_calendar n ->
       (utc_day n <= utc_day (clock env + SESSION_DURATION_MS) ->
        exists row,
          getSessionByToken n (uuid env) (snd (post_login env req b t))
          = Some row
          /\ sr_user_id row = u_id u
          /\ sr_expires_at row
             = Clock.toISOString (clock env + SESSION_DURATION_MS))
       /\ (clock env <= n <= clock env + SESSION_DURATION_MS ->
           utc_day n <= utc_day (clock env + SESSION_DURATION_MS))
       /\ (utc_day (clock env + SESSION_DURATION_MS) < utc_day n ->
           getSessionByToken n (uuid env) (snd (post_login env req b t))
           = None).
Proof.
  intros Hok Hcal.
  destruct (post_login_done env req b t Hok)
    as (email & password & u & c & t1 & He & _ & Hu & _ & Hc & Hfin).
  exists email, u. split; [exact He | split; [exact Hu |]].
  intros n Hn. rewrite Hfin, lookup_ignores_last_login.
  apply createSession_rows in Hc as (Hrows & Husers & Hfresh & u0 & Hu0).
  cbn [sd_token sd_user_id sd_ip_address sd_user_agent sd_expires_at]
    in Hrows, Hfresh, Hu0.
  unfold generateToken, generateSessionExpiry in Hrows, Hfresh.
  set (s := mkSession _ _ _ _ _ _ _) in Hrows.
  change (uuid env) with (s_token s).
  rewrite (lookup_last_session n t1 (sessions t) s Hrows Hfresh).
  cbn [s_expires_at s_user_id s].
  rewrite datetime_gtb_iso, (iso_gt_sqlite_days _ n Hcal Hn).
  assert (Hu1 : getUserById (u_id u) t1 = Some u0)
    by (unfold getUserById in *; rewrite Husers; exact Hu0).
  rewrite Hu1. cbn [option_map]. split; [| split].
  - intros Hle. apply Z.leb_le in Hle. rewrite Hle.
    eexists. split; [reflexivity |]. cbn.
    unfold getUserById in Hu0. apply find_in in Hu0 as [_ Hid].
    apply Z.eqb_eq in Hid. auto.
  - intros [_ Hle]. unfold utc_day. apply Z.div_le_mono; [reflexivity | exact Hle].
  - intros Hlt. apply Z.leb_gt in Hlt. rewrite Hlt. reflexivity.
Qed.

Lemma login_session_usable_witness :
  exists row,
    getSessionByToken (Scenario.noon + 3 * Scenario.day) "session-1"
                      Scenario.logged_in
    = Some row
    /\ sr_user_id row = 1.
Proof.
  destruct (login_session_usable (Scenario.env_at Scenario.noon "session-1")
              Scenario.browser
              (mkLoginBody (Js.Str "user@test.com") (Js.Str "Passw0rd!2345"))
              Scenario.registered eq_refl
              (in_calendar_example (Scenario.noon + SESSION_DURATION_MS)
                                   eq_refl))
    as (email & u & He & Hu & H).
  vm_compute in He. injection He as <-.
  vm_compute in Hu. injection Hu as <-.
  destruct (H (Scenario.noon + 3 * Scenario.day)
              (in_calendar_example (Scenario.noon + 3 * Scenario.day) eq_refl))
    as (Hin & _ & _).
  destruct Hin as (row & Hrow & Hid & _).
  - vm_compute. discriminate.
  - exists row. split; [exact Hrow | exact Hid].
Defined.

(** X6. A login that carries an email that is a string and a password that
    is a string gets one and the same refusal, 401 with one fixed message
    and no table written, whether the address has no account or the
    password is wrong.  With a truthy password that is no string (a
    number, [true], an array, an object) the two cases differ: 401 when
    the address has no account, the 500 of the handler when it has one,
    since bcrypt is asked only then and rejects the value. *)
Theorem login_refusal_uniform (env : Env) (req : Request) (b : LoginBody)
        (t : Tables) (email : string) :
  lb_email b = Js.Str email -> email <> "" ->
  Js.truthy (lb_password b) = true ->
  (getUserByEmail (Js.toLowerCase (Js.trim email)) t = None ->
   post_login env req b t
   = (status_json 401 [("error", JString "Invalid email or password")], t))
  /\ (forall u password,
        getUserByEmail (Js.toLowerCase (Js.trim email)) t = Some u ->
        lb_password b = Js.Str password ->
        bcrypt_compare env password (u_password_hash u) = false ->
        post_login env req b t
        = (status_json 401 [("error", JString "Invalid email or password")],
           t))
  /\ (forall u,
        getUserByEmail (Js.toLowerCase (Js.trim email)) t = Some u ->
        (forall password, lb_password b <> Js.Str password) ->
        post_login env req b t
        = (status_json 500 [("error", JString "Failed to login")], t)).
Proof.
  intros He Hne Hp. unfold post_login, try_catch. rewrite He, Hp.
  assert (Ht : Js.truthy (Js.Str email) = true).
  { cbn. destruct (String.eqb_spec email ""); [contradiction | reflexivity]. }
  rewrite Ht. cbn [negb orb]. unfold bind, read.
  split; [| split].
  - intros Hnone. rewrite Hnone. reflexivity.
  - intros u password Hu Hpw Hbad. rewrite Hu, Hpw, Hbad. reflexivity.
  - intros u Hu Hpw. rewrite Hu.
    destruct (lb_password b) as [| | f | n | password |];
      try reflexivity.
    exfalso. apply (Hpw password). reflexivity.
Qed.

Lemma login_refusal_uniform_witness :
  post_login (Scenario.env_at Scenario.noon "session-9") Scenario.browser
             (mkLoginBody (Js.Str "user@test.com") (Js.Str "wrong password"))
             Scenario.registered
  = post_login (Scenario.env_at Scenario.noon "session-9") Scenario.browser
               (mkLoginBody (Js.Str "nobody@test.com")
                            (Js.Str "wrong password"))
               Scenario.registered.
Proof.
  transitivity
    (status_json 401 [("error", JString "Invalid email or password")],
     Scenario.registered).
  - destruct (login_refusal_uniform
                (Scenario.env_at Scenario.noon "session-9") Scenario.browser
                (mkLoginBody (Js.Str "user@test.com")
                             (Js.Str "wrong password"))
                Scenario.registered "user@test.com" eq_refl)
      as (_ & H & _); [discriminate | reflexivity |].
    apply (H stored_account "wrong password"); reflexivity.
  - symmetry.
    destruct (login_refusal_uniform
                (Scenario.env_at Scenario.noon "session-9") Scenario.browser
                (mkLoginBody (Js.Str "nobody@test.com")
                             (Js.Str "wrong password"))
                Scenario.registered "nobody@test.com" eq_refl)
      as (H & _); [discriminate | reflexivity |].
    apply H. reflexivity.
Defined.

(** ** Bearer tokens *)

Lemma split_never_empty (sep : ascii) (s : string) : Js.split sep s <> [].
Proof.
  destruct s as [| c r]; simpl; [discriminate |].
  destruct (Ascii.eqb c sep); [discriminate |].
  destruct (Js.split sep r); discriminate.
Qed.

Lemma split_one (sep : ascii) (s b : string) :
  Js.split sep s = [b] <-> s = b /\ free_of sep s.
Proof.
  unfold free_of. revert b. induction s as [| c r IH]; intros b; simpl.
  - split; [intros H; injection H as <-; split; [reflexivity | tauto] |].
    intros [<- _]. reflexivity.
  - destruct (Ascii.eqb_spec c sep) as [-> | Hne].
    + split.
      * intros H. injection H as _ H. destruct (split_never_empty _ _ H).
      * intros [_ H]. exfalso. apply H. left. reflexivity.
    + destruct (Js.split sep r) as [| p ps] eqn:Hs;
        [destruct (split_never_empty _ _ Hs) |].
      split.
      * intros H. injection H as <- ->.
        destruct (proj1 (IH p) eq_refl) as [-> Hfree].
        split; [reflexivity |]. intros [Hc | Hin]; [congruence | tauto].
      * intros [<- Hfree].
        assert (H1 : p :: ps = [r]).
        { apply IH. split; [reflexivity | tauto]. }
        injection H1 as -> ->. reflexivity.
Qed.

Lemma split_two (sep : ascii) (s a b : string) :
  Js.split sep s = [a; b]
  <-> s = String.append a (String sep b) /\ free_of sep a /\ free_of sep b.
Proof.
  unfold free_of. revert a. induction s as [| c r IH]; intros a; simpl.
  - split; [discriminate |]. intros [H _]. destruct a; discriminate H.
  - destruct (Ascii.eqb_spec c sep) as [-> | Hne].
    + split.
      * intros H. injection H as <- H. apply split_one in H as [-> Hfree].
        split; [reflexivity | split; [simpl; tauto | exact Hfree]].
      * intros (H & Ha & Hb). destruct a as [| x a]; simpl in H.
        -- injection H as ->. f_equal. apply split_one. split; [reflexivity | exact Hb].
        -- injection H as <- _. exfalso. apply Ha. left. reflexivity.
    + destruct (Js.split sep r) as [| p ps] eqn:Hs;
        [destruct (split_never_empty _ _ Hs) |].
      split.
      * intros H. injection H as <- ->.
        destruct (proj1 (IH p) eq_refl) as (-> & Hp & Hb).
        split; [reflexivity | split; [| exact Hb]].
        simpl. intros [Hc | Hin]; [congruence | tauto].
      * intros (H & Ha & Hb). destruct a as [| x a]; simpl in H.
        -- injection H as Hc _. congruence.
        -- injection H as <- ->.
           assert (H1 : p :: ps = [a; b]).
           { apply IH. split; [reflexivity | split; [| exact Hb]].
             intros Hin. apply Ha. right. exact Hin. }
           injection H1 as -> ->. reflexivity.
Qed.

(** X2. [extractBearerToken] returns a token exactly for a header
    made of a scheme that lower-cases to [bearer], one space and the token,
    with no other space; so a header built as [Bearer <token>] gives the
    token back, and a missing header, another scheme or a third part give
    null. *)
Theorem bearer_token_shape (h : option string) (k : string) :
  extractBearerToken h = Some k
  <-> exists scheme,
        h = Some (String.append scheme (String " " k))
        /\ Js.toLowerCase scheme = "bearer"
        /\ free_of " " scheme /\ free_of " " k.
Proof.
  unfold extractBearerToken. split.
  - intros H. destruct (Js.nonempty h) as [x |] eqn:Hx; [| discriminate].
    apply nonempty_some in Hx. subst h.
    destruct (Js.split " " x) as [| a [| b [| c l]]] eqn:Hs; try discriminate.
    destruct (String.eqb_spec (Js.toLowerCase a) "bearer") as [Hb | _];
      [| discriminate].
    injection H as ->. apply split_two in Hs as (-> & Ha & Hk).
    exists a. auto.
  - intros (scheme & -> & Hb & Hs & Hk).
    assert (Hne : Js.nonempty (Some (String.append scheme (String " " k)))
                  = Some (String.append scheme (String " " k))).
    { simpl. destruct scheme; [discriminate Hb | reflexivity]. }
    rewrite Hne.
    rewrite (proj2 (split_two " " _ scheme k)) by auto.
    rewrite Hb. reflexivity.
Qed.

Lemma bearer_token_shape_witness :
  extractBearerToken (Some "bEaReR 6f1c-42") = Some "6f1c-42"
  /\ extractBearerToken (Some "Bearer a b") = None
  /\ extractBearerToken (Some "Basic 6f1c-42") = None.
Proof.
  split; [| split; reflexivity].
  apply (proj2 (bearer_token_shape (Some "bEaReR 6f1c-42") "6f1c-42")).
  exists "bEaReR". repeat split; unfold free_of; simpl;
    intuition discriminate.
Defined.

(** ** The address of the client *)

(** X3. [getClientIP] returns the first of its four sources that is not
    empty: the first entry of [X-Forwarded-For], trimmed, then [X-Real-IP],
    then the address of the socket, then [req.ip]; and [unknown] when all
    four are absent or empty.  It never returns the empty string. *)
Theorem getClientIP_never_empty (req : Request) :
  getClientIP req
  = match find (fun s => negb (String.eqb s "")) (ip_sources req) with
    | Some ip => ip
    | None => "unknown"
    end
  /\ getClientIP req <> "".
Proof.
  split.
  - unfold getClientIP, ip_sources, Js.or_else.
    destruct (x_forwarded_for req) as [h |].
    + pose proof (split_never_empty "," h) as Hs.
      destruct (Js.split "," h) as [| first others]; [contradiction |].
      cbn [hd_error option_map hd Js.nonempty find].
      destruct (String.eqb_spec (Js.trim first) "") as [E | E];
        cbn [negb].
      * destruct (x_real_ip req) as [a |], (remote_address req) as [c |],
          (req_ip req) as [d |]; cbn;
          repeat match goal with
                 | |- context [String.eqb ?x ""] =>
                     destruct (String.eqb_spec x ""); subst; cbn
                 end; try reflexivity; try contradiction.
      * destruct (String.eqb_spec (Js.trim first) ""); [contradiction |].
        reflexivity.
    + destruct (x_real_ip req) as [a |], (remote_address req) as [c |],
        (req_ip req) as [d |]; cbn;
        repeat match goal with
               | |- context [String.eqb ?x ""] =>
                   destruct (String.eqb_spec x ""); subst; cbn
               end; try reflexivity; try contradiction.
  - unfold getClientIP.
    destruct (Js.or_else _ _) as [ip |]; [| discriminate].
    destruct (String.eqb_spec ip ""); [discriminate | assumption].
Qed.

Lemma getClientIP_never_empty_witness :
  getClientIP
    (mkRequest None None None (Some " , 10.0.0.1") (Some "")
               (Some "10.0.0.9") (Some "10.0.0.7"))
  = "10.0.0.9".
Proof.
  destruct (getClientIP_never_empty
              (mkRequest None None None (Some " , 10.0.0.1") (Some "")
                         (Some "10.0.0.9") (Some "10.0.0.7"))) as [H _].
  rewrite H. reflexivity.
Defined.

(** ** Logout *)

Lemma flat_map_filter_dead {A B} (f : A -> list B) (p : A -> bool)
      (l : list A) :
  (forall a, In a l -> p a = false -> f a = []) ->
  flat_map f (filter p l) = flat_map f l.
Proof.
  intros H. induction l as [| a l IH]; [reflexivity |].
  cbn [filter flat_map].
  assert (IH' : flat_map f (filter p l) = flat_map f l).
  { apply IH. intros x Hx. apply H. right. exact Hx. }
  destruct (p a) eqn:Hp.
  - cbn [flat_map]. rewrite IH'. reflexivity.
  - rewrite (H a (or_introl eq_refl) Hp), IH'. reflexivity.
Qed.

(** X7. Logout always answers [success: true]; after it the bearer
    token of the request is accepted at no time, the lookup of every other
    token answers as before, and without a usable header nothing is
    written. *)
Theorem logout_revokes (env : Env) (req : Request) (t : Tables) :
  fst (post_logout env req t) = json [("success", JBool true)]
  /\ (forall k,
        Js.nonempty (extractBearerToken (authorization req)) = Some k ->
        forall n, getSessionByToken n k (snd (post_logout env req t)) = None)
  /\ (forall k,
        Js.nonempty (extractBearerToken (authorization req)) <> Some k ->
        forall n, getSessionByToken n k (snd (post_logout env req t))
                  = getSessionByToken n k t)
  /\ (Js.nonempty (extractBearerToken (authorization req)) = None ->
      snd (post_logout env req t) = t).
Proof.
  unfold post_logout, try_catch, bind, deleteSession, write, ret.
  destruct (Js.nonempty (extractBearerToken (authorization req)))
    as [tok |]; cbn [fst snd].
  - split; [reflexivity | split; [| split; [| discriminate]]].
    + intros k Hk n. injection Hk as ->.
      unfold getSessionByToken. cbn [sessions set_sessions users].
      apply hd_error_flat_map_nil. intros s Hs.
      apply filter_In in Hs as [_ Hs]. apply negb_true_iff in Hs.
      rewrite Hs. reflexivity.
    + intros k Hk n. unfold getSessionByToken.
      cbn [sessions set_sessions users]. f_equal.
      apply flat_map_filter_dead. intros s _ Hs.
      apply negb_false_iff, String.eqb_eq in Hs.
      destruct (String.eqb_spec (s_token s) k) as [He | _]; [| reflexivity].
      exfalso. apply Hk. congruence.
  - split; [reflexivity | split; [discriminate | split; reflexivity]].
Qed.

Lemma logout_revokes_witness :
  getSessionByToken Scenario.noon "session-1" Scenario.logged_in <> None
  /\ getSessionByToken Scenario.noon "session-1"
       (snd (post_logout (Scenario.env_at Scenario.noon "")
               (Scenario.with_bearer "session-1") Scenario.logged_in))
     = None.
Proof.
  split; [vm_compute; discriminate |].
  destruct (logout_revokes (Scenario.env_at Scenario.noon "")
              (Scenario.with_bearer "session-1") Scenario.logged_in)
    as (_ & H & _).
  apply H. reflexivity.
Defined.

(** ** The sweep of expired sessions *)

Lemma text_compare_antisym (a b : string) :
  Sql.text_compare b a = CompOpp (Sql.text_compare a b).
Proof.
  revert b. induction a as [| x a IH]; destruct b as [| y b]; simpl;
    try reflexivity.
  rewrite (Z.compare_antisym (Js.code x) (Js.code y)).
  destruct (Js.code x ?= Js.code y); simpl; [apply IH | reflexivity ..].
Qed.

Lemma text_le_trans (a b c : string) :
  Sql.text_compare a b <> Gt -> Sql.text_compare b c <> Gt ->
  Sql.text_compare a c <> Gt.
Proof.
  revert b c. induction a as [| x a IH]; intros [| y b] [| z c]; simpl;
    try congruence.
  destruct (Z.compare_spec (Js.code x) (Js.code y)) as [He | Hl | Hg];
    destruct (Z.compare_spec (Js.code y) (Js.code z)) as [He' | Hl' | Hg'];
    destruct (Z.compare_spec (Js.code x) (Js.code z)) as [He'' | Hl'' | Hg''];
    try congruence; try lia.
  apply IH.
Qed.

(** The [datetime('now')] of a later clock is not an earlier text. *)
Lemma sqlite_datetime_monotone (a b : Z) :
  in_calendar a -> in_calendar b -> a <= b ->
  Sql.text_compare (Clock.sqlite_datetime a) (Clock.sqlite_datetime b) <> Gt.
Proof.
  intros Ha Hb Hle. unfold Clock.sqlite_datetime.
  rewrite (date_then_compare a b _ _ Ha Hb).
  destruct (Z.compare_spec (utc_day a) (utc_day b)) as [He | Hl | Hg].
  - rewrite dash_compare. unfold Clock.time_then.
    unfold utc_day, Clock.ms_per_day in *.
    set (ta := a mod 86400000). set (tb := b mod 86400000).
    assert (Hta : 0 <= ta < 86400000) by (apply Z.mod_pos_bound; lia).
    assert (Htb : 0 <= tb < 86400000) by (apply Z.mod_pos_bound; lia).
    assert (Hab : ta <= tb).
    { unfold ta, tb. rewrite !Z.mod_eq by lia. rewrite He. lia. }
    rewrite pad2_compare by (Z.to_euclidean_division_equations; lia).
    rewrite dash_compare.
    rewrite pad2_compare by (Z.to_euclidean_division_equations; lia).
    rewrite dash_compare.
    rewrite pad2_compare by (Z.to_euclidean_division_equations; lia).
    clearbody ta tb.
    destruct (Z.compare_spec (ta / 3600000) (tb / 3600000));
      destruct (Z.compare_spec (ta / 60000 mod 60) (tb / 60000 mod 60));
      destruct (Z.compare_spec (ta / 1000 mod 60) (tb / 1000 mod 60));
      simpl; try discriminate; exfalso;
      Z.to_euclidean_division_equations; lia.
  - discriminate.
  - exfalso. unfold utc_day, Clock.ms_per_day in Hg.
    Z.to_euclidean_division_equations; lia.
Qed.

Lemma swept_row_stays_dead (now n : Z) (s : Session) :
  in_calendar now -> in_calendar n -> now <= n ->
  Sql.datetime_leb (s_expires_at s) (Clock.sqlite_datetime now) = true ->
  Sql.datetime_gtb (s_expires_at s) (Clock.sqlite_datetime n) = false.
Proof.
  intros Hnow Hn Hle Hdead. unfold Sql.datetime_leb, Sql.datetime_gtb in *.
  destruct (Sql.numeric_text (s_expires_at s)); [reflexivity |].
  unfold Sql.text_gtb in *. apply negb_true_iff in Hdead.
  assert (H1 : Sql.text_compare (s_expires_at s) (Clock.sqlite_datetime now)
               <> Gt).
  { destruct (Sql.text_compare (s_expires_at s) (Clock.sqlite_datetime now));
      congruence. }
  pose proof (text_le_trans _ _ _ H1
                (sqlite_datetime_monotone now n Hnow Hn Hle)) as H2.
  destruct (Sql.text_compare (s_expires_at s) (Clock.sqlite_datetime n));
    congruence.
Qed.

(** X8. [cleanExpiredSessions] removes only sessions that
    [getSessionByToken] refuses already: after a sweep at some clock every
    lookup at that clock or a later one answers as it would have without
    the sweep; and a second sweep at the same clock removes nothing. *)
Theorem sweep_keeps_lookups (now : Z) (t : Tables) :
  in_calendar now ->
  (forall n k, in_calendar n -> now <= n ->
     getSessionByToken n k (exec (cleanExpiredSessions now) t)
     = getSessionByToken n k t)
  /\ exec (cleanExpiredSessions now) (exec (cleanExpiredSessions now) t)
     = exec (cleanExpiredSessions now) t.
Proof.
  intros Hnow. split.
  - intros n k Hn Hle. unfold getSessionByToken. cbn. f_equal.
    apply flat_map_filter_dead. intros s _ Hs.
    apply negb_false_iff in Hs.
    rewrite (swept_row_stays_dead now n s Hnow Hn Hle Hs).
    rewrite andb_false_r. reflexivity.
  - unfold exec, cleanExpiredSessions, write. cbn.
    unfold set_sessions. cbn. f_equal.
    induction (sessions t) as [| s l IH]; [reflexivity |].
    cbn [filter].
    destruct (negb (Sql.datetime_leb (s_expires_at s)
                                     (Clock.sqlite_datetime now)))
      eqn:Hk; cbn [filter]; rewrite ?Hk, IH; reflexivity.
Qed.

Lemma sweep_keeps_lookups_witness :
  getSessionByToken (Scenario.noon + Scenario.day) "session-1"
    (exec (cleanExpiredSessions Scenario.noon) Scenario.logged_in)
  = getSessionByToken (Scenario.noon + Scenario.day) "session-1"
      Scenario.logged_in.
Proof.
  destruct (sweep_keeps_lookups Scenario.noon Scenario.logged_in
              (in_calendar_example Scenario.noon eq_refl)) as [H _].
  apply H; [apply (in_calendar_example (Scenario.noon + Scenario.day) eq_refl) |].
  vm_compute. discriminate.
Defined.

(** ** Who am I *)

Lemma session_user_exists (n : Z) (k : string) (t : Tables) (s : SessionRow) :
  getSessionByToken n k t = Some s ->
  exists u, getUserById (sr_user_id s) t = Some u /\ u_id u = sr_user_id s.
Proof.
  intros Hs.
  apply getSessionByToken_some in Hs as (r & u & _ & Hu & _ & _ & _ & ->).
  unfold getUserById. cbn [session_row sr_user_id].
  destruct (find (fun x => u_id x =? u_id u) (users t)) as [w |] eqn:Hf.
  - exists w. split; [reflexivity |].
    apply find_in in Hf as [_ Hid]. apply Z.eqb_eq. exact Hid.
  - apply (find_none _ _ Hf) in Hu. rewrite Z.eqb_refl in Hu. discriminate.
Qed.

(** X9. [GET /api/auth/me] writes nothing and answers 200 or 401, never
    500; it answers 200 exactly when the bearer token resolves to a session,
    and then the [user] field is the sanitized row of the session's user,
    never [null], next to today's count and the stored expiry text. *)
Theorem get_me_reads_only (env : Env) (req : Request) (t : Tables) :
  snd (get_me env req t) = t
  /\ (status (fst (get_me env req t)) = 200
      <-> session_of env (extractBearerToken (authorization req)) t <> None)
  /\ (status (fst (get_me env req t)) <> 200
      -> status (fst (get_me env req t)) = 401)
  /\ forall s,
       session_of env (extractBearerToken (authorization req)) t = Some s ->
       exists u,
         getUserById (sr_user_id s) t = Some u
         /\ u_id u = sr_user_id s
         /\ fst (get_me env req t)
            = json [("user", json_user (sanitizeUser (Some u)));
                    ("queries_today",
                     JNumber (getUserQueryCountToday (clock env)
                                                     (sr_user_id s) t));
                    ("session_expires", JString (sr_expires_at s))].
Proof.
  unfold get_me, session_of, try_catch.
  destruct (Js.nonempty (extractBearerToken (authorization req))) as [k |].
  - unfold bind, read, ret.
    destruct (getSessionByToken (clock env) k t) as [s |] eqn:Hs; cbn.
    + split; [reflexivity | split; [| split]].
      * split; [discriminate | reflexivity].
      * congruence.
      * intros s0 H. injection H as <-.
        destruct (session_user_exists _ _ _ _ Hs) as (u & Hu & Hid).
        exists u. rewrite Hu. auto.
    + split; [reflexivity | split; [| split]].
      * split; [discriminate | congruence].
      * reflexivity.
      * discriminate.
  - cbn. split; [reflexivity | split; [| split]].
    + split; [discriminate | congruence].
    + reflexivity.
    + discriminate.
Qed.

Lemma get_me_reads_only_witness :
  status (fst (get_me (Scenario.env_at Scenario.noon "")
                 (Scenario.with_bearer "session-1") Scenario.logged_in))
  = 200.
Proof.
  destruct (get_me_reads_only (Scenario.env_at Scenario.noon "")
              (Scenario.with_bearer "session-1") Scenario.logged_in)
    as (_ & H & _).
  apply H. vm_compute. discriminate.
Defined.

(** ** The investigation log *)



(** ** Visitors *)

Lemma find_snoc_new {A} (p : A -> bool) (l : list A) (a : A) :
  find p l = None -> p a = true -> find p (l ++ [a]) = Some a.
Proof.
  intros Hn Ha. induction l as [| x l IH]; simpl in *.
  - rewrite Ha. reflexivity.
  - destruct (p x); [discriminate | apply IH; exact Hn].
Qed.






(** ** The free quota over a run of requests *)







(** ** Registration *)

Lemma find_none_existsb {A} (p : A -> bool) (l : list A) :
  find p l = None -> existsb p l = false.
Proof.
  intros Hf. apply not_true_is_false. intros He.
  apply existsb_exists in He as (x & Hx & Hp).
  apply (find_none _ _ Hf) in Hx. congruence.
Qed.

Lemma find_some_existsb {A} (p : A -> bool) (l : list A) :
  find p l <> None -> existsb p l = true.
Proof.
  intros Hf. destruct (find p l) as [a |] eqn:Ha; [| congruence].
  apply find_in in Ha as [Hin Hp]. apply existsb_exists. eauto.
Qed.

Lemma map_snoc_last {A} (p : A -> bool) (g : A -> A) (l : list A) (a : A) :
  (forall x, In x l -> p x = false) -> p a = true ->
  map (fun x => if p x then g x else x) (l ++ [a]) = (l ++ [g a])%list.
Proof.
  intros Hl Ha. rewrite map_app. cbn [map]. rewrite Ha. f_equal.
  rewrite <- (map_id l) at 2. apply map_ext_in.
  intros x Hx. rewrite (Hl x Hx). reflexivity.
Qed.

Lemma post_register_run (env : Env) (req : Request)
      (b : RegisterBody) (t : Tables) (email password : string) :
  gb_email b = Some email -> validateEmail (Js.Str email) = true ->
  gb_password b = Some password ->
  valid (validatePassword (Js.Str password)) = true ->
  getUserByEmail email t = None ->
  getUserByEmail (Js.toLowerCase (Js.trim email)) t = None ->
  refers v_id (visitors t) (or_null (gb_visitor_id b)) = true ->
  wf t -> fresh_verification_token env t ->
  in_calendar (clock env) -> in_calendar (clock env + VERIFICATION_EXPIRY_MS) ->
  post_register env req b t
  = (status_json 201
       [("success", JBool true);
        ("message", JString "Account created successfully");
        ("user",
         JObject [("id", JNumber (seq_users t + 1));
                  ("email", JString (Js.toLowerCase (Js.trim email)));
                  ("email_verified", JBool false);
                  ("tier", JString "free");
                  ("is_superuser",
                   JBool (isSuperuser
                            (Some (Js.toLowerCase (Js.trim email)))));
                  ("created_at",
                   JString (Clock.toISOString (clock env)))])],
     set_users (users t ++ [registered_row env b email password t])
               (seq_users t + 1) t).
Proof.
  intros He Hve Hp Hvp Hraw Hnorm Hvis Hwf Hfresh Hnow Hexp.
  unfold post_register, try_catch. rewrite He, Hve, Hp. cbn [negb Js.of_field].
  rewrite Hvp. cbn [negb]. unfold bind at 1. unfold read at 1. rewrite Hraw.
  unfold bind at 1. unfold createUser at 1. cbn [ud_email ud_visitor_id].
  unfold getUserByEmail in Hnorm. rewrite (find_none_existsb _ _ Hnorm).
  rewrite Hvis. cbn [negb]. cbv zeta.
  set (row := mkUser (seq_users t + 1) _ _ 0 _ _ _ _ _ _ _ _).
  set (t1 := set_users (users t ++ [row]) (seq_users t + 1) t).
  assert (Hold : forall u, In u (users t) ->
                 opt_text_eqb (u_verification_token u) (uuid env) = false).
  { intros u Hu. specialize (Hfresh u Hu).
    destruct (u_verification_token u) as [k |]; [| reflexivity].
    cbn. destruct (String.eqb_spec k (uuid env)); congruence. }
  assert (Hday : Sql.datetime_gtb (generateVerificationExpiry env)
                                  (Clock.sqlite_datetime (clock env)) = true).
  { unfold generateVerificationExpiry.
    rewrite datetime_gtb_iso, (iso_gt_sqlite_days _ _ Hexp Hnow).
    apply Z.leb_le.
    unfold utc_day. apply Z.div_le_mono; [reflexivity |].
    unfold VERIFICATION_EXPIRY_MS. lia. }
  assert (Hfind :
    find (fun u =>
            opt_text_eqb (u_verification_token u) (generateToken env)
            && opt_text_gtb (u_verification_expires u)
                            (Clock.sqlite_datetime (clock env))
            && (u_email_verified u =? 0))
         (users t1)
    = Some row).
  { cbn [users t1 set_users]. apply find_snoc_new.
    - match goal with
      | |- find ?p ?l = None => destruct (find p l) as [u |] eqn:Hf
      end; [| reflexivity].
      apply find_in in Hf as [Hin Hu]. unfold generateToken in Hu.
      rewrite (Hold u Hin) in Hu. discriminate.
    - cbn [row u_verification_token u_verification_expires u_email_verified
           opt_text_eqb opt_text_gtb ud_verification_token
           ud_verification_expires].
      unfold generateToken. rewrite String.eqb_refl, Hday. reflexivity. }
  unfold bind at 1. unfold verifyUserEmail, bind, read, write, ret.
  rewrite Hfind. cbn [account_created sanitizeCreated json_created
    cu_id cu_email cu_email_verified cu_tier cu_created_at pu_id pu_email
    pu_email_verified pu_tier pu_is_superuser pu_created_at negb].
  unfold status_json. f_equal.
  cbn [users seq_users t1 set_users]. unfold set_users. cbn. f_equal.
  rewrite (map_snoc_last (fun u => u_id u =? u_id row) mark_verified).
  - reflexivity.
  - intros u Hu. apply Z.eqb_neq. cbn [row u_id].
    destruct Hwf as [_ Hids _ _ _ _].
    rewrite Forall_forall in Hids. specialize (Hids u Hu). lia.
  - apply Z.eqb_refl.
Qed.

(** X13. A registration with a well-formed address and an acceptable
    password, for an address no account has, answers 201 and leaves exactly
    one new row in [users]: the address trimmed and lower-cased, the bcrypt
    hash of the password, the tier [free], and [email_verified] already 1
    with the token erased, while the answer reports [email_verified: false].
    The verification link of the new account is dead from the start: at
    any clock [GET /api/auth/verify] with its token answers 400 and writes
    nothing. *)
Theorem register_creates_account (env : Env) (req : Request)
        (b : RegisterBody) (t : Tables) (email password : string) :
  gb_email b = Some email -> validateEmail (Js.Str email) = true ->
  gb_password b = Some password ->
  valid (validatePassword (Js.Str password)) = true ->
  getUserByEmail email t = None ->
  getUserByEmail (Js.toLowerCase (Js.trim email)) t = None ->
  refers v_id (visitors t) (or_null (gb_visitor_id b)) = true ->
  wf t -> fresh_verification_token env t ->
  in_calendar (clock env) -> in_calendar (clock env + VERIFICATION_EXPIRY_MS) ->
  status (fst (post_register env req b t)) = 201
  /\ body (fst (post_register env req b t))
     = JObject
         [("success", JBool true);
          ("message", JString "Account created successfully");
          ("user",
           JObject [("id", JNumber (seq_users t + 1));
                    ("email", JString (Js.toLowerCase (Js.trim email)));
                    ("email_verified", JBool false);
                    ("tier", JString "free");
                    ("is_superuser",
                     JBool (isSuperuser
                              (Some (Js.toLowerCase (Js.trim email)))));
                    ("created_at",
                     JString (Clock.toISOString (clock env)))])]
  /\ snd (post_register env req b t)
     = set_users (users t ++ [registered_row env b email password t])
                 (seq_users t + 1) t
  /\ forall later,
       get_verify later (uuid env) (snd (post_register env req b t))
       = (Answer (status_json 400
                    [("error",
                      JString "Invalid or expired verification token")]),
          snd (post_register env req b t)).
Proof.
  intros He Hve Hp Hvp Hraw Hnorm Hvis Hwf Hfresh Hnow Hexp.
  rewrite (post_register_run env req b t email password He Hve Hp Hvp Hraw
             Hnorm Hvis Hwf Hfresh Hnow Hexp).
  cbn [fst snd status body status_json].
  split; [reflexivity | split; [reflexivity | split; [reflexivity |]]].
  intros later. unfold get_verify, verifyUserEmail, bind, read, ret.
  cbn [users set_users].
  match goal with
  | |- context [find ?p ?l] => destruct (find p l) as [u |] eqn:Hf
  end; [| reflexivity].
  apply find_in in Hf as [Hin Hu]. exfalso.
  apply in_app_or in Hin as [Hold | [<- | []]].
  - specialize (Hfresh u Hold).
    destruct (u_verification_token u) as [k |]; [| discriminate Hu].
    cbn in Hu. destruct (String.eqb_spec k (uuid env)); [congruence |].
    discriminate Hu.
  - discriminate Hu.
Qed.

Lemma wf_registered : wf Scenario.registered.
Proof. apply (apply_wf Scenario.noon (CreateUser _) _ wf_visited). Qed.

Lemma register_creates_account_witness :
  status (fst (post_register (Scenario.env_at Scenario.noon "verify-2")
                 Scenario.browser
                 (mkRegisterBody (Some " New@Test.com ")
                                 (Some "Passw0rd!2345") None)
                 Scenario.registered))
  = 201
  /\ option_map u_email_verified
       (getUserByEmail "new@test.com"
          (snd (post_register (Scenario.env_at Scenario.noon "verify-2")
                  Scenario.browser
                  (mkRegisterBody (Some " New@Test.com ")
                                  (Some "Passw0rd!2345") None)
                  Scenario.registered)))
     = Some 1.
Proof.
  destruct (register_creates_account
              (Scenario.env_at Scenario.noon "verify-2") Scenario.browser
              (mkRegisterBody (Some " New@Test.com ") (Some "Passw0rd!2345")
                              None)
              Scenario.registered " New@Test.com " "Passw0rd!2345"
              eq_refl eq_refl eq_refl eq_refl eq_refl eq_refl eq_refl
              wf_registered)
    as (Hstatus & _ & Hrows & _).
  - intros u Hu. vm_compute in Hu. destruct Hu as [<- | []]. discriminate.
  - apply (in_calendar_example Scenario.noon eq_refl).
  - apply (in_calendar_example (Scenario.noon + VERIFICATION_EXPIRY_MS)
                               eq_refl).
  - split; [exact Hstatus |]. rewrite Hrows. vm_compute. reflexivity.
Defined.

Ltac refused :=
  subst;
  unfold invalid_email, weak_password, email_taken, status_json, ret;
  cbn; repeat split; intros; congruence.

(** X14. A registration that is not answered 201 writes
    nothing; one that is answered 201 adds exactly one row to [users] and
    touches no other table; and no registration is answered 201 for an
    address that, trimmed and lower-cased, an account already has. *)
Theorem register_never_duplicates (env : Env) (req : Request)
        (b : RegisterBody) (t : Tables) :
  (status (fst (post_register env req b t)) <> 201
   -> snd (post_register env req b t) = t)
  /\ (status (fst (post_register env req b t)) = 201
      -> List.length (users (snd (post_register env req b t)))
         = S (List.length (users t))
         /\ visitors (snd (post_register env req b t)) = visitors t
         /\ sessions (snd (post_register env req b t)) = sessions t
         /\ query_log (snd (post_register env req b t)) = query_log t
         /\ password_resets (snd (post_register env req b t))
            = password_resets t)
  /\ (forall email,
        gb_email b = Some email ->
        getUserByEmail (Js.toLowerCase (Js.trim email)) t <> None ->
        status (fst (post_register env req b t)) <> 201).
Proof.
  remember (post_register env req b t) as r eqn:Hr.
  unfold post_register, try_catch in Hr.
  destruct (gb_email b) as [email |]; [| refused].
  destruct (validateEmail (Js.Str email)); [| refused].
  cbn [negb] in Hr.
  destruct (gb_password b) as [password |]; [| refused].
  destruct (valid (validatePassword (Js.of_field (Some password))));
    [| refused].
  cbn [negb] in Hr. unfold bind at 1 in Hr. unfold read at 1 in Hr.
  destruct (getUserByEmail email t); [refused |].
  unfold bind at 1 in Hr. unfold createUser at 1 in Hr.
  cbn [ud_email ud_visitor_id] in Hr.
  destruct (existsb _ (users t)) eqn:Hdup; [refused |].
  destruct (refers v_id (visitors t) (or_null (gb_visitor_id b)));
    [| refused].
  cbn [negb] in Hr. cbv zeta in Hr. unfold bind at 1 in Hr.
  unfold verifyUserEmail, bind, read, write, ret in Hr.
  assert (Hno : forall e, Some email = Some e ->
                getUserByEmail (Js.toLowerCase (Js.trim e)) t <> None ->
                False).
  { intros e He Hsome. injection He as <-. unfold getUserByEmail in Hsome.
    rewrite (find_some_existsb _ _ Hsome) in Hdup. discriminate. }
  match type of Hr with
  | context [find ?p ?l] => destruct (find p l)
  end; subst r; cbn [fst snd account_created status status_json].
  - split; [congruence | split].
    + intros _. cbn. rewrite length_map, length_app. cbn.
      repeat split. lia.
    + intros e He Hsome _. exact (Hno e He Hsome).
  - split; [congruence | split].
    + intros _. cbn. rewrite length_app. cbn. repeat split. lia.
    + intros e He Hsome _. exact (Hno e He Hsome).
Qed.

Lemma register_never_duplicates_witness :
  snd (post_register (Scenario.env_at Scenario.noon "verify-2")
         Scenario.browser
         (mkRegisterBody (Some " User@Test.com ") (Some "Passw0rd!2345") None)
         Scenario.registered)
  = Scenario.registered
  /\ status (fst (post_register (Scenario.env_at Scenario.noon "verify-2")
                    Scenario.browser
                    (mkRegisterBody (Some " User@Test.com ")
                                    (Some "Passw0rd!2345") None)
                    Scenario.registered))
     = 500.
Proof.
  destruct (register_never_duplicates
              (Scenario.env_at Scenario.noon "verify-2") Scenario.browser
              (mkRegisterBody (Some " User@Test.com ") (Some "Passw0rd!2345")
                              None)
              Scenario.registered) as (H & _ & _).
  split; [apply H; vm_compute; discriminate | vm_compute; reflexivity].
Defined.

(** ** Verification links *)

Lemma opt_text_eqb_eq (a : option string) (k : string) :
  opt_text_eqb a k = true <-> a = Some k.
Proof.
  destruct a as [x |]; cbn; [| split; discriminate].
  split; [intros H; apply String.eqb_eq in H; congruence |].
  intros H. injection H as ->. apply String.eqb_refl.
Qed.

(** X15. [GET /api/auth/verify/:token] redirects or answers 400, never
    500; when it answers 400 it has written nothing; and a token that
    redirected once is refused ever after, whatever the clock, as long as
    no two accounts carry the same token. *)
Theorem verify_single_use (env : Env) (k : string) (t : Tables) :
  (fst (get_verify env k t) = Redirect "/investigate.html?verified=true"
   \/ get_verify env k t
      = (Answer (status_json 400
                   [("error",
                     JString "Invalid or expired verification token")]),
         t))
  /\ (fst (get_verify env k t) = Redirect "/investigate.html?verified=true" ->
      (forall u1 u2,
         In u1 (users t) -> In u2 (users t) ->
         u_verification_token u1 = Some k ->
         u_verification_token u2 = Some k -> u_id u1 = u_id u2) ->
      forall later,
        get_verify later k (snd (get_verify env k t))
        = (Answer (status_json 400
                     [("error",
                       JString "Invalid or expired verification token")]),
           snd (get_verify env k t))).
Proof.
  remember (get_verify env k t) as r eqn:Hr.
  unfold get_verify, verifyUserEmail, bind, read, write, ret in Hr.
  match type of Hr with
  | context [find ?p ?l] => destruct (find p l) as [found |] eqn:Hf
  end; subst r; cbn [fst snd].
  - split; [left; reflexivity |]. intros _ Hone later.
    apply find_in in Hf as [Hin Hfound].
    apply andb_prop in Hfound as [Hfound _].
    apply andb_prop in Hfound as [Hfound _].
    apply opt_text_eqb_eq in Hfound.
    unfold get_verify, verifyUserEmail, bind, read, ret.
    cbn [users set_users].
    match goal with
    | |- context [find ?p ?l] => destruct (find p l) as [u |] eqn:Hu
    end; [| reflexivity].
    exfalso. apply find_in in Hu as [Hu Hp].
    apply andb_prop in Hp as [Hp _]. apply andb_prop in Hp as [Hp _].
    apply opt_text_eqb_eq in Hp.
    apply in_map_iff in Hu as (x & <- & Hx).
    destruct (u_id x =? u_id found) eqn:Hid.
    + discriminate Hp.
    + apply Z.eqb_neq in Hid. apply Hid. apply Hone; assumption.
  - split; [right; reflexivity |]. discriminate.
Qed.

Lemma verify_single_use_witness :
  fst (get_verify (Scenario.env_at Scenario.noon "") "verify-1"
         Scenario.registered)
  = Redirect "/investigate.html?verified=true"
  /\ get_verify (Scenario.env_at (Scenario.noon + Scenario.minute) "")
       "verify-1"
       (snd (get_verify (Scenario.env_at Scenario.noon "") "verify-1"
               Scenario.registered))
     = (Answer (status_json 400
                  [("error",
                    JString "Invalid or expired verification token")]),
        snd (get_verify (Scenario.env_at Scenario.noon "") "verify-1"
               Scenario.registered)).
Proof.
  split; [vm_compute; reflexivity |].
  destruct (verify_single_use (Scenario.env_at Scenario.noon "") "verify-1"
              Scenario.registered) as [_ H].
  apply H.
  - vm_compute. reflexivity.
  - intros u1 u2 H1 H2 _ _. vm_compute in H1, H2.
    destruct H1 as [<- | []]. destruct H2 as [<- | []]. reflexivity.
Defined.

(** ** What every reachable database satisfies *)

Lemma refers_map {A} (id_of : A -> Z) (g : A -> A) (l : list A)
      (k : option Z) :
  (forall x, id_of (g x) = id_of x) ->
  refers id_of (map g l) k = refers id_of l k.
Proof.
  intros Hg. destruct k as [i |]; [| reflexivity]. cbn.
  induction l as [| a l IH]; [reflexivity |].
  cbn. rewrite Hg, IH. reflexivity.
Qed.

Lemma refers_snoc {A} (id_of : A -> Z) (l : list A) (a : A) (k : option Z) :
  refers id_of l k = true -> refers id_of (l ++ [a]) k = true.
Proof.
  destruct k as [i |]; [| reflexivity]. cbn. rewrite existsb_app.
  intros ->. reflexivity.
Qed.

Lemma Forall_filter_keep {A} (P : A -> Prop) (p : A -> bool) (l : list A) :
  Forall P l -> Forall P (filter p l).
Proof.
  intros H. apply Forall_forall. intros x Hx.
  apply filter_In in Hx as [Hx _]. rewrite Forall_forall in H. auto.
Qed.

Lemma Forall_map_keep {A} (P : A -> Prop) (g : A -> A) (l : list A) :
  (forall x, P x -> P (g x)) -> Forall P l -> Forall P (map g l).
Proof.
  intros Hg H. apply Forall_map. eapply Forall_impl; [| exact H]. exact Hg.
Qed.

Lemma Forall_snoc {A} (P : A -> Prop) (l : list A) (a : A) :
  Forall P l -> P a -> Forall P (l ++ [a]).
Proof.
  intros Hl Ha. apply Forall_app. split; [exact Hl | constructor; auto].
Qed.

Lemma Forall_weaken {A} (P Q : A -> Prop) (l : list A) :
  (forall x, P x -> Q x) -> Forall P l -> Forall Q l.
Proof. intros H Hl. eapply Forall_impl; eauto. Qed.

Lemma linked_empty : linked empty.
Proof. constructor; constructor. Qed.

Ltac branches :=
  repeat match goal with
         | |- context [if ?b then _ else _] => destruct b eqn:?; cbn
         | |- context [match find ?p ?l with _ => _ end] =>
             destruct (find p l) eqn:?; cbn
         | |- context [match result_target ?u ?v ?a ?t with _ => _ end] =>
             destruct (result_target u v a t); cbn
         end.

Arguments refers : simpl never.

Ltac ifs :=
  repeat match goal with
         | |- context [if ?b then _ else _] => destruct b
         end.

(** The rows are the old ones, filtered or rewritten in columns the
    property does not read. *)
Ltac rows_kept H :=
  first
    [ exact H
    | apply Forall_filter_keep; exact H
    | apply Forall_map_keep; [| exact H];
      let x := fresh "x" in intros x; ifs; exact (fun h => h) ].

(** The referenced table is the old one, rewritten or grown. *)
Ltac refs_kept H :=
  eapply Forall_weaken; [| exact H];
  let x := fresh "x" in
  intros x; cbn beta;
  first
    [ rewrite refers_map;
      [exact (fun h => h)
      | let y := fresh "y" in intros y; ifs; reflexivity]
    | apply refers_snoc ].

Lemma upsert_rest (now : Z) (d : VisitorData) (t : Tables) :
  users (exec (upsertVisitor now d) t) = users t
  /\ sessions (exec (upsertVisitor now d) t) = sessions t
  /\ query_log (exec (upsertVisitor now d) t) = query_log t
  /\ password_resets (exec (upsertVisitor now d) t) = password_resets t
  /\ seq_users (exec (upsertVisitor now d) t) = seq_users t
  /\ seq_sessions (exec (upsertVisitor now d) t) = seq_sessions t
  /\ seq_query_log (exec (upsertVisitor now d) t) = seq_query_log t
  /\ seq_password_resets (exec (upsertVisitor now d) t)
     = seq_password_resets t.
Proof.
  run. unfold getVisitorByFingerprint.
  destruct (find _ (visitors t)); cbn; [repeat split |].
  destruct (existsb _ (visitors t)); cbn; repeat split.
Qed.

Lemma upsert_refers (now : Z) (d : VisitorData) (t : Tables) (k : option Z) :
  refers v_id (visitors t) k = true ->
  refers v_id (visitors (exec (upsertVisitor now d) t)) k = true.
Proof.
  intros H. rewrite upsert_visitors.
  destruct (getVisitorByFingerprint (vd_fingerprint d) t).
  - rewrite refers_map; [exact H |].
    intros x. destruct (String.eqb _ _); reflexivity.
  - apply refers_snoc. exact H.
Qed.

Lemma apply_linked (now : Z) (op : Operation) (t : Tables) :
  linked t -> linked (apply now op t).
Proof.
  intros [Hu Hs Hqv Hqu Hr]. destruct op.
  { unfold apply.
    destruct (upsert_rest now d t) as (Eu & Es & Eq & Er & _).
    constructor; rewrite ?Eu, ?Es, ?Eq, ?Er; try assumption.
    - eapply Forall_weaken; [| exact Hu]. intros x. apply upsert_refers.
    - eapply Forall_weaken; [| exact Hqv]. intros x. apply upsert_refers. }
  all: run; cbn; branches; constructor; cbn.
  all: try first [rows_kept Hu | rows_kept Hs | rows_kept Hqv | rows_kept Hqu
                 | rows_kept Hr | refs_kept Hu | refs_kept Hs | refs_kept Hqv
                 | refs_kept Hqu | refs_kept Hr].
  all: apply Forall_snoc;
    try first [rows_kept Hu | rows_kept Hs | rows_kept Hqv | rows_kept Hqu
              | rows_kept Hr];
    cbn;
    repeat match goal with
           | H : negb _ = false |- _ => apply negb_false_iff in H
           | H : _ && _ = true |- _ => apply andb_prop in H as [? ?]
           end;
    assumption.
Qed.

Lemma plain_empty : plain empty.
Proof. constructor; constructor. Qed.

(** The rows are the old ones, filtered, or rewritten in a way the property
    survives. *)
Ltac rows_still H :=
  first
    [ exact H
    | apply Forall_filter_keep; exact H
    | apply Forall_map_keep; [| exact H];
      let x := fresh "x" in
      intros x; ifs; cbn; intuition lia ].

Lemma apply_plain (now : Z) (op : Operation) (t : Tables) :
  plain t -> plain (apply now op t).
Proof.
  intros [Hu Hv Hr]. destruct op.
  { unfold apply.
    destruct (upsert_rest now d t) as (Eu & _ & _ & Er & _).
    constructor; rewrite ?Eu, ?Er; try assumption.
    rewrite upsert_visitors.
    destruct (getVisitorByFingerprint (vd_fingerprint d) t).
    - rows_still Hv.
    - apply Forall_snoc; [exact Hv | cbn; lia]. }
  all: run; cbn; branches; constructor; cbn.
  all: try first [rows_still Hu | rows_still Hv | rows_still Hr].
  all: apply Forall_snoc;
    try first [rows_still Hu | rows_still Hv | rows_still Hr];
    cbn; intuition lia.
Qed.

Lemma reachable_linked (t : Tables) : reachable t -> linked t.
Proof.
  induction 1 as [| now op t _ IH];
    [apply linked_empty | apply apply_linked; exact IH].
Qed.

Lemma reachable_plain (t : Tables) : reachable t -> plain t.
Proof.
  induction 1 as [| now op t _ IH];
    [apply plain_empty | apply apply_plain; exact IH].
Qed.

Lemma NoDup_ids_snoc {A} (id_of : A -> Z) (n : Z) (l : list A) (a : A) :
  Forall (fun x => id_of x <= n) l -> id_of a = n + 1 ->
  NoDup (map id_of l) -> NoDup (map id_of (l ++ [a])).
Proof.
  intros Hle Ha Hl. rewrite map_app. cbn [map]. apply NoDup_app.
  - exact Hl.
  - constructor; [intros [] | constructor].
  - intros i Hi [<- | []]. apply in_map_iff in Hi as (x & Hx & Hin).
    rewrite Forall_forall in Hle. specialize (Hle x Hin). lia.
Qed.

Lemma Forall_le_snoc {A} (id_of : A -> Z) (n : Z) (l : list A) (a : A) :
  Forall (fun x => id_of x <= n) l -> id_of a = n + 1 ->
  Forall (fun x => id_of x <= n + 1) (l ++ [a]).
Proof.
  intros Hle Ha. apply Forall_snoc; [| lia].
  eapply Forall_weaken; [| exact Hle]. cbn. intros x Hx. lia.
Qed.

Lemma Forall_ids_le {A} (id_of : A -> Z) (n : Z) (l : list A) :
  Forall (fun x => 0 < id_of x <= n) l -> Forall (fun x => id_of x <= n) l.
Proof. apply Forall_weaken. intros x Hx. lia. Qed.

Lemma keyed_empty : keyed empty.
Proof. constructor; constructor. Qed.

(** A key column of the old rows, filtered or rewritten elsewhere. *)
Ltac keys_kept H :=
  first
    [ exact H
    | apply NoDup_map_filter; exact H
    | rewrite map_map_stable;
      [exact H | let x := fresh "x" in intros x; ifs; reflexivity] ].

Lemma upsert_keyed (now : Z) (d : VisitorData) (t : Tables) :
  wf t -> keyed t -> keyed (exec (upsertVisitor now d) t).
Proof.
  intros Hwf [Kv Kf Ku Ke Ks Kq Kr Bs Bq Br].
  destruct (upsert_rest now d t) as (Eu & Es & Eq & Er & _ & Ns & Nq & Nr).
  constructor; rewrite ?Eu, ?Es, ?Eq, ?Er, ?Ns, ?Nq, ?Nr; try assumption.
  - rewrite upsert_visitors.
    destruct (getVisitorByFingerprint (vd_fingerprint d) t).
    + keys_kept Kv.
    + apply (NoDup_ids_snoc v_id (seq_visitors t));
        [apply Forall_ids_le, Hwf | reflexivity | exact Kv].
  - rewrite upsert_visitors. unfold getVisitorByFingerprint.
    destruct (find _ (visitors t)) eqn:Hf.
    + keys_kept Kf.
    + apply NoDup_map_snoc; [exact Kf |]. cbn.
      apply find_none_existsb. exact Hf.
Qed.

Lemma apply_keyed (now : Z) (op : Operation) (t : Tables) :
  wf t -> keyed t -> keyed (apply now op t).
Proof.
  intros Hwf Hk. destruct op; [apply upsert_keyed; assumption | ..].
  all: destruct Hk as [Kv Kf Ku Ke Ks Kq Kr Bs Bq Br].
  all: pose proof (Forall_ids_le _ _ _ (wf_user_ids _ Hwf)) as Bu.
  all: run; cbn; branches; constructor; cbn.
  all: try first [keys_kept Kv | keys_kept Kf | keys_kept Ku | keys_kept Ke
                 | keys_kept Ks | keys_kept Kq | keys_kept Kr
                 | rows_still Bs | rows_still Bq | rows_still Br].
  - apply (NoDup_ids_snoc u_id (seq_users t)); [exact Bu | reflexivity | exact Ku].
  - apply NoDup_map_snoc; [exact Ke | assumption].
  - apply (NoDup_ids_snoc s_id (seq_sessions t));
      [exact Bs | reflexivity | exact Ks].
  - apply Forall_le_snoc; [exact Bs | reflexivity].
  - apply (NoDup_ids_snoc q_id (seq_query_log t));
      [exact Bq | reflexivity | exact Kq].
  - apply Forall_le_snoc; [exact Bq | reflexivity].
  - apply (NoDup_ids_snoc pr_id (seq_password_resets t));
      [rows_still Br | reflexivity | keys_kept Kr].
  - apply Forall_le_snoc; [rows_still Br | reflexivity].
Qed.

Lemma reachable_keyed (t : Tables) : reachable t -> keyed t.
Proof.
  induction 1 as [| now op t Ht IH]; [apply keyed_empty |].
  apply apply_keyed; [apply reachable_wf; exact Ht | exact IH].
Qed.

Lemma find_by_key {A K} (key : A -> K) (eqb : K -> K -> bool)
      (l : list A) (a : A) :
  (forall x y, eqb x y = true <-> x = y) ->
  NoDup (map key l) -> In a l ->
  find (fun x => eqb (key x) (key a)) l = Some a.
Proof.
  intros Heqb Hl Ha. induction l as [| x l IH]; [destruct Ha |].
  cbn [map] in Hl. inversion Hl as [| ? ? Hx Hl']; subst. cbn [find].
  destruct Ha as [-> | Ha].
  - rewrite (proj2 (Heqb _ _) eq_refl). reflexivity.
  - destruct (eqb (key x) (key a)) eqn:He; [| apply IH; assumption].
    exfalso. apply Hx. apply Heqb in He. rewrite He.
    apply in_map. exact Ha.
Qed.

(** X16. In every database the operations of the module can build, each
    row of [visitors] is the one that its id and its fingerprint look up,
    and each row of [users] is the one that its id and its address look
    up: no two rows ever share an id, a fingerprint or, up to the case of
    ASCII letters, an address. *)
Theorem rows_found_by_keys (t : Tables) :
  reachable t ->
  (forall v, In v (visitors t) ->
     getVisitorById (Some (v_id v)) t = Some v
     /\ getVisitorByFingerprint (v_fingerprint v) t = Some v)
  /\ (forall u, In u (users t) ->
        getUserById (u_id u) t = Some u
        /\ getUserByEmail (u_email u) t = Some u)
  /\ (forall u w, In u (users t) -> In w (users t) ->
        Sql.nocase (u_email u) = Sql.nocase (u_email w) -> u = w).
Proof.
  intros Hr. destruct (reachable_keyed t Hr) as [Kv Kf Ku Ke _ _ _ _ _ _].
  split; [| split].
  - intros v Hv. split.
    + apply (find_by_key v_id Z.eqb); [apply Z.eqb_eq | exact Kv | exact Hv].
    + apply (find_by_key v_fingerprint String.eqb);
        [apply String.eqb_eq | exact Kf | exact Hv].
  - intros u Hu. split.
    + apply (find_by_key u_id Z.eqb); [apply Z.eqb_eq | exact Ku | exact Hu].
    + apply (find_by_key (fun u => Sql.nocase (u_email u)) String.eqb);
        [apply String.eqb_eq | exact Ke | exact Hu].
  - intros u w Hu Hw He.
    apply (NoDup_map_inj (fun u => Sql.nocase (u_email u)) (users t));
      assumption.
Qed.

Lemma reachable_registered : reachable Scenario.registered.
Proof.
  apply (reach_apply Scenario.noon (CreateUser _)).
  change Scenario.visited
    with (apply Scenario.noon
            (UpsertVisitor
               (mkVisitorData "abc123" (Some (getClientIP Scenario.browser))
                  (user_agent Scenario.browser) None None None None None))
            empty).
  apply reach_apply. apply reach_empty.
Qed.

Lemma stored_account_in : In stored_account (users Scenario.registered).
Proof. left. reflexivity. Qed.

(** ** Superusers in the databases the store builds *)




Lemma rows_found_by_keys_witness :
  getUserByEmail "user@test.com" Scenario.registered = Some stored_account.
Proof.
  destruct (rows_found_by_keys Scenario.registered reachable_registered)
    as (_ & H & _).
  apply (H stored_account stored_account_in).
Defined.

(** X17. In every database the operations of the module can build, every
    foreign key names a row: the user of each session and of each reset
    token exists, and so do the user and the visitor a log row names and
    the visitor an account names.  So a stored session whose expiry is
    above the clock's text, as the [DATETIME] column compares them, is
    always returned by [getSessionByToken]: the join with [users] never
    drops it. *)
Theorem references_resolve (t : Tables) :
  reachable t ->
  (forall s, In s (sessions t) ->
     getUserById (s_user_id s) t <> None
     /\ forall n,
          Sql.datetime_gtb (s_expires_at s) (Clock.sqlite_datetime n) = true ->
          getSessionByToken n (s_token s) t <> None)
  /\ (forall r, In r (password_resets t) ->
        getUserById (pr_user_id r) t <> None)
  /\ (forall q, In q (query_log t) ->
        (forall i, q_user_id q = Some i -> getUserById i t <> None)
        /\ (forall i, q_visitor_id q = Some i ->
              getVisitorById (Some i) t <> None))
  /\ (forall u i, In u (users t) -> u_visitor_id u = Some i ->
        getVisitorById (Some i) t <> None).
Proof.
  intros Hr. destruct (reachable_linked t Hr) as [Hu Hs Hqv Hqu Hp].
  rewrite Forall_forall in Hu, Hs, Hqv, Hqu, Hp.
  assert (Hfind : forall {A} (id_of : A -> Z) (l : list A) (i : Z),
             refers id_of l (Some i) = true ->
             find (fun x => id_of x =? i) l <> None).
  { intros A id_of l i H. unfold refers in H.
    apply existsb_exists in H as (x & Hx & Hid).
    intros Hnone. apply (find_none _ _ Hnone) in Hx. congruence. }
  split; [| split; [| split]].
  - intros s Hin. split; [apply Hfind, Hs, Hin |].
    intros n Hlive Hnone. unfold getSessionByToken in Hnone.
    pose proof (Hs s Hin) as Href. unfold refers in Href.
    apply existsb_exists in Href as (u & Hu' & Hid).
    assert (Hrow : In (session_row s u)
                      (flat_map
                         (fun s0 =>
                            if String.eqb (s_token s0) (s_token s)
                               && Sql.datetime_gtb (s_expires_at s0)
                                                   (Clock.sqlite_datetime n)
                            then map (session_row s0)
                                     (filter (fun u0 => s_user_id s0 =? u_id u0)
                                             (users t))
                            else [])
                         (sessions t))).
    { apply in_flat_map. exists s. split; [exact Hin |].
      rewrite String.eqb_refl, Hlive. cbn [andb].
      apply in_map. apply filter_In. split; [exact Hu' |].
      rewrite Z.eqb_sym. exact Hid. }
    destruct (flat_map _ (sessions t)); [destruct Hrow | discriminate].
  - intros r Hin. apply Hfind, Hp, Hin.
  - intros q Hin. split; intros i Hi.
    + apply Hfind. rewrite <- Hi. apply Hqu, Hin.
    + apply (Hfind _ v_id). rewrite <- Hi. apply Hqv, Hin.
  - intros u i Hin Hi. apply (Hfind _ v_id). rewrite <- Hi. apply Hu, Hin.
Qed.

Lemma references_resolve_witness :
  getVisitorById (Some 1) Scenario.registered <> None.
Proof.
  destruct (references_resolve Scenario.registered reachable_registered)
    as (_ & _ & _ & H).
  apply (H stored_account 1 stored_account_in eq_refl).
Defined.

(** X18. In every database the operations of the module can build, the
    stored [is_superuser] of every account is 0, its tier is [free] and its
    query limit is NULL, so that [withSuperuserStatus] reports a superuser
    exactly for a listed address; [email_verified] and [used] hold 0 or 1;
    and no visitor has a negative count. *)
Theorem stored_columns_plain (t : Tables) :
  reachable t ->
  (forall u, In u (users t) ->
     u_is_superuser u = 0 /\ u_tier u = "free" /\ u_query_limit u = None
     /\ (u_email_verified u = 0 \/ u_email_verified u = 1)
     /\ option_map u_is_superuser (withSuperuserStatus (Some u))
        = Some (if isSuperuser (Some (u_email u)) then 1 else 0))
  /\ (forall v, In v (visitors t) -> 0 <= v_query_count v)
  /\ (forall r, In r (password_resets t) -> pr_used r = 0 \/ pr_used r = 1).
Proof.
  intros Hr. destruct (reachable_plain t Hr) as [Hu Hv Hp].
  rewrite Forall_forall in Hu, Hv, Hp.
  split; [| split; [exact Hv | exact Hp]].
  intros u Hin. destruct (Hu u Hin) as (Hflag & Htier & Hlimit & Hver).
  repeat split; try assumption.
  cbn. rewrite Hflag. destruct (isSuperuser (Some (u_email u))); reflexivity.
Qed.

Lemma stored_columns_plain_witness :
  option_map u_is_superuser (withSuperuserStatus (Some stored_account))
  = Some 0.
Proof.
  destruct (stored_columns_plain Scenario.registered reachable_registered)
    as (H & _).
  destruct (H stored_account stored_account_in) as (_ & _ & _ & _ & Hs).
  exact Hs.
Defined.
